(** * A-share trading reporter: aggregator, provider chain and alert engine

    Shallow embedding of
      scripts/a_share_intraday_report_v2.py  (Bar, Ohlc, summarize_ohlc,
                                              ProviderChain.kline)
      scripts/a_share_price_alerts.py        (compute_vwap, is_trading_time,
                                              load_state, save_state,
                                              send_message, main)

    Numbers.  A finite Python float is a rational, and the comparisons
    [<], [<=], [==] of floats are those of the rationals; NaN and the
    infinities are outside the model.  Where the alert engine compares the
    price with a computed VWAP the rounding of the quotient decides the
    outcome, so there the division is the IEEE one ([float_div], the exact
    quotient rounded to the nearest double by [round_double]) and the sums
    are the interpreter's ([float_sum]); [float] of a JSON number rounds
    too and raises OverflowError on an int out of range.  The summaries of
    the report and the percentage shown in a message are computed on exact
    rationals ([py_sum], [py_div]).  Float division raises
    ZeroDivisionError on a zero divisor; that is kept in both.

    Effects.  The alert script reads the clock, a config file, two HTTP
    endpoints and a state file, writes the state file and spawns the
    notifier.  What it reads is an input record ([env]); what it does is
    a list of events in the order it happens, next to the state-file store
    it leaves behind.  A file is identified by its path as pathlib hands
    it to the system ([state_path_of]); two paths that reach one file
    through [..], a link or the working directory are two files here.  A
    write of the state file is taken to succeed; a read finds what the
    last write left.  The notifier may exit with any status or fail to
    start. *)

From Stdlib Require Import QArith Qround Qabs.
From stdpp Require Import base option list sorting strings gmap pretty.

Local Open Scope string_scope.
Local Open Scope list_scope.

(** ** Python exceptions (all of them subclasses of [Exception]) *)

Inductive exn : Type :=
  | RuntimeError (msg : string)
  | ValueError (msg : string)
  | TypeError (msg : string)
  | AttributeError (msg : string)
  | OSError (msg : string)
  | OverflowError (msg : string)
  | ZeroDivisionError
  | RequestException (msg : string).

(** [str(e)] *)
Definition exn_str (e : exn) : string :=
  match e with
  | RuntimeError m | ValueError m | TypeError m | AttributeError m
  | OSError m | OverflowError m | RequestException m => m
  | ZeroDivisionError => "float division by zero"
  end.

(** [str(last_err)] for [last_err : Optional[Exception]] *)
Definition opt_exn_str (o : option exn) : string :=
  match o with None => "None" | Some e => exn_str e end.

(** A call either returns or raises. *)
Inductive res (A : Type) : Type :=
  | Ok (a : A)
  | Raise (e : exn).
Arguments Ok {A} a.
Arguments Raise {A} e.

(** ** JSON values, as [json.loads] returns them

    A number is an int or a finite float.  Only an int can be as large as
    [2^1024]. *)

#[warnings="-register-all"] Inductive json : Type :=
  | JNull
  | JBool (b : bool)
  | JNum (q : Q)
  | JStr (s : string)
  | JList (l : list json)
  | JDict (l : list (string * json)).

(** What the embedding takes from the Python runtime without modelling it:
    parsing a float from text, the sum of a sequence of floats (its
    rounding depends on the interpreter: left to right before Python 3.12,
    compensated since), printing a float with a format specification, and
    [str] of a JSON value that is not a string.  The theorems hold for
    every implementation of these. *)
Class PyRuntime := {
  float_of_str : string -> option Q;   (* float(s); None: ValueError *)
  float_sum : list Q -> Q;             (* sum(xs), xs floats *)
  str_strip : string -> string;        (* s.strip() *)
  fmt_2f : Q -> string;                (* f"{x:.2f}" *)
  fmt_signed_2f : Q -> string;         (* f"{x:+.2f}" *)
  fmt_3f : Q -> string;                (* f"{x:.3f}" *)
  repr_json : json -> string           (* str(x), x not a str *)
}.

(** ** Float comparisons and truthiness *)

Definition Qltb (a b : Q) : bool := negb (Qle_bool b a).
Definition Qleb (a b : Q) : bool := Qle_bool a b.
Definition Qgeb (a b : Q) : bool := Qle_bool b a.
Definition Qgtb (a b : Q) : bool := negb (Qle_bool a b).

(** [bool(x)] of a float: false exactly for zero. *)
Definition float_truthy (x : Q) : bool := negb (Qeq_bool x 0).

(** [a / b], exact. *)
Definition py_div (a b : Q) : res Q :=
  if Qeq_bool b 0 then Raise ZeroDivisionError else Ok (a / b)%Q.

(** *** Rounding to a double (IEEE 754 binary64, nearest, ties to even) *)

(** The integer nearest to a rational, a tie going to the even one. *)
Definition nearest_even (x : Q) : Z :=
  let f := Qfloor x in
  match Qcompare (x - inject_Z f) (1 # 2) with
  | Lt => f
  | Gt => (f + 1)%Z
  | Eq => if Z.even f then f else (f + 1)%Z
  end.

Definition pow2 (k : Z) : Q := Qpower 2 k.

(** The [k] with [2^k <= |x| < 2^(k+1)], for a non-zero [x]: the
    difference of the bit lengths of numerator and denominator, or one
    less. *)
Definition binade (x : Q) : Z :=
  let k := (Z.log2 (Z.abs (Qnum x)) - Z.log2 (Zpos (Qden x)))%Z in
  if Qleb (pow2 k) (Qabs x) then k else (k - 1)%Z.

(** The double nearest to [x]: 53 significant bits, in steps of [2^-1074]
    below [2^-1022].  The exponent is not bounded above: a result of
    [2^1024] or more stands for an overflow. *)
Definition round_double (x : Q) : Q :=
  if Qeq_bool x 0 then 0%Q
  else
    let e := Z.max (binade x - 52) (-1074) in
    (inject_Z (nearest_even (x / pow2 e)) * pow2 e)%Q.

(** [a / b] on floats: the quotient, correctly rounded. *)
Definition float_div (a b : Q) : res Q :=
  if Qeq_bool b 0 then Raise ZeroDivisionError else Ok (round_double (a / b)).

(** [sum(xs)]: starts from 0 and adds left to right. *)
Definition py_sum (xs : list Q) : Q := fold_left Qplus xs 0%Q.

(** [max(xs)] and [min(xs)] of a non-empty sequence: the running value is
    replaced only by a strictly larger (smaller) item. *)
Definition py_max (x : Q) (xs : list Q) : Q :=
  fold_left (fun m y => if Qltb m y then y else m) xs x.
Definition py_min (x : Q) (xs : list Q) : Q :=
  fold_left (fun m y => if Qltb y m then y else m) xs x.

(** ** Time stamps

    [datetime] and [time] values compare field by field, most significant
    first. *)

Record pytime := Time {
  hour : Z; minute : Z; second : Z; microsecond : Z }.

Record datetime := DateTime {
  year : Z; month : Z; day_of_month : Z; tod : pytime }.

Fixpoint lex_leb (a b : list Z) : bool :=
  match a, b with
  | [], _ => true
  | _ :: _, [] => false
  | x :: a', y :: b' =>
      if Z.ltb x y then true
      else if Z.ltb y x then false
      else lex_leb a' b'
  end.

Definition time_fields (t : pytime) : list Z :=
  [hour t; minute t; second t; microsecond t].
Definition dt_fields (d : datetime) : list Z :=
  [year d; month d; day_of_month d] ++ time_fields (tod d).

Definition time_leb (a b : pytime) : bool := lex_leb (time_fields a) (time_fields b).
Definition dt_leb (a b : datetime) : bool := lex_leb (dt_fields a) (dt_fields b).
Definition dt_ltb (a b : datetime) : bool := negb (dt_leb b a).

(** [time(h, m)] *)
Definition time_hm (h m : Z) : pytime := Time h m 0 0.

(** ** Aggregator (a_share_intraday_report_v2.py) *)

Module Report.

Record Bar := mkBar {
  dt : datetime;
  open : Q; high : Q; low : Q; close : Q;
  volume : Q;   (* shares *)
  amount : Q    (* yuan *) }.

Record Ohlc := mkOhlc {
  o_open : Q; o_high : Q; o_low : Q; o_close : Q;
  vol : Q; amt : Q }.

(** [Ohlc.vwap]: [(self.amt / self.vol) if self.vol else None] *)
Definition vwap (s : Ohlc) : res (option Q) :=
  if float_truthy (vol s) then
    match py_div (amt s) (vol s) with
    | Ok v => Ok (Some v)
    | Raise e => Raise e
    end
  else Ok None.

(** [summarize_ohlc]: no sorting; [bars[0]] and [bars[-1]] are the first
    and last bar of the list as it was passed. *)
Definition summarize_ohlc (bars : list Bar) : option Ohlc :=
  match bars with
  | [] => None
  | b0 :: rest =>
      let o := open b0 in
      let h := py_max (high b0) (map high rest) in
      let l := py_min (low b0) (map low rest) in
      let c := close (List.last bars b0) in
      let vol := py_sum (map volume bars) in
      let amt := py_sum (map amount bars) in
      Some (mkOhlc o h l c vol amt)
  end.

(** [out.sort(key=lambda b: b.dt)], the last step of both providers'
    [kline]: a stable sort by time stamp.  [insert_bar] puts a bar in front
    of the first bar that is not strictly earlier, so bars with the same
    time stamp keep their order. *)
Fixpoint insert_bar (b : Bar) (l : list Bar) : list Bar :=
  match l with
  | [] => [b]
  | c :: l' => if dt_ltb (dt c) (dt b) then c :: insert_bar b l' else b :: l
  end.

Definition sort_bars (l : list Bar) : list Bar := foldr insert_bar [] l.

(** *** Provider chain *)

Record Provider := mkProvider {
  name : string;
  (** [p.kline(symbol, scale_min=.., day=..)]: what the backend answers *)
  kline : string -> nat -> string -> res (list Bar) }.

(** The loop of [ProviderChain.kline]; the second component lists the
    backends that were called, in call order. *)
Fixpoint kline_loop (ps : list Provider) (symbol : string) (scale_min : nat)
    (day : string) (last_err : option exn)
    : (list Bar + option exn) * list string :=
  match ps with
  | [] => (inr last_err, [])
  | p :: ps' =>
      match kline p symbol scale_min day with
      | Ok bars =>
          match bars with
          | _ :: _ => (inl bars, [name p])
          | [] =>
              let '(r, called) := kline_loop ps' symbol scale_min day last_err in
              (r, name p :: called)
          end
      | Raise e =>
          let '(r, called) := kline_loop ps' symbol scale_min day (Some e) in
          (r, name p :: called)
      end
  end.

Definition chain_error (symbol : string) (scale_min : nat) (last_err : option exn) : exn :=
  RuntimeError ("All providers failed for kline(" ++ symbol ++ "," ++
                pretty scale_min ++ "m): " ++ opt_exn_str last_err).

Definition chain_kline (ps : list Provider) (symbol : string) (scale_min : nat)
    (day : string) : res (list Bar) * list string :=
  match kline_loop ps symbol scale_min day None with
  | (inl bars, called) => (Ok bars, called)
  | (inr last_err, called) => (Raise (chain_error symbol scale_min last_err), called)
  end.

End Report.

(** ** Alert engine (a_share_price_alerts.py) *)

Module Alerts.

Record Quote := mkQuote {
  name : string;
  open : Q; preclose : Q; price : Q; high : Q; low : Q;
  volume : Q; amount : Q;
  date : string; time : string }.

(** Command line, after [argparse]. *)
Record Args := mkArgs {
  symbol : string;
  channel : string;
  target : string;
  config : string;
  levels : string;
  breakdown : string;
  state_dir : string }.

(** The alert state, a dict with the keys "date", "fired", "vwap_rel" and
    "last_fire_at"; [None] is an absent key.  [state["fired"]] and the
    local [fired] of [main] are one object: a write to [fired] is a write
    to [st_fired]. *)
Record State := mkState {
  st_date : option string;
  st_fired : option (gmap string bool);
  st_vwap_rel : option string;
  st_last_fire_at : option string }.

(** [{}] *)
Definition empty_state : State := mkState None None None None.

(** [{"date": day, "fired": {}}] *)
Definition fresh_state (day : string) : State := mkState (Some day) (Some ∅) None None.

(** A state file: text that [json.loads] rejects, or a state.  The script
    writes nothing else; a file holding some other JSON document is not
    modelled. *)
Inductive file : Type :=
  | Garbage
  | StateJson (st : State).

(** How [subprocess.run(cmd, check=False, ...)] ends: the child ran and
    exited with a status, or it could not be started (OSError). *)
Inductive spawn : Type :=
  | Exited (status : Z)
  | SpawnFailed (e : exn).

(** What one invocation reads from outside. *)
Record env := mkEnv {
  now_weekday : nat;                 (* datetime.now().weekday(), 0 = Monday *)
  now_time : pytime;                 (* datetime.now().time() *)
  config_reply : res json;           (* json.loads(Path(args.config).read_text()) *)
  quote_reply : res Quote;           (* fetch_sina_quote(args.symbol) *)
  kline_reply : res (list json);     (* fetch_sina_kline(symbol, 1, 1000) *)
  notify_reply : spawn               (* the openclaw child process *) }.

Inductive event : Type :=
  | EvReadConfig (path : string)
  | EvFetchQuote (symbol : string)
  | EvLoadState (path : string)
  | EvFetchKline (symbol : string)
  | EvMark (key : string)            (* ghost: fired[key] = True, in memory *)
  | EvSaveState (path : string) (st : State)
  | EvSendMessage (channel target message : string).

(** *** The effect monad: state-file store, exceptions, event log *)

Definition M (A : Type) : Type :=
  gmap string file -> res A * gmap string file * list event.

Definition ret {A} (a : A) : M A := fun s => (Ok a, s, []).
Definition raise {A} (e : exn) : M A := fun s => (Raise e, s, []).
Definition emit (ev : event) : M unit := fun s => (Ok tt, s, [ev]).
Definition lift {A} (r : res A) : M A := fun s => (r, s, []).

Definition bind {A B} (m : M A) (f : A -> M B) : M B :=
  fun s =>
    match m s with
    | (Ok a, s1, t1) =>
        match f a s1 with
        | (r, s2, t2) => (r, s2, t1 ++ t2)
        end
    | (Raise e, s1, t1) => (Raise e, s1, t1)
    end.

(** [try: m  except Exception: h] *)
Definition try_except {A} (m : M A) (h : M A) : M A :=
  fun s =>
    match m s with
    | (Ok a, s1, t1) => (Ok a, s1, t1)
    | (Raise _, s1, t1) =>
        match h s1 with
        | (r, s2, t2) => (r, s2, t1 ++ t2)
        end
    end.

Declare Scope py_scope.
Delimit Scope py_scope with py.
Notation "x <- m ;; k" := (bind m (fun x => k))
  (at level 100, m at next level, right associativity) : py_scope.
Notation "m ;;; k" := (bind m (fun _ => k))
  (at level 100, right associativity) : py_scope.
Local Open Scope py_scope.

(** *** Small Python helpers *)

Definition nl : string := String (Ascii.ascii_of_nat 10) EmptyString.

(** [s[-n:]] *)
Definition last_chars (n : nat) (s : string) : string :=
  String.substring (String.length s - n) n s.

(** [d.get(k)] on a dict given as its items *)
Fixpoint dict_get (d : list (string * json)) (k : string) : option json :=
  match d with
  | [] => None
  | (k', v) :: d' => if String.eqb k' k then Some v else dict_get d' k
  end.

(** [x.get(k)]: AttributeError unless [x] is a dict. *)
Definition json_get (x : json) (k : string) : res (option json) :=
  match x with
  | JDict d => Ok (dict_get d k)
  | _ => Raise (AttributeError "object has no attribute 'get'")
  end.

(** [bool(x)] *)
Definition json_truthy (x : json) : bool :=
  match x with
  | JNull => false
  | JBool b => b
  | JNum q => float_truthy q
  | JStr s => negb (String.eqb s "")
  | JList l => match l with [] => false | _ => true end
  | JDict d => match d with [] => false | _ => true end
  end.

(** *** pathlib on POSIX

    A path is a root (none, one slash or two slashes) and the components
    that follow it.  Parsing drops empty components and [.] but keeps [..];
    exactly two leading slashes are a root of their own. *)

Definition slash : Ascii.ascii := Ascii.ascii_of_nat 47.

(** [s.split('/')] *)
Fixpoint split_slash (s : string) : list string :=
  match s with
  | EmptyString => [EmptyString]
  | String c s' =>
      if Ascii.eqb c slash then EmptyString :: split_slash s'
      else match split_slash s' with
           | h :: t => String c h :: t
           | [] => [String c EmptyString]
           end
  end.

Record PurePath := mkPath {
  root : string;
  parts : list string }.

Definition path_root (s : string) : string :=
  match s with
  | String c1 s1 =>
      if Ascii.eqb c1 slash then
        match s1 with
        | String c2 s2 =>
            if Ascii.eqb c2 slash then
              match s2 with
              | String c3 _ => if Ascii.eqb c3 slash then "/" else "//"
              | EmptyString => "//"
              end
            else "/"
        | EmptyString => "/"
        end
      else ""
  | EmptyString => ""
  end.

(** A component that parsing keeps. *)
Definition kept (p : string) : bool :=
  negb (String.eqb p "") && negb (String.eqb p ".").

Definition path_parts (s : string) : list string :=
  List.filter kept (split_slash s).

(** [Path(s)] *)
Definition Path (s : string) : PurePath := mkPath (path_root s) (path_parts s).

(** [p / key]: a [key] with a root replaces [p]. *)
Definition path_join (p : PurePath) (key : string) : PurePath :=
  let k := Path key in
  if String.eqb (root k) "" then mkPath (root p) (parts p ++ parts k) else k.

(** [str(p)] *)
Definition path_str (p : PurePath) : string :=
  match root p, parts p with
  | EmptyString, [] => "."
  | r, ps => r ++ String.concat "/" ps
  end.

Section WithRuntime.
Context `{PyRuntime}.

(** [float(s)] for a [str] *)
Definition float_str (s : string) : res Q :=
  match float_of_str s with
  | Some q => Ok q
  | None => Raise (ValueError "could not convert string to float")
  end.

(** [float(n)] for a number [n]: the nearest double (a float is its own),
    OverflowError for an int that rounds to [2^1024] or beyond. *)
Definition num_float (q : Q) : res Q :=
  let r := round_double q in
  if Qleb (pow2 1024) (Qabs r) then
    Raise (OverflowError "int too large to convert to float")
  else Ok r.

(** [float(x)] *)
Definition json_float (x : json) : res Q :=
  match x with
  | JNum q => num_float q
  | JBool b => Ok (if b then 1 else 0)%Q
  | JStr s => float_str s
  | _ => Raise (TypeError "float() argument must be a string or a real number")
  end.

(** [str(x)] *)
Definition json_str (x : json) : string :=
  match x with
  | JStr s => s
  | _ => repr_json x
  end.

(** [to_num]; an absent key ([r.get(k)] is None) is [JNull]. *)
Definition to_num (x : json) : Q :=
  match json_float x with
  | Ok q => q
  | Raise _ => 0%Q
  end.

Definition get_or (d : json) (o : option json) : json :=
  match o with Some v => v | None => d end.

(** [mapM] over a list comprehension whose body may raise *)
Fixpoint map_res {A B} (f : A -> res B) (l : list A) : res (list B) :=
  match l with
  | [] => Ok []
  | x :: l' =>
      match f x with
      | Raise e => Raise e
      | Ok y => match map_res f l' with
                | Raise e => Raise e
                | Ok ys => Ok (y :: ys)
                end
      end
  end.

(** [s.split(',')] *)
Fixpoint split_comma (s : string) : list string :=
  match s with
  | EmptyString => [EmptyString]
  | String c s' =>
      if Ascii.eqb c (Ascii.ascii_of_nat 44) then EmptyString :: split_comma s'
      else match split_comma s' with
           | h :: t => String c h :: t
           | [] => [String c EmptyString]
           end
  end.

(** *** Trigger configuration: the config file overrides the flags *)

Definition resolve_levels (cfg : json) (levels_flag : string) : list Q :=
  match json_get cfg "levels_up" with
  | Raise _ => []
  | Ok (Some (JList l)) =>
      match map_res json_float l with Ok qs => qs | Raise _ => [] end
  | Ok _ =>
      let toks := filter (fun x => negb (String.eqb (str_strip x) ""))
                         (split_comma levels_flag) in
      match map_res (fun x => float_str (str_strip x)) toks with
      | Ok qs => qs
      | Raise _ => []
      end
  end.

Definition resolve_breakdown (cfg : json) (breakdown_flag : string) : res Q :=
  let attempt :=
    match json_get cfg "breakdown" with
    | Raise err => Raise err
    | Ok None | Ok (Some JNull) => float_str breakdown_flag
    | Ok (Some v) => json_float v
    end in
  match attempt with
  | Ok bd => Ok bd
  | Raise _ => float_str breakdown_flag
  end.

(** [bool(cfg.get('vwap_cross', True))] *)
Definition vwap_cross_enabled (cfg : json) : res bool :=
  match json_get cfg "vwap_cross" with
  | Raise err => Raise err
  | Ok o => Ok (json_truthy (get_or (JBool true) o))
  end.

(** *** compute_vwap *)

(** [str(r.get('day', '')).startswith(yyyy_mm_dd)] *)
Definition row_on_day (yyyy_mm_dd : string) (r : json) : res bool :=
  match json_get r "day" with
  | Raise e => Raise e
  | Ok o => Ok (String.prefix yyyy_mm_dd (json_str (get_or (JStr "") o)))
  end.

Fixpoint filter_res {A} (f : A -> res bool) (l : list A) : res (list A) :=
  match l with
  | [] => Ok []
  | x :: l' =>
      match f x with
      | Raise e => Raise e
      | Ok b => match filter_res f l' with
                | Raise e => Raise e
                | Ok ys => Ok (if b then x :: ys else ys)
                end
      end
  end.

(** [to_num(r.get(k))] for a row that is known to be a dict *)
Definition row_num (k : string) (r : json) : Q :=
  match json_get r k with
  | Ok o => to_num (get_or JNull o)
  | Raise _ => 0%Q
  end.

(** [compute_vwap], from the rows [fetch_sina_kline] returned: the sums
    are sums of floats and the quotient is the rounded one, which is the
    float the price is compared with. *)
Definition vwap_of_rows (rows : list json) (yyyy_mm_dd : string) : res (option Q) :=
  match filter_res (row_on_day yyyy_mm_dd) rows with
  | Raise e => Raise e
  | Ok rows =>
      match rows with
      | [] => Ok None
      | _ :: _ =>
          let vol := float_sum (map (row_num "volume") rows) in
          let amt := float_sum (map (row_num "amount") rows) in
          if negb (float_truthy vol) then Ok None
          else match float_div amt vol with
               | Ok v => Ok (Some v)
               | Raise e => Raise e
               end
      end
  end.

Definition compute_vwap (e : env) (symbol yyyy_mm_dd : string) : M (option Q) :=
  emit (EvFetchKline symbol) ;;;
  rows <- lift (kline_reply e) ;;
  lift (vwap_of_rows rows yyyy_mm_dd).

(** *** is_trading_time, pct *)

Definition is_trading_time (weekday : nat) (t : pytime) : bool :=
  if Nat.leb 5 weekday then false
  else if time_leb (time_hm 9 30) t && time_leb t (time_hm 11 30) then true
  else if time_leb (time_hm 13 0) t && time_leb t (time_hm 15 0) then true
  else false.

Definition pct (a b : Q) : res Q :=
  if negb (float_truthy b) then Ok 0%Q
  else match py_div a b with
       | Ok r => Ok ((r - 1) * 100)%Q
       | Raise e => Raise e
       end.

(** *** State file and notifier *)

Definition load_state (path : string) : M State :=
  fun s =>
    match s !! path with
    | None => (Ok empty_state, s, [EvLoadState path])
    | Some Garbage => (Ok empty_state, s, [EvLoadState path])
    | Some (StateJson st) => (Ok st, s, [EvLoadState path])
    end.

Definition save_state (path : string) (state : State) : M unit :=
  fun s => (Ok tt, <[path := StateJson state]> s, [EvSaveState path state]).

(** [check=False]: the exit status of the child is not looked at. *)
Definition send_message (e : env) (channel target message : string) : M unit :=
  emit (EvSendMessage channel target message) ;;;
  match notify_reply e with
  | Exited _ => ret tt
  | SpawnFailed err => raise err
  end.

Definition fetch_sina_quote (e : env) (symbol : string) : M Quote :=
  emit (EvFetchQuote symbol) ;;;
  lift (quote_reply e).

(** *** main *)

(** [fired.get(key)], as a condition *)
Definition fired_get (state : State) (key : string) : bool :=
  match st_fired state with
  | Some fired => match fired !! key with Some true => true | _ => false end
  | None => false
  end.

(** [fired[key] = True; state["last_fire_at"] = ts] *)
Definition mark_fired (state : State) (key ts : string) : State :=
  mkState (st_date state)
          (Some (<[key := true]> (default ∅ (st_fired state))))
          (st_vwap_rel state)
          (Some ts).

(** [state["vwap_rel"] = rel] *)
Definition set_vwap_rel (state : State) (rel : string) : State :=
  mkState (st_date state) (st_fired state) (Some rel) (st_last_fire_at state).

(** [state.setdefault("fired", {})] *)
Definition setdefault_fired (state : State) : State :=
  mkState (st_date state) (Some (default ∅ (st_fired state)))
          (st_vwap_rel state) (st_last_fire_at state).

(** [if state.get("date") != day: state = {"date": day, "fired": {}}] *)
Definition reset_if_date_changed (state : State) (day : string) : State :=
  if bool_decide (st_date state = Some day) then state else fresh_state day.

(** [Path(args.state_dir) / f"{day}_{args.symbol}.json"], as the text
    [str] gives and the system is handed. *)
Definition state_path_of (args : Args) (day : string) : string :=
  path_str (path_join (Path (state_dir args)) (day ++ "_" ++ symbol args ++ ".json")).

Section Poll.
Variable e : env.
Variable args : Args.
Variable q : Quote.
Variable vwap : option Q.
Variable change : Q.

(** [ts = f"{q.date} {q.time}"] *)
Definition ts : string := date q ++ " " ++ time q.

(** [state_path = Path(args.state_dir) / f"{day}_{args.symbol}.json"] *)
Definition state_path : string := state_path_of args (date q).

Definition fire (state : State) (key text : string) : M State :=
  if fired_get state key then ret state
  else
    let state := mark_fired state key ts in
    emit (EvMark key) ;;;
    save_state state_path state ;;;
    send_message e (channel args) (target args) text ;;;
    ret state.

Definition msg_head : string :=
  "【盘中提醒】" ++ name q ++ "(" ++ last_chars 6 (symbol args) ++ ") ".

Definition msg_time_price : string :=
  "- 时间：" ++ ts ++ nl ++
  "- 现价：" ++ fmt_2f (price q) ++ "（" ++ fmt_signed_2f change ++ "%）" ++ nl.

Definition msg_tail : string := "（当日该条件仅提醒一次）".

Definition touch_key (lv : Q) : string := "touch_up_" ++ fmt_2f lv.

Definition touch_msg (lv : Q) : string :=
  msg_head ++ "触达 " ++ fmt_2f lv ++ nl ++ msg_time_price ++
  (match vwap with
   | Some v =>
       if float_truthy v then
         "- VWAP：" ++ fmt_3f v ++ "（" ++
         (if Qgtb (price q) v then "上方" else if Qltb (price q) v then "下方" else "≈") ++
         "）" ++ nl
       else ""
   | None => ""
   end) ++ msg_tail.

Definition break_key (bd : Q) : string := "break_dn_" ++ fmt_2f bd.

Definition break_msg (bd : Q) : string :=
  msg_head ++ "跌破 " ++ fmt_2f bd ++ nl ++ msg_time_price ++
  (match vwap with
   | Some v => if float_truthy v then "- VWAP：" ++ fmt_3f v ++ nl else ""
   | None => ""
   end) ++ msg_tail.

Definition cross_key (rel : string) : string := "vwap_cross_" ++ rel.

(** Built only where [vwap] is a non-zero float [v]. *)
Definition cross_msg (rel : string) (v : Q) : string :=
  msg_head ++ (if String.eqb rel "above" then "上穿" else "下穿") ++ " VWAP" ++ nl ++
  msg_time_price ++
  "- VWAP：" ++ fmt_3f v ++ nl ++
  msg_tail.

(** [rel]: where the price is against the VWAP, when there is one *)
Definition relation : option string :=
  match vwap with
  | Some v =>
      if float_truthy v then
        Some (if Qgtb (price q) v then "above"
              else if Qltb (price q) v then "below" else "equal")
      else None
  | None => None
  end.

(** The [for lv in levels] loop.  It answers [true] when it fired a level
    and [main] returned, [false] when it ran to the end. *)
Fixpoint touch_loop (state : State) (levels : list Q) : M bool :=
  match levels with
  | [] => ret false
  | lv :: rest =>
      let key := touch_key lv in
      if Qgeb (price q) lv && negb (fired_get state key) then
        fire state key (touch_msg lv) ;;; ret true
      else touch_loop state rest
  end.

(** [last_rel and last_rel != rel] *)
Definition crossed (last_rel : option string) (rel : string) : bool :=
  match last_rel with
  | Some l => negb (String.eqb l "") && negb (String.eqb l rel)
  | None => false
  end.

(** [main] from the level loop to its end. *)
Definition evaluate (cfg : json) (state : State) : M unit :=
  let last_rel := st_vwap_rel state in
  returned <- touch_loop state (resolve_levels cfg (levels args)) ;;
  if (returned : bool) then ret tt else
  bd <- lift (resolve_breakdown cfg (breakdown args)) ;;
  let key_bd := break_key bd in
  if Qltb (price q) bd && negb (fired_get state key_bd) then
    fire state key_bd (break_msg bd) ;;; ret tt
  else
  enabled <- lift (vwap_cross_enabled cfg) ;;
  match vwap, relation with
  | Some v, Some rel =>
      if (enabled : bool) && float_truthy v &&
         (String.eqb rel "above" || String.eqb rel "below") then
        if crossed last_rel rel then
          let key := cross_key rel in
          if negb (fired_get state key) then
            state' <- fire state key (cross_msg rel v) ;;
            save_state state_path (set_vwap_rel state' rel)
          else
            save_state state_path (set_vwap_rel state rel)
        else
          save_state state_path (set_vwap_rel state rel)
      else ret tt
  | _, _ => ret tt
  end.

End Poll.

Definition read_config (e : env) (args : Args) : M json :=
  if String.eqb (config args) "" then ret (JDict [])
  else
    emit (EvReadConfig (config args)) ;;;
    match config_reply e with
    | Ok cfg => ret cfg
    | Raise _ => ret (JDict [])
    end.

Definition main (e : env) (args : Args) : M unit :=
  if negb (is_trading_time (now_weekday e) (now_time e)) then ret tt else
  cfg <- read_config e args ;;
  q <- fetch_sina_quote e (symbol args) ;;
  let day := date q in
  state <- load_state (state_path_of args day) ;;
  let state := setdefault_fired (reset_if_date_changed state day) in
  vwap <- try_except (compute_vwap e (symbol args) day) (ret None) ;;
  change <- lift (pct (price q) (preclose q)) ;;
  evaluate e args q vwap change cfg state.

(** How the process ends. *)
Inductive outcome : Type :=
  | Finished                 (* main returned *)
  | SysExit (status : Z)     (* sys.exit(status) *)
  | Uncaught (err : exn).    (* traceback *)

(** [try: main()  except Exception: sys.exit(0)] *)
Definition script (e : env) (args : Args) (s : gmap string file)
    : outcome * gmap string file * list event :=
  match main e args s with
  | (Ok _, s', t) => (Finished, s', t)
  | (Raise _, s', t) => (SysExit 0, s', t)
  end.

End WithRuntime.

End Alerts.


(** ** Vocabulary for the statements about the aggregator and the chain *)

Module ReportSpec.
Import Report.

(** The order the providers sort by. *)
Definition bar_le (b c : Bar) : Prop := dt_leb (dt b) (dt c) = true.

(** Two one-minute bars, 09:31 and 09:32 on 2026-02-10. *)
Definition bar_0931 : Bar :=
  mkBar (DateTime 2026 2 10 (Time 9 31 0 0)) 10 10.2 9.9 10.1 500 5050.
Definition bar_0932 : Bar :=
  mkBar (DateTime 2026 2 10 (Time 9 32 0 0)) 10.1 10.4 10 10.3 700 7140.

(** A bar with a negative volume, as a faulty feed may send it. *)
Definition bar_negative_volume : Bar :=
  mkBar (DateTime 2026 2 10 (Time 9 31 0 0)) 9.9 9.9 9.9 9.9 (-100) 990.

Section Chain.
Variables (symbol : string) (scale_min : nat) (day : string).

(** The backend raised, or answered with an empty list. *)
Definition gives_no_bars (p : Provider) : Prop :=
  match kline p symbol scale_min day with
  | Ok (_ :: _) => False
  | _ => True
  end.

Definition raised (p : Provider) : option exn :=
  match kline p symbol scale_min day with
  | Raise e => Some e
  | Ok _ => None
  end.

(** The exception of the last backend that raised. *)
Definition last_error (ps : list Provider) : option exn := last (omap raised ps).

Definition first_with_bars (ps : list Provider) (bars : list Bar)
    (called : list string) : Prop :=
  exists pre p post,
    ps = pre ++ p :: post /\ Forall gives_no_bars pre /\
    kline p symbol scale_min day = Ok bars /\ bars <> [] /\
    called = map name pre ++ [name p].

End Chain.

End ReportSpec.

(** ** Vocabulary for the statements about the alert engine *)

Module AlertsSpec.
Import Alerts.

(** The messages sent, the trigger-ids marked and the states written, in
    the order of the log. *)
Definition sends (t : list event) : list (string * string * string) :=
  omap (fun ev => match ev with
                  | EvSendMessage c g m => Some (c, g, m)
                  | _ => None
                  end) t.

Definition marks (t : list event) : list string :=
  omap (fun ev => match ev with EvMark k => Some k | _ => None end) t.

Definition saves (t : list event) : list (string * State) :=
  omap (fun ev => match ev with
                  | EvSaveState p st => Some (p, st)
                  | _ => None
                  end) t.

(** The store after the writes of a log. *)
Definition replay (t : list event) (s : gmap string file) : gmap string file :=
  foldl (fun s ev => match ev with
                     | EvSaveState p st => <[p := StateJson st]> s
                     | _ => s
                     end) s t.

(** Microseconds since midnight. *)
Definition time_valid (t : pytime) : Prop :=
  (0 <= hour t < 24 /\ 0 <= minute t < 60 /\ 0 <= second t < 60 /\
   0 <= microsecond t < 1000000)%Z.

Definition us_of_time (t : pytime) : Z :=
  (((hour t * 60 + minute t) * 60 + second t) * 1000000 + microsecond t)%Z.

Definition us_hm (h m : Z) : Z := us_of_time (time_hm h m).

(** The state [main] works on once it has loaded the file and looked at
    its date. *)
Definition loaded_state (s : gmap string file) (path : string) : State :=
  match s !! path with
  | Some (StateJson st) => st
  | _ => empty_state
  end.

Definition poll_state (args : Args) (q : Quote) (s : gmap string file) : State :=
  setdefault_fired (reset_if_date_changed (loaded_state s (state_path args q)) (date q)).

Definition poll_cfg (e : env) (args : Args) : json :=
  if String.eqb (config args) "" then JDict []
  else match config_reply e with Ok cfg => cfg | Raise _ => JDict [] end.

(** What precedes the evaluation in the log. *)
Definition poll_prefix (args : Args) (q : Quote) : list event :=
  (if String.eqb (config args) "" then [] else [EvReadConfig (config args)]) ++
  [EvFetchQuote (symbol args); EvLoadState (state_path args q);
   EvFetchKline (symbol args)].

Section WithRuntime.
Context `{PyRuntime}.

(** The VWAP [main] works with: None when [compute_vwap] raised. *)
Definition poll_vwap (e : env) (q : Quote) : option Q :=
  match kline_reply e with
  | Ok rows => match vwap_of_rows rows (date q) with Ok v => v | Raise _ => None end
  | Raise _ => None
  end.

Definition poll_change (q : Quote) : Q :=
  match pct (price q) (preclose q) with Ok c => c | Raise _ => 0%Q end.

(** A level is due: the price has reached it and its id has not fired. *)
Definition touch_due (q : Quote) (state : State) (lv : Q) : bool :=
  Qgeb (price q) lv && negb (fired_get state (touch_key lv)).

Definition break_due (q : Quote) (state : State) (bd : Q) : bool :=
  Qltb (price q) bd && negb (fired_get state (break_key bd)).

(** What a poll does after its reads, given the state [state] it works
    on: nothing; one write of the relation; one fire (mark, write, send);
    or one fire and then the write of the relation. *)
Inductive poll_shape (e : env) (args : Args) (q : Quote) (state : State)
    : res unit -> list event -> Prop :=
  | shape_idle r :
      poll_shape e args q state r []
  | shape_relation rel :
      let st1 := set_vwap_rel state rel in
      poll_shape e args q state (Ok tt)
        [EvSaveState (state_path args q) st1]
  | shape_fire r key text :
      fired_get state key = false ->
      let st1 := mark_fired state key (ts q) in
      poll_shape e args q state r
        [EvMark key; EvSaveState (state_path args q) st1;
         EvSendMessage (channel args) (target args) text]
  | shape_fire_relation key text rel :
      fired_get state key = false ->
      let st1 := mark_fired state key (ts q) in
      let st2 := set_vwap_rel st1 rel in
      poll_shape e args q state (Ok tt)
        [EvMark key; EvSaveState (state_path args q) st1;
         EvSendMessage (channel args) (target args) text;
         EvSaveState (state_path args q) st2].

(** The evaluation step by step, as a relation between what [main] has
    in hand and what it does: the result and the log. *)
Section Does.
Variables (e : env) (args : Args) (q : Quote) (vwap : option Q) (change : Q)
          (cfg : json) (state : State).

Definition none_due (levels : list Q) : Prop :=
  Forall (fun lv => touch_due q state lv = false) levels.

(** The result of a call that ends with the notifier. *)
Definition after_notify : res unit :=
  match notify_reply e with
  | Exited _ => Ok tt
  | SpawnFailed err => Raise err
  end.

(** The log of one [fire] on an id that has not fired. *)
Definition fire_log (key text : string) : list event :=
  [EvMark key;
   EvSaveState (state_path args q) (mark_fired state key (ts q));
   EvSendMessage (channel args) (target args) text].

(** [vwap_cross_enabled and vwap and rel in ("above", "below")]: the
    relation and the VWAP when the cross step runs. *)
Definition cross_ready (enabled : bool) : option (string * Q) :=
  match vwap, relation q vwap with
  | Some v, Some rel =>
      if enabled && float_truthy v &&
         (String.eqb rel "above" || String.eqb rel "below")
      then Some (rel, v) else None
  | _, _ => None
  end.

(** A cross is due: the stored relation is another one and the id of this
    direction has not fired. *)
Definition cross_due (rel : string) : bool :=
  crossed (st_vwap_rel state) rel && negb (fired_get state (cross_key rel)).

Inductive poll_does : res unit -> list event -> Prop :=
  | does_touch pre lv post :
      resolve_levels cfg (levels args) = pre ++ lv :: post ->
      none_due pre ->
      touch_due q state lv = true ->
      poll_does after_notify
        (fire_log (touch_key lv) (touch_msg args q vwap change lv))
  | does_breakdown_error err :
      none_due (resolve_levels cfg (levels args)) ->
      resolve_breakdown cfg (breakdown args) = Raise err ->
      poll_does (Raise err) []
  | does_break bd :
      none_due (resolve_levels cfg (levels args)) ->
      resolve_breakdown cfg (breakdown args) = Ok bd ->
      break_due q state bd = true ->
      poll_does after_notify
        (fire_log (break_key bd) (break_msg args q vwap change bd))
  | does_config_error bd err :
      none_due (resolve_levels cfg (levels args)) ->
      resolve_breakdown cfg (breakdown args) = Ok bd ->
      break_due q state bd = false ->
      vwap_cross_enabled cfg = Raise err ->
      poll_does (Raise err) []
  | does_nothing bd enabled :
      none_due (resolve_levels cfg (levels args)) ->
      resolve_breakdown cfg (breakdown args) = Ok bd ->
      break_due q state bd = false ->
      vwap_cross_enabled cfg = Ok enabled ->
      cross_ready enabled = None ->
      poll_does (Ok tt) []
  | does_relation bd enabled rel v :
      none_due (resolve_levels cfg (levels args)) ->
      resolve_breakdown cfg (breakdown args) = Ok bd ->
      break_due q state bd = false ->
      vwap_cross_enabled cfg = Ok enabled ->
      cross_ready enabled = Some (rel, v) ->
      cross_due rel = false ->
      poll_does (Ok tt)
        [EvSaveState (state_path args q) (set_vwap_rel state rel)]
  | does_cross bd enabled rel v :
      none_due (resolve_levels cfg (levels args)) ->
      resolve_breakdown cfg (breakdown args) = Ok bd ->
      break_due q state bd = false ->
      vwap_cross_enabled cfg = Ok enabled ->
      cross_ready enabled = Some (rel, v) ->
      cross_due rel = true ->
      poll_does after_notify
        (fire_log (cross_key rel) (cross_msg args q change rel v) ++
         match notify_reply e with
         | Exited _ =>
             [EvSaveState (state_path args q)
                (set_vwap_rel (mark_fired state (cross_key rel) (ts q)) rel)]
         | SpawnFailed _ => []
         end).

End Does.

End WithRuntime.

End AlertsSpec.
(** ** A runtime to compute with

    Enough of [float()] (plain decimal text, rounded to the nearest
    double), [sum()] (left to right, each step rounded), [strip()] and the
    [.2f], [+.2f] and [.3f] formats to run the scripts on examples. *)

Module Demo.

Definition round_half_even (x : Q) : Z := nearest_even x.

Definition pad_zeros (n : nat) (s : string) : string :=
  String.concat "" (replicate (n - String.length s) "0") ++ s.

Definition fixed (digits : nat) (plus : bool) (x : Q) : string :=
  let unit := (10 ^ Z.of_nat digits)%Z in
  let scaled := round_half_even (Qabs x * inject_Z unit) in
  (if Qltb x 0 then "-" else if plus then "+" else "") ++
  pretty (scaled / unit)%Z ++ "." ++ pad_zeros digits (pretty (scaled mod unit)%Z).

Definition digit_of (c : Ascii.ascii) : option Z :=
  let n := Ascii.nat_of_ascii c in
  if Nat.leb 48 n && Nat.leb n 57 then Some (Z.of_nat (n - 48)) else None.

Fixpoint digits_from (acc : Z) (s : string) : option Z :=
  match s with
  | EmptyString => Some acc
  | String c s' =>
      match digit_of c with
      | Some d => digits_from (acc * 10 + d)%Z s'
      | None => None
      end
  end.

Fixpoint split_dot (s : string) : string * option string :=
  match s with
  | EmptyString => (EmptyString, None)
  | String c s' =>
      if Ascii.eqb c (Ascii.ascii_of_nat 46) then (EmptyString, Some s')
      else let '(a, b) := split_dot s' in (String c a, b)
  end.

Definition unsigned_decimal (s : string) : option Q :=
  match split_dot s with
  | (EmptyString, _) => None
  | (i, None) => (fun n => inject_Z n) <$> digits_from 0 i
  | (i, Some f) =>
      match digits_from 0 i, digits_from 0 f with
      | Some a, Some b =>
          Some (inject_Z a + inject_Z b / inject_Z (10 ^ Z.of_nat (String.length f)))%Q
      | _, _ => None
      end
  end.

Definition decimal (s : string) : option Q :=
  match s with
  | String c s' =>
      if Ascii.eqb c (Ascii.ascii_of_nat 45) then Qopp <$> unsigned_decimal s'
      else unsigned_decimal s
  | EmptyString => None
  end.

Fixpoint strip_left (s : string) : string :=
  match s with
  | String c s' => if Ascii.eqb c (Ascii.ascii_of_nat 32) then strip_left s' else s
  | EmptyString => EmptyString
  end.

Definition strip (s : string) : string :=
  String.rev (strip_left (String.rev (strip_left s))).

(** [sum(xs)] as CPython adds floats before 3.12. *)
Definition sum_left (xs : list Q) : Q :=
  fold_left (fun a x => round_double (a + x)) xs 0%Q.

#[export] Instance runtime : PyRuntime := {|
  float_of_str := fun s => round_double <$> decimal s;
  float_sum := sum_left;
  str_strip := strip;
  fmt_2f := fixed 2 false;
  fmt_signed_2f := fixed 2 true;
  fmt_3f := fixed 3 false;
  repr_json := fun _ => "<json>" |}.

End Demo.


(** ** Inputs for the examples *)

Module Examples.
Import Alerts.

Definition args0 : Args :=
  mkArgs "sh600158" "telegram" "123" "" "10.00,10.03" "9.86" "data/ashare/alerts".

(** The default levels, higher one first. *)
Definition args_descending : Args :=
  mkArgs "sh600158" "telegram" "123" "" "10.03,10.00" "9.86" "data/ashare/alerts".

(** A quote above both default levels, and one between the breakdown and
    the first level. *)
Definition quote_high : Quote :=
  mkQuote "X" 9.7 9.7 10.05 10.1 9.6 1000 9900 "2026-02-10" "10:00:00".
Definition quote_mid : Quote :=
  mkQuote "X" 9.7 9.7 9.95 10.1 9.6 1000 9900 "2026-02-10" "10:01:00".

(** One k-line row of the day: volume 100, amount 990, VWAP 9.9. *)
Definition rows0 : list json :=
  [JDict [("day", JStr "2026-02-10 09:31:00");
          ("volume", JStr "100"); ("amount", JStr "990")]].

Definition tuesday_10am (quote : Quote) (klines : res (list json)) (notify : spawn) : env :=
  mkEnv 1 (Time 10 0 0 0) (Raise (OSError "no config")) (Ok quote) klines notify.

(** No k-lines, notifier fine. *)
Definition env_plain : env :=
  tuesday_10am quote_high (Raise (RequestException "timeout")) (Exited 0).

(** No k-lines, notifier cannot be started. *)
Definition env_no_notifier : env :=
  tuesday_10am quote_high (Raise (RequestException "timeout"))
               (SpawnFailed (OSError "openclaw: not found")).


(** K-lines of the day, price between breakdown and levels. *)
Definition env_vwap_mid : env := tuesday_10am quote_mid (Ok rows0) (Exited 0).

(** A Saturday. *)
Definition env_saturday : env :=
  mkEnv 5 (Time 10 0 0 0) (Raise (OSError "no config")) (Ok quote_high)
        (Ok rows0) (Exited 0).

Definition path0 : string := "data/ashare/alerts/2026-02-10_sh600158.json".

(** Yesterday's state under today's file name. *)
Definition stale_state : State :=
  mkState (Some "2026-02-09") (Some {[ "touch_up_10.00" := true ]}) (Some "above")
          (Some "2026-02-09 14:00:00").
Definition store_stale : gmap string file := {[ path0 := StateJson stale_state ]}.

(** Today's state with the price last seen below the VWAP. *)
Definition below_state : State :=
  mkState (Some "2026-02-10") (Some ∅) (Some "below") None.
Definition store_below : gmap string file := {[ path0 := StateJson below_state ]}.

End Examples.

(** ** More of a_share_intraday_report_v2.py: the quote side of the chain,
    the providers' k-line parsing, the bars a report uses, and the
    intraday label *)

(** [datetime.strptime(s, fmt)]; None: ValueError. *)
Class PyStrptime := {
  strptime : string -> string -> option datetime
}.

Module ReportMore.

Record Quote := mkQuote {
  name : string;
  open : Q; preclose : Q; price : Q; high : Q; low : Q;
  volume : Q;   (* shares *)
  amount : Q;   (* yuan *)
  dt : option datetime;
  source : string }.

(** [q.source = s] *)
Definition set_source (q : Quote) (s : string) : Quote :=
  mkQuote (name q) (open q) (preclose q) (price q) (high q) (low q)
          (volume q) (amount q) (dt q) s.

(** A provider with both operations: the k-line side is [Report.Provider]. *)
Record Provider := mkProvider {
  base : Report.Provider;
  (** [p.quote(symbol)]: what the backend answers *)
  quote : string -> res Quote }.

(** The loop of [ProviderChain.quote]; the second component lists the
    backends that were called, in call order. *)
Fixpoint quote_loop (ps : list Provider) (symbol : string) (last_err : option exn)
    : (Quote + option exn) * list string :=
  match ps with
  | [] => (inr last_err, [])
  | p :: ps' =>
      match quote p symbol with
      | Ok q => (inl (set_source q (Report.name (base p))), [Report.name (base p)])
      | Raise e =>
          let '(r, called) := quote_loop ps' symbol (Some e) in
          (r, Report.name (base p) :: called)
      end
  end.

(** What the backend raised on the quote, if it raised. *)
Definition quote_raised (symbol : string) (p : Provider) : option exn :=
  match quote p symbol with
  | Raise e => Some e
  | Ok _ => None
  end.

Definition chain_quote (ps : list Provider) (symbol : string)
    : res Quote * list string :=
  match quote_loop ps symbol None with
  | (inl q, called) => (Ok q, called)
  | (inr last_err, called) =>
      (Raise (RuntimeError ("All providers failed for quote(" ++ symbol ++ "): " ++
                            opt_exn_str last_err)), called)
  end.

(** [pct]: None for a zero base. *)
Definition pct (a b : Q) : res (option Q) :=
  if negb (float_truthy b) then Ok None
  else match py_div a b with
       | Ok r => Ok (Some ((r - 1) * 100)%Q)
       | Raise e => Raise e
       end.

(** [x or 0.0] for [x : Optional[float]] *)
Definition or_zero (x : option Q) : Q :=
  match x with
  | Some v => if float_truthy v then v else 0%Q
  | None => 0%Q
  end.

(** The float written [0.3]: the double nearest to three tenths. *)
Definition float_0_3 : Q := 5404319552844595 # 18014398509481984.

Definition classify_intraday (open_ high low close preclose : Q) : res string :=
  match pct close preclose with
  | Raise e => Raise e
  | Ok c =>
      let ch := or_zero c in
      match pct high low with
      | Raise e => Raise e
      | Ok r =>
          let rng := or_zero r in
          if Qltb (Qabs ch) float_0_3 && Qltb rng (3 # 2) then Ok "震荡"
          else if Qgtb ch (1 # 2) then Ok "偏强"
          else if Qltb ch (- (1 # 2)) then Ok "偏弱"
          else Ok (String.append "震荡偏" (if Qgeb ch 0 then "强" else "弱"))
      end
  end.

(** *** The bars of a report ([build_report]) *)

(** [datetime.combine(report_date, time(11, 30))]; a date is year, month,
    day. *)
Definition morning_end (report_date : Z * Z * Z) : datetime :=
  let '(y, m, d) := report_date in DateTime y m d (time_hm 11 30).

(** [bars]: up to the end of the morning for mode "mid", all otherwise. *)
Definition report_bars (mode : string) (report_date : Z * Z * Z)
    (bars_all : list Report.Bar) : list Report.Bar :=
  if String.eqb mode "mid" then
    filter (fun b => dt_leb (Report.dt b) (morning_end report_date) = true) bars_all
  else bars_all.

(** [ohlc = summarize_ohlc(bars)], or the RuntimeError of [build_report]. *)
Definition report_ohlc (mode : string) (report_date : Z * Z * Z)
    (bars_all : list Report.Bar) : res Report.Ohlc :=
  match Report.summarize_ohlc (report_bars mode report_date bars_all) with
  | Some ohlc => Ok ohlc
  | None => Raise (RuntimeError "No kline rows for date; market closed or data unavailable")
  end.

(** [segment(t0, t1)]: the summary of the bars whose time of day lies in
    the window, both ends included. *)
Definition segment (bars_all : list Report.Bar) (t0 t1 : pytime) : option Report.Ohlc :=
  Report.summarize_ohlc
    (filter (fun b => time_leb t0 (tod (Report.dt b)) && time_leb (tod (Report.dt b)) t1 = true)
            bars_all).

(** The bar lies in the window. *)
Definition in_window (t0 t1 : pytime) (b : Report.Bar) : Prop :=
  time_leb t0 (tod (Report.dt b)) && time_leb (tod (Report.dt b)) t1 = true.

(** *** The providers' k-line parsing *)

Section WithRuntime.
Context `{PyRuntime} `{PyStrptime}.

Definition strptime_res (s fmt : string) : res datetime :=
  match strptime s fmt with
  | Some d => Ok d
  | None => Raise (ValueError "time data does not match format")
  end.

Definition parse_dt (s : string) : res datetime :=
  if Nat.eqb (String.length s) 16 then strptime_res s "%Y-%m-%d %H:%M"
  else strptime_res s "%Y-%m-%d %H:%M:%S".

(** One line of Eastmoney's "klines": None when it has fewer than seven
    fields and is passed over, a bar otherwise.  The fields are
    time, open, close, high, low, volume in lots, amount. *)
Definition eastmoney_bar (line : json) : res (option Report.Bar) :=
  let parts := Alerts.split_comma (Alerts.json_str line) in
  if Nat.ltb (length parts) 7 then Ok None
  else
    match parse_dt (nth 0 parts "") with
    | Raise e => Raise e
    | Ok d =>
        match Alerts.map_res Alerts.float_str (take 4 (drop 1 parts)) with
        | Ok [o; c; h; l] =>
            let vol_lot := Alerts.to_num (JStr (nth 5 parts "")) in
            let amt := Alerts.to_num (JStr (nth 6 parts "")) in
            Ok (Some (Report.mkBar d o h l c (vol_lot * 100)%Q amt))
        | Ok _ => Raise (ValueError "not enough values to unpack")
        | Raise e => Raise e
        end
    end.

(** The [for line in kl] loop: stops at the first line that raises. *)
Fixpoint eastmoney_rows (kl : list json) : res (list Report.Bar) :=
  match kl with
  | [] => Ok []
  | line :: kl' =>
      match eastmoney_bar line with
      | Raise e => Raise e
      | Ok ob =>
          match eastmoney_rows kl' with
          | Raise e => Raise e
          | Ok out => Ok (match ob with Some b => b :: out | None => out end)
          end
      end
  end.

(** [EastmoneyProvider.kline], from the "klines" list of the reply. *)
Definition eastmoney_kline (kl : list json) : res (list Report.Bar) :=
  match eastmoney_rows kl with
  | Raise e => Raise e
  | Ok out => Ok (Report.sort_bars out)
  end.

(** [str(row.get("day") or "")] *)
Definition sina_day (row : json) : res string :=
  match Alerts.json_get row "day" with
  | Raise e => Raise e
  | Ok o =>
      let v := Alerts.get_or JNull o in
      Ok (Alerts.json_str (if Alerts.json_truthy v then v else JStr ""))
  end.

(** One row of Sina's reply: None when it is not of the day. *)
Definition sina_bar (prefix : string) (row : json) : res (option Report.Bar) :=
  match sina_day row with
  | Raise e => Raise e
  | Ok s =>
      if negb (String.prefix prefix s) then Ok None
      else
        match strptime_res s "%Y-%m-%d %H:%M:%S" with
        | Raise e => Raise e
        | Ok d =>
            Ok (Some (Report.mkBar d
                        (Alerts.row_num "open" row) (Alerts.row_num "high" row)
                        (Alerts.row_num "low" row) (Alerts.row_num "close" row)
                        (Alerts.row_num "volume" row) (Alerts.row_num "amount" row)))
        end
  end.

Fixpoint sina_rows (prefix : string) (js : list json) : res (list Report.Bar) :=
  match js with
  | [] => Ok []
  | row :: js' =>
      match sina_bar prefix row with
      | Raise e => Raise e
      | Ok ob =>
          match sina_rows prefix js' with
          | Raise e => Raise e
          | Ok out => Ok (match ob with Some b => b :: out | None => out end)
          end
      end
  end.

(** [SinaProvider.kline], from the decoded reply; [prefix] is
    [day.isoformat()]. *)
Definition sina_kline (js : json) (prefix : string) : res (list Report.Bar) :=
  match js with
  | JList rows =>
      match sina_rows prefix rows with
      | Raise e => Raise e
      | Ok out => Ok (Report.sort_bars out)
      end
  | _ => Raise (RuntimeError (String.append "Unexpected kline json: "
                               (String.substring 0 200 (Alerts.json_str js))))
  end.

(** A line of "klines" with at least seven fields. *)
Definition full_line (line : json) : Prop :=
  7 <= length (Alerts.split_comma (Alerts.json_str line)).

#[global] Instance full_line_dec (line : json) : Decision (full_line line) :=
  decide (7 <= length (Alerts.split_comma (Alerts.json_str line))).

(** A row of Sina's reply whose day starts with the prefix. *)
Definition on_day (prefix : string) (row : json) : Prop :=
  match sina_day row with
  | Ok s => String.prefix prefix s = true
  | Raise _ => False
  end.

#[global] Instance on_day_dec (prefix : string) (row : json) : Decision (on_day prefix row) :=
  match sina_day row as r
    return Decision (match r with
                     | Ok s => String.prefix prefix s = true
                     | Raise _ => False
                     end)
  with
  | Ok s => decide (String.prefix prefix s = true)
  | Raise _ => right (fun x : False => x)
  end.

End WithRuntime.

End ReportMore.

(** ** More of a_share_price_alerts.py: the quote payload *)

Module AlertsMore.
Import Alerts.

Definition comma : Ascii.ascii := Ascii.ascii_of_nat 44.





(** The number of commas in a text. *)
Fixpoint count_commas (s : string) : nat :=
  match s with
  | EmptyString => 0
  | String c s' => (if Ascii.eqb c comma then 1 else 0) + count_commas s'
  end.

(** [",".join(parts)] *)
Definition join_comma (parts : list string) : string := String.concat "," parts.

Section WithRuntime.
Context `{PyRuntime}.



End WithRuntime.

(** A row of the k-line reply that is a JSON object. *)
Definition is_object (x : json) : bool :=
  match x with JDict _ => true | _ => false end.

End AlertsMore.

(** ** More inputs for the examples *)

Module MoreExamples.
Import Alerts Examples.

(** A quote below the breakdown level. *)
Definition quote_low : Quote :=
  mkQuote "X" 9.7 9.7 9.80 10.1 9.6 1000 9900 "2026-02-10" "10:02:00".

(** No k-lines, price below the breakdown. *)
Definition env_low : env :=
  tuesday_10am quote_low (Raise (RequestException "timeout")) (Exited 0).

(** The quote endpoint is down. *)
Definition env_no_quote : env :=
  mkEnv 1 (Time 10 0 0 0) (Raise (OSError "no config"))
        (Raise (RequestException "timeout")) (Ok rows0) (Exited 0).

(** Today's state with the first level fired. *)
Definition fired_state : State :=
  mkState (Some "2026-02-10") (Some {[ "touch_up_10.00" := true ]}) None
          (Some "2026-02-10 09:45:00").
Definition store_fired : gmap string file := {[ path0 := StateJson fired_state ]}.

(** A session in which every trade was at 9.95: one k-line row of 300
    shares for 2985 yuan, and the price the double nearest to 9.95.  The
    stored relation is below. *)
Definition rows_flat : list json :=
  [JDict [("day", JStr "2026-02-10 09:31:00");
          ("volume", JStr "300"); ("amount", JStr "2985")]].
Definition quote_flat : Quote :=
  mkQuote "X" 9.7 9.7 (round_double 9.95) 10.1 9.6 300 2985 "2026-02-10" "10:03:00".
Definition env_flat : env := tuesday_10am quote_flat (Ok rows_flat) (Exited 0).

(** The state directory written with a slash at its end. *)
Definition args_slash : Args :=
  mkArgs "sh600158" "telegram" "123" "" "10.00,10.03" "9.86" "data/ashare/alerts/".

(** A config whose second level is an int too large for a float. *)
Definition cfg_huge_level : json :=
  JDict [("levels_up", JList [JNum 10; JNum (inject_Z (10 ^ 400))])].

(** Fixed-width [strptime] for the two layouts the report script uses:
    digits at the places of year, month, day, hour, minute and second. *)
Definition field (s : string) (start len : nat) : option Z :=
  Demo.digits_from 0 (String.substring start len s).

Definition strptime_fixed (s fmt : string) : option datetime :=
  let seconds := String.eqb fmt "%Y-%m-%d %H:%M:%S" in
  if negb (Nat.eqb (String.length s) (if seconds then 19 else 16)) then None
  else
    match field s 0 4, field s 5 2, field s 8 2, field s 11 2, field s 14 2,
          (if seconds then field s 17 2 else Some 0%Z) with
    | Some y, Some m, Some d, Some hh, Some mm, Some ss =>
        Some (DateTime y m d (Time hh mm ss 0))
    | _, _, _, _, _, _ => None
    end.

#[export] Instance clock : PyStrptime := {| strptime := strptime_fixed |}.

(** Two lines of an Eastmoney reply, the later one first, and a line that
    is too short. *)
Definition klines0 : list json :=
  [JStr "2026-02-10 09:40,10.10,10.30,10.40,10.00,7,7140.00,0,0,0,0";
   JStr "2026-02-10 09:35";
   JStr "2026-02-10 09:35,10.00,10.10,10.20,9.90,5,5050.00,0,0,0,0"].

End MoreExamples.

(** ** a_share_generate_alert_config.py: the levels it writes *)

(** [round(x, 2)] on a float. *)
Class PyRound := {
  round_2 : Q -> Q
}.

Module Generator.

(** [sorted(levels)]: a stable sort, an item going in front of the first
    one that is not smaller. *)
Fixpoint insert_level (x : Q) (l : list Q) : list Q :=
  match l with
  | [] => [x]
  | y :: l' => if Qltb y x then y :: insert_level x l' else x :: l
  end.

Definition sorted (levels : list Q) : list Q := foldr insert_level [] levels.

Section WithRound.
Context `{PyRound}.

(** The loop of [uniq_sorted]; [seen] is the set of values already put
    out, membership being float equality. *)
Fixpoint uniq_loop (seen : list Q) (xs : list Q) : list Q :=
  match xs with
  | [] => []
  | x :: xs' =>
      let v := round_2 x in
      if Qleb v 0 then uniq_loop seen xs'
      else if existsb (Qeq_bool v) seen then uniq_loop seen xs'
      else v :: uniq_loop (v :: seen) xs'
  end.

Definition uniq_sorted (levels : list Q) : list Q := uniq_loop [] (sorted levels).

End WithRound.

(** Rounding to two decimals, half to even, on exact rationals. *)
Definition round_half_even_2 (x : Q) : Q :=
  (inject_Z (Demo.round_half_even (x * 100)) / 100)%Q.

Definition rounding : PyRound := {| round_2 := round_half_even_2 |}.

End Generator.

(** * Facts about the aggregator and the provider chain *)

Module ReportFacts.
Import Report ReportSpec.

(** ** Floats *)

Lemma Qltb_true (a b : Q) : Qltb a b = true <-> (a < b)%Q.
Proof.
  unfold Qltb. rewrite negb_true_iff. split.
  - intros Hf. apply Qnot_le_lt. intros Hle.
    apply Qle_bool_iff in Hle. congruence.
  - intros Hlt. destruct (Qle_bool b a) eqn:E; [|done].
    apply Qle_bool_iff in E. exfalso. eapply Qlt_not_le; eauto.
Qed.

Lemma Qltb_false (a b : Q) : Qltb a b = false <-> (b <= a)%Q.
Proof.
  unfold Qltb. rewrite negb_false_iff. apply Qle_bool_iff.
Qed.

Lemma float_truthy_true (x : Q) : float_truthy x = true <-> ~ (x == 0)%Q.
Proof.
  unfold float_truthy. rewrite negb_true_iff. split.
  - intros Hf Heq. apply Qeq_bool_iff in Heq. congruence.
  - intros Hne. destruct (Qeq_bool x 0) eqn:E; [|done].
    apply Qeq_bool_iff in E. contradiction.
Qed.

Lemma float_truthy_false (x : Q) : float_truthy x = false <-> (x == 0)%Q.
Proof.
  unfold float_truthy. rewrite negb_false_iff. apply Qeq_bool_iff.
Qed.

Lemma py_div_nonzero (a b : Q) : float_truthy b = true -> py_div a b = Ok (a / b)%Q.
Proof.
  unfold float_truthy, py_div. intros Hb. apply negb_true_iff in Hb. by rewrite Hb.
Qed.

Lemma float_div_nonzero (a b : Q) :
  float_truthy b = true -> float_div a b = Ok (round_double (a / b)).
Proof.
  unfold float_truthy, float_div. intros Hb. apply negb_true_iff in Hb. by rewrite Hb.
Qed.

Lemma py_max_spec (xs : list Q) : forall x,
  (py_max x xs = x \/ In (py_max x xs) xs) /\
  (x <= py_max x xs)%Q /\
  Forall (fun y => (y <= py_max x xs)%Q) xs.
Proof.
  unfold py_max. induction xs as [|y xs IH]; intros x; simpl.
  - split; [by left|]. split; [apply Qle_refl | constructor].
  - destruct (Qltb x y) eqn:E.
    + destruct (IH y) as (Hin & Hle & Hall). apply Qltb_true in E.
      split; [right; simpl; destruct Hin as [->|Hin]; [by left | by right]|]. split.
      * eapply Qle_trans; [apply Qlt_le_weak, E | apply Hle].
      * constructor; assumption.
    + destruct (IH x) as (Hin & Hle & Hall). apply Qltb_false in E.
      split; [simpl; tauto|]. split; [assumption|].
      constructor; [|assumption]. eapply Qle_trans; eauto.
Qed.

Lemma py_min_spec (xs : list Q) : forall x,
  (py_min x xs = x \/ In (py_min x xs) xs) /\
  (py_min x xs <= x)%Q /\
  Forall (fun y => (py_min x xs <= y)%Q) xs.
Proof.
  unfold py_min. induction xs as [|y xs IH]; intros x; simpl.
  - split; [by left|]. split; [apply Qle_refl | constructor].
  - destruct (Qltb y x) eqn:E.
    + destruct (IH y) as (Hin & Hle & Hall). apply Qltb_true in E.
      split; [right; simpl; destruct Hin as [->|Hin]; [by left | by right]|]. split.
      * eapply Qle_trans; [apply Hle | apply Qlt_le_weak, E].
      * constructor; assumption.
    + destruct (IH x) as (Hin & Hle & Hall). apply Qltb_false in E.
      split; [simpl; tauto|]. split; [assumption|].
      constructor; [|assumption]. eapply Qle_trans; eauto.
Qed.

(** [sum] agrees with the mathematical sum. *)
Lemma fold_left_Qplus (xs : list Q) : forall a,
  (fold_left Qplus xs a == a + fold_right Qplus 0 xs)%Q.
Proof.
  induction xs as [|x xs IH]; intros a; simpl.
  - ring.
  - rewrite IH. ring.
Qed.

Lemma py_sum_fold_right (xs : list Q) : (py_sum xs == fold_right Qplus 0 xs)%Q.
Proof. unfold py_sum. rewrite fold_left_Qplus. ring. Qed.

Lemma py_sum_nonneg (xs : list Q) :
  Forall (fun x => (0 <= x)%Q) xs -> (0 <= py_sum xs)%Q.
Proof.
  intros Hall. rewrite py_sum_fold_right.
  induction Hall as [|x xs Hx _ IH]; simpl.
  - apply Qle_refl.
  - replace 0%Q with (0 + 0)%Q by reflexivity. by apply Qplus_le_compat.
Qed.

(** ** summarize_ohlc *)

Lemma last_cons_default {A} (x d : A) (l : list A) :
  last (x :: l) = Some (List.last (x :: l) d).
Proof.
  revert x. induction l as [|y l IH]; intros x; [done|].
  change (last (x :: y :: l)) with (last (y :: l)).
  change (List.last (x :: y :: l) d) with (List.last (y :: l) d).
  apply IH.
Qed.

(** C8, amended.  [summarize_ohlc] returns nothing for an empty bar list.
    For a non-empty list it returns the open of the first bar, the largest
    high, the smallest low, the close of the last bar, the sum of the
    volumes and the sum of the amounts.  The derived VWAP is amount/volume
    whenever the volume is not zero, a negative one included, and None
    exactly when it is zero; when no bar has a negative volume that is
    amount/volume for a positive volume and None otherwise. *)
Theorem summarize_ohlc_spec (bars : list Bar) :
  (bars = [] -> summarize_ohlc bars = None) /\
  (forall b0 bl, head bars = Some b0 -> last bars = Some bl ->
     exists s, summarize_ohlc bars = Some s /\
       o_open s = open b0 /\
       (In (o_high s) (map high bars) /\ Forall (fun b => (high b <= o_high s)%Q) bars) /\
       (In (o_low s) (map low bars) /\ Forall (fun b => (o_low s <= low b)%Q) bars) /\
       o_close s = close bl /\
       (vol s == fold_right Qplus 0 (map volume bars))%Q /\
       (amt s == fold_right Qplus 0 (map amount bars))%Q /\
       ((0 < vol s)%Q -> vwap s = Ok (Some (amt s / vol s)%Q)) /\
       (~ (vol s == 0)%Q -> vwap s = Ok (Some (amt s / vol s)%Q)) /\
       ((vol s == 0)%Q <-> vwap s = Ok None) /\
       (Forall (fun b => (0 <= volume b)%Q) bars ->
        ~ (0 < vol s)%Q -> vwap s = Ok None)).
Proof.
  split; [by intros ->|].
  intros b0 bl Hhd Hlast.
  destruct bars as [|b rest]; [done|]. simpl in Hhd. injection Hhd as ->.
  eexists. split; [reflexivity|]. cbn [o_open o_high o_low o_close vol amt].
  rewrite (last_cons_default b0 b0 rest) in Hlast. injection Hlast as <-.
  destruct (py_max_spec (map high rest) (high b0)) as (Hmi & Hm0 & Hmall).
  destruct (py_min_spec (map low rest) (low b0)) as (Hni & Hn0 & Hnall).
  assert ((py_sum (map volume (b0 :: rest)) == 0)%Q ->
          vwap (mkOhlc (open b0) (py_max (high b0) (map high rest))
                  (py_min (low b0) (map low rest))
                  (close (List.last (b0 :: rest) b0))
                  (py_sum (map volume (b0 :: rest)))
                  (py_sum (map amount (b0 :: rest)))) = Ok None) as Hzero.
  { intros Hz. unfold vwap. cbn [vol amt].
    apply float_truthy_false in Hz. by rewrite Hz. }
  assert (~ (py_sum (map volume (b0 :: rest)) == 0)%Q ->
          vwap (mkOhlc (open b0) (py_max (high b0) (map high rest))
                  (py_min (low b0) (map low rest))
                  (close (List.last (b0 :: rest) b0))
                  (py_sum (map volume (b0 :: rest)))
                  (py_sum (map amount (b0 :: rest))))
          = Ok (Some (py_sum (map amount (b0 :: rest)) /
                      py_sum (map volume (b0 :: rest)))%Q)) as Hnonzero.
  { intros Hnz. unfold vwap. cbn [vol amt].
    apply float_truthy_true in Hnz. rewrite Hnz. by rewrite py_div_nonzero. }
  repeat split.
  - simpl. destruct Hmi as [->|Hmi]; [by left | by right].
  - constructor; [assumption|]. rewrite Forall_fmap in Hmall. exact Hmall.
  - simpl. destruct Hni as [->|Hni]; [by left | by right].
  - constructor; [assumption|]. rewrite Forall_fmap in Hnall. exact Hnall.
  - apply py_sum_fold_right.
  - apply py_sum_fold_right.
  - intros Hpos. apply Hnonzero. intros Hz. rewrite Hz in Hpos.
    by apply Qlt_irrefl in Hpos.
  - exact Hnonzero.
  - exact Hzero.
  - intros Hnone.
    destruct (Qeq_dec (py_sum (map volume (b0 :: rest))) 0) as [Hz|Hnz]; [exact Hz|].
    rewrite (Hnonzero Hnz) in Hnone. discriminate.
  - intros Hnonneg Hnpos. apply Hzero.
    apply Qle_antisym; [by apply Qnot_lt_le|].
    apply py_sum_nonneg. rewrite Forall_fmap. exact Hnonneg.
Qed.

(** ** Time stamps are totally ordered *)

Lemma lex_leb_total (a : list Z) : forall b,
  lex_leb a b = false -> lex_leb b a = true.
Proof.
  induction a as [|x a IH]; intros [|y b]; simpl; try done.
  destruct (Z.ltb_spec x y), (Z.ltb_spec y x); try done; try lia.
  apply IH.
Qed.

Lemma lex_leb_trans (a : list Z) : forall b c,
  lex_leb a b = true -> lex_leb b c = true -> lex_leb a c = true.
Proof.
  induction a as [|x a IH]; intros [|y b] [|z c]; simpl; try done.
  destruct (Z.ltb_spec x y), (Z.ltb_spec y x),
           (Z.ltb_spec y z), (Z.ltb_spec z y),
           (Z.ltb_spec x z), (Z.ltb_spec z x); try done; try lia.
  apply IH.
Qed.

Lemma lex_leb_antisym (a : list Z) : forall b,
  length a = length b ->
  lex_leb a b = true -> lex_leb b a = true -> a = b.
Proof.
  induction a as [|x a IH]; intros [|y b]; simpl; try done.
  intros Hlen. destruct (Z.ltb_spec x y), (Z.ltb_spec y x); try done; try lia.
  intros Hab Hba. f_equal; [lia|]. apply IH; [lia|done..].
Qed.

Lemma dt_fields_inj (a b : datetime) : dt_fields a = dt_fields b -> a = b.
Proof.
  destruct a as [y m d [h mi s us]], b as [y' m' d' [h' mi' s' us']].
  unfold dt_fields, time_fields. simpl. intros [=]. by subst.
Qed.

Lemma dt_leb_antisym (a b : datetime) :
  dt_leb a b = true -> dt_leb b a = true -> a = b.
Proof.
  intros Hab Hba. apply dt_fields_inj.
  by apply lex_leb_antisym.
Qed.

(** ** The providers' sort *)

Lemma lex_leb_refl (a : list Z) : lex_leb a a = true.
Proof.
  induction a as [|x a IH]; simpl; [done|].
  destruct (Z.ltb_spec x x); [lia | done].
Qed.

Lemma bar_le_refl (b : Report.Bar) : bar_le b b.
Proof. apply lex_leb_refl. Qed.

Lemma sorted_last_latest (bars : list Report.Bar) (bl : Report.Bar) :
  StronglySorted bar_le bars -> last bars = Some bl ->
  Forall (fun b => bar_le b bl) bars.
Proof.
  induction 1 as [|b bars Hs IH Hb]; [done|].
  rewrite last_cons. destruct (last bars) as [x|] eqn:Hl.
  - intros [= ->]. constructor; [|by apply IH].
    rewrite Forall_forall in Hb. apply Hb. by apply last_Some_elem_of.
  - intros [= ->]. apply last_None in Hl as ->.
    constructor; [apply bar_le_refl | constructor].
Qed.



Lemma bar_le_trans (a b c : Bar) : bar_le a b -> bar_le b c -> bar_le a c.
Proof. unfold bar_le, dt_leb. apply lex_leb_trans. Qed.

Lemma insert_bar_perm (b : Bar) (l : list Bar) : insert_bar b l ≡ₚ b :: l.
Proof.
  induction l as [|c l IH]; simpl; [done|].
  destruct (dt_ltb (dt c) (dt b)); [|done].
  rewrite IH. apply Permutation_swap.
Qed.

Lemma sort_bars_perm (l : list Bar) : sort_bars l ≡ₚ l.
Proof.
  induction l as [|b l IH]; simpl; [done|].
  by rewrite insert_bar_perm, IH.
Qed.

Lemma insert_bar_sorted (b : Bar) (l : list Bar) :
  StronglySorted bar_le l -> StronglySorted bar_le (insert_bar b l).
Proof.
  induction 1 as [|c l Hl IH Hc]; simpl.
  - by repeat constructor.
  - destruct (dt_ltb (dt c) (dt b)) eqn:E.
    + constructor; [assumption|].
      rewrite insert_bar_perm. constructor; [|assumption].
      unfold dt_ltb in E. apply negb_true_iff in E. by apply lex_leb_total.
    + unfold dt_ltb in E. apply negb_false_iff in E.
      constructor; [by constructor|].
      constructor; [assumption|].
      eapply Forall_impl; [exact Hc|]. intros d Hd.
      by eapply bar_le_trans.
Qed.

Lemma sort_bars_sorted (l : list Bar) : StronglySorted bar_le (sort_bars l).
Proof.
  induction l as [|b l IH]; simpl; [constructor|].
  by apply insert_bar_sorted.
Qed.

Lemma same_dt_same_bar (l : list Bar) (x y : Bar) :
  NoDup (map dt l) -> x ∈ l -> y ∈ l -> dt x = dt y -> x = y.
Proof.
  induction l as [|b l IH]; simpl; intros Hnd Hx Hy Hdt.
  - by apply elem_of_nil in Hx.
  - apply NoDup_cons in Hnd as [Hnotin Hnd].
    apply elem_of_cons in Hx as [->|Hx]; apply elem_of_cons in Hy as [->|Hy].
    + done.
    + exfalso. apply Hnotin. rewrite Hdt. by apply list_elem_of_fmap_2.
    + exfalso. apply Hnotin. rewrite <- Hdt. by apply list_elem_of_fmap_2.
    + by apply IH.
Qed.

(** Sorting makes the order of arrival irrelevant, as long as no two bars
    share a time stamp. *)
Lemma sort_bars_perm_eq (bars p : list Bar) :
  NoDup (map dt bars) -> p ≡ₚ bars -> sort_bars p = sort_bars bars.
Proof.
  intros Hnd Hp.
  apply (StronglySorted_unique_strong bar_le);
    [| apply sort_bars_sorted | apply sort_bars_sorted
     | by rewrite !sort_bars_perm].
  intros x y Hx Hy Hxy Hyx.
  rewrite sort_bars_perm, Hp in Hx. rewrite sort_bars_perm in Hy.
  apply (same_dt_same_bar bars); try done.
  by apply dt_leb_antisym.
Qed.


(** C4 as stated fails: [summarize_ohlc] takes open and close from the
    list as given, so the late bar first gives another summary than the
    time-sorted list. *)
Lemma summarize_ohlc_not_order_independent :
  [bar_0932; bar_0931] ≡ₚ [bar_0931; bar_0932] /\
  sort_bars [bar_0931; bar_0932] = [bar_0931; bar_0932] /\
  summarize_ohlc [bar_0932; bar_0931]
    <> summarize_ohlc (sort_bars [bar_0931; bar_0932]).
Proof.
  split; [apply Permutation_swap|]. split; [reflexivity|].
  vm_compute. discriminate.
Qed.

(** C4, amended.  [summarize_ohlc] does not sort: the open is that of the
    first bar and the close that of the last bar of the list as it was
    given.  The providers sort: what [kline] of either returns is the rows
    it parsed, sorted by time stamp.  For bars with pairwise distinct time
    stamps, sorting any permutation of them by time stamp gives one and the
    same list, so summarizing it gives one and the same summary: none for
    no bars, else one whose open is that of the earliest bar and whose
    close is that of the latest. *)
Theorem summarize_sorted_order_independent :
  (forall b rest,
     exists s, summarize_ohlc (b :: rest) = Some s /\
               o_open s = open b /\ o_close s = close (List.last (b :: rest) b)) /\
  (forall (rt : PyRuntime) (clk : PyStrptime) kl bars,
     ReportMore.eastmoney_kline kl = Ok bars ->
     exists out, ReportMore.eastmoney_rows kl = Ok out /\ bars = sort_bars out /\
                 StronglySorted bar_le bars /\ bars ≡ₚ out) /\
  (forall (rt : PyRuntime) (clk : PyStrptime) js prefix bars,
     ReportMore.sina_kline js prefix = Ok bars ->
     exists rows out, js = JList rows /\ ReportMore.sina_rows prefix rows = Ok out /\
                      bars = sort_bars out /\
                      StronglySorted bar_le bars /\ bars ≡ₚ out) /\
  (forall bars p,
     NoDup (map dt bars) -> p ≡ₚ bars ->
     sort_bars p = sort_bars bars /\
     summarize_ohlc (sort_bars p) = summarize_ohlc (sort_bars bars) /\
     (bars = [] -> summarize_ohlc (sort_bars p) = None) /\
     (bars <> [] ->
      exists s b0 bl,
        summarize_ohlc (sort_bars p) = Some s /\
        b0 ∈ bars /\ bl ∈ bars /\
        Forall (fun b => bar_le b0 b /\ bar_le b bl) bars /\
        o_open s = open b0 /\ o_close s = close bl)).
Proof.
  split; [|split; [|split]].
  - intros b rest. eexists. split; [reflexivity|]. by split.
  - intros rt clk kl bars. unfold ReportMore.eastmoney_kline.
    destruct (ReportMore.eastmoney_rows kl) as [out|err]; [|done].
    intros [= <-]. exists out. split; [done|]. split; [done|].
    split; [apply sort_bars_sorted | apply sort_bars_perm].
  - intros rt clk js prefix bars. unfold ReportMore.sina_kline.
    destruct js as [| | | |rows|]; try done.
    destruct (ReportMore.sina_rows prefix rows) as [out|err] eqn:Hrows; [|done].
    intros [= <-]. exists rows, out. split; [done|]. split; [done|]. split; [done|].
    split; [apply sort_bars_sorted | apply sort_bars_perm].
  - intros bars p Hnd Hp.
    pose proof (sort_bars_perm_eq bars p Hnd Hp) as Heq.
    split; [exact Heq|]. split; [by rewrite Heq|]. rewrite Heq. split.
    + by intros ->.
    + intros Hne.
      pose proof (sort_bars_sorted bars) as Hsorted.
      pose proof (sort_bars_perm bars) as Hperm.
      destruct (sort_bars bars) as [|b0 rest] eqn:Hs.
      { apply Permutation_nil_l in Hperm. by subst. }
      pose proof (last_cons_default b0 b0 rest) as Hlast.
      exists (mkOhlc (open b0) (py_max (high b0) (map high rest))
                (py_min (low b0) (map low rest))
                (close (List.last (b0 :: rest) b0))
                (py_sum (map volume (b0 :: rest)))
                (py_sum (map amount (b0 :: rest)))),
             b0, (List.last (b0 :: rest) b0).
      split; [reflexivity|].
      split; [rewrite <- Hperm; by left|].
      split; [rewrite <- Hperm; by apply last_Some_elem_of|].
      split; [|by split].
      rewrite <- Hperm.
      pose proof (sorted_last_latest _ _ Hsorted Hlast) as Hlate.
      apply StronglySorted_cons in Hsorted as [Hearly _].
      apply Forall_and. split; [|exact Hlate].
      constructor; [apply bar_le_refl | exact Hearly].
Qed.

Lemma summarize_sorted_order_independent_witness :
  NoDup (map dt [bar_0931; bar_0932]) /\
  [bar_0932; bar_0931] ≡ₚ [bar_0931; bar_0932] /\
  summarize_ohlc (sort_bars [bar_0932; bar_0931])
    = summarize_ohlc (sort_bars [bar_0931; bar_0932]) /\
  exists s, summarize_ohlc (sort_bars [bar_0932; bar_0931]) = Some s /\
            o_open s = open bar_0931 /\ o_close s = close bar_0932.
Proof.
  assert (NoDup (map dt [bar_0931; bar_0932])) as Hnd.
  { apply NoDup_cons. split; [|apply NoDup_singleton].
    intros Hin. apply list_elem_of_singleton in Hin. discriminate Hin. }
  split; [exact Hnd|]. split; [apply Permutation_swap|].
  destruct summarize_sorted_order_independent as (_ & _ & _ & Hord).
  destruct (Hord [bar_0931; bar_0932] [bar_0932; bar_0931] Hnd (Permutation_swap _ _ _))
    as (_ & Hsame & _ & _).
  split; [exact Hsame|].
  eexists. split; [vm_compute; reflexivity|]. split; reflexivity.
Defined.

(** C8 as stated fails: a bar with a negative volume gives a summary
    whose volume is not positive and whose VWAP is defined all the same
    (990 / -100 = -9.9). *)
Lemma summarize_vwap_of_negative_volume :
  exists s v,
    summarize_ohlc [bar_negative_volume] = Some s /\
    ~ (0 < vol s)%Q /\
    vwap s = Ok (Some v) /\ (v == -9.9)%Q.
Proof.
  eexists _, _. split; [reflexivity|].
  split; [vm_compute; discriminate|].
  split; [vm_compute; reflexivity|]. vm_compute. reflexivity.
Qed.

Lemma summarize_ohlc_spec_witness :
  Forall (fun b => (0 <= volume b)%Q) [bar_0931; bar_0932] /\
  exists s, summarize_ohlc [bar_0931; bar_0932] = Some s /\
    o_open s = 10%Q /\ o_close s = 10.3%Q /\
    vwap s = Ok (Some (amt s / vol s)%Q).
Proof.
  split; [repeat constructor; vm_compute; discriminate|].
  destruct (summarize_ohlc_spec [bar_0931; bar_0932]) as [_ Hs].
  destruct (Hs bar_0931 bar_0932 eq_refl eq_refl)
    as (s & Hsum & Hopen & _ & _ & Hclose & _ & _ & Hvwap & _).
  exists s. split; [exact Hsum|]. split; [exact Hopen|]. split; [exact Hclose|].
  apply Hvwap. injection Hsum as <-. vm_compute. reflexivity.
Defined.

(** ** ProviderChain.kline *)

Section Chain.
Variables (symbol : string) (scale_min : nat) (day : string).

Local Abbreviation gives_no_bars := (ReportSpec.gives_no_bars symbol scale_min day).
Local Abbreviation raised := (ReportSpec.raised symbol scale_min day).
Local Abbreviation last_error := (ReportSpec.last_error symbol scale_min day).
Local Abbreviation first_with_bars := (ReportSpec.first_with_bars symbol scale_min day).

Lemma first_with_bars_skip (p : Provider) (ps : list Provider) bars called :
  gives_no_bars p ->
  first_with_bars (p :: ps) bars (name p :: called) <-> first_with_bars ps bars called.
Proof.
  intros Hp. split.
  - intros (pre & p' & post & Hps & Hpre & Hk & Hne & Hcalled).
    destruct pre as [|p0 pre]; simpl in *.
    + injection Hps as <- <-. unfold gives_no_bars in Hp. rewrite Hk in Hp.
      by destruct bars.
    + injection Hps as <- ->. injection Hcalled as ->.
      apply Forall_cons in Hpre as [_ Hpre]. by exists pre, p', post.
  - intros (pre & p' & post & -> & Hpre & Hk & Hne & ->).
    exists (p :: pre), p', post. repeat split; try done. by constructor.
Qed.

Lemma first_with_bars_head (p : Provider) (ps : list Provider) bars called :
  first_with_bars (p :: ps) bars called ->
  exists called', called = name p :: called'.
Proof.
  intros (pre & p' & post & Hps & _ & _ & _ & ->).
  destruct pre as [|p0 pre]; simpl in *; injection Hps as <- _; eauto.
Qed.

Lemma kline_loop_found (ps : list Provider) : forall last_err bars called,
  kline_loop ps symbol scale_min day last_err = (inl bars, called)
  <-> first_with_bars ps bars called.
Proof.
  induction ps as [|p ps IH]; intros last_err bars called; simpl.
  - split; [done|]. intros (pre & p & post & Hps & _). by destruct pre.
  - destruct (kline p symbol scale_min day) as [[|b bs]|e] eqn:Hk.
    + assert (gives_no_bars p) as Hp by (unfold gives_no_bars; by rewrite Hk).
      destruct (kline_loop ps symbol scale_min day last_err) as [r called'] eqn:Hl.
      split.
      * intros [= -> <-]. apply first_with_bars_skip; [done|]. by apply (IH last_err).
      * intros Hf. destruct (first_with_bars_head _ _ _ _ Hf) as [c ->].
        apply first_with_bars_skip in Hf; [|done].
        apply (IH last_err) in Hf. rewrite Hl in Hf. by injection Hf as -> ->.
    + split.
      * intros [= <- <-]. exists [], p, ps. by rewrite Hk.
      * intros (pre & p' & post & Hps & Hpre & Hk' & Hne & ->).
        destruct pre as [|p0 pre]; simpl in *.
        -- injection Hps as <- <-. rewrite Hk in Hk'. by injection Hk' as <-.
        -- injection Hps as <- ->. apply Forall_cons in Hpre as [Hp0 _].
           unfold gives_no_bars in Hp0. by rewrite Hk in Hp0.
    + assert (gives_no_bars p) as Hp by (unfold gives_no_bars; by rewrite Hk).
      destruct (kline_loop ps symbol scale_min day (Some e)) as [r called'] eqn:Hl.
      split.
      * intros [= -> <-]. apply first_with_bars_skip; [done|]. by apply (IH (Some e)).
      * intros Hf. destruct (first_with_bars_head _ _ _ _ Hf) as [c ->].
        apply first_with_bars_skip in Hf; [|done].
        apply (IH (Some e)) in Hf. rewrite Hl in Hf. by injection Hf as -> ->.
Qed.

Lemma kline_loop_exhausted (ps : list Provider) : forall last_err last_err' called,
  kline_loop ps symbol scale_min day last_err = (inr last_err', called)
  <-> Forall gives_no_bars ps /\
      last_err' = from_option Some last_err (last_error ps) /\
      called = map name ps.
Proof.
  unfold last_error.
  induction ps as [|p ps IH]; intros last_err last_err' called; simpl.
  - split; [by intros [= <- <-] | by intros (_ & -> & ->)].
  - rewrite Forall_cons.
    assert (raised p = match kline p symbol scale_min day with
                       | Raise e => Some e | Ok _ => None end) as Hr by done.
    assert (gives_no_bars p <-> match kline p symbol scale_min day with
                                | Ok (_ :: _) => False | _ => True end) as Hg by done.
    rewrite Hr, Hg. clear Hr Hg.
    change (list_omap Provider exn raised ps) with (omap raised ps).
    destruct (kline p symbol scale_min day) as [[|b bs]|e] eqn:Hk.
    + destruct (kline_loop ps symbol scale_min day last_err) as [r called'] eqn:Hl.
      split.
      * intros [= -> <-]. apply IH in Hl as (? & ? & ->). done.
      * intros ((_ & Hall) & -> & ->).
        assert (kline_loop ps symbol scale_min day last_err
                = (inr (from_option Some last_err (last (omap raised ps))), map name ps))
          as Hl' by (by apply IH).
        rewrite Hl in Hl'. by injection Hl' as -> ->.
    + split; [done | by intros ([] & _)].
    + destruct (kline_loop ps symbol scale_min day (Some e)) as [r called'] eqn:Hl.
      rewrite last_cons.
      split.
      * intros [= -> <-]. apply IH in Hl as (? & -> & ->).
        repeat split; try done. by destruct (last (omap raised ps)).
      * intros ((_ & Hall) & -> & ->).
        assert (kline_loop ps symbol scale_min day (Some e)
                = (inr (from_option Some (Some e) (last (omap raised ps))), map name ps))
          as Hl' by (by apply IH).
        rewrite Hl in Hl'. injection Hl' as -> ->.
        by destruct (last (omap raised ps)).
Qed.

(** C7.  The chain asks the backends in order and stops at the first one
    that answers with a non-empty list, which it returns; a backend that
    raises or answers with an empty list is passed over.  It raises exactly
    when every backend raised or answered empty, and the message of that
    error ends with the text of the last exception a backend raised (None
    when none did). *)
Theorem chain_kline_spec (ps : list Provider) :
  (forall bars called,
     chain_kline ps symbol scale_min day = (Ok bars, called)
     <-> exists pre p post,
           ps = pre ++ p :: post /\ Forall gives_no_bars pre /\
           kline p symbol scale_min day = Ok bars /\ bars <> [] /\
           called = map name pre ++ [name p]) /\
  (forall err called,
     chain_kline ps symbol scale_min day = (Raise err, called)
     <-> Forall gives_no_bars ps /\
         err = RuntimeError ("All providers failed for kline(" ++ symbol ++ "," ++
                 pretty scale_min ++ "m): " ++ opt_exn_str (last_error ps)) /\
         called = map name ps).
Proof.
  unfold chain_kline. split.
  - intros bars called.
    destruct (kline_loop ps symbol scale_min day None) as [[bs|le] c] eqn:Hl.
    + split.
      * intros [= <- <-]. by apply (kline_loop_found ps None).
      * intros Hf. apply (kline_loop_found ps None) in Hf.
        rewrite Hl in Hf. by injection Hf as -> ->.
    + split; [done|]. intros Hf. apply (kline_loop_found ps None) in Hf.
      rewrite Hl in Hf. done.
  - intros err called.
    destruct (kline_loop ps symbol scale_min day None) as [[bs|le] c] eqn:Hl.
    + split; [done|]. intros (Hall & _ & Hc).
      assert (kline_loop ps symbol scale_min day None
              = (inr (from_option Some None (last_error ps)), map name ps)) as Hl'
        by (by apply kline_loop_exhausted).
      rewrite Hl in Hl'. done.
    + apply kline_loop_exhausted in Hl as (Hall & -> & ->).
      assert (from_option Some None (last_error ps) = last_error ps) as ->
        by (by destruct (last_error ps)).
      split.
      * by intros [= <- <-].
      * by intros (_ & -> & ->).
Qed.

End Chain.

End ReportFacts.

(** * Facts about the alert engine *)

Module AlertsFacts.
Import Alerts AlertsSpec.
Import ReportFacts.

Section WithRuntime.
Context `{PyRuntime}.

Local Open Scope py_scope.

Ltac run := unfold bind, ret, raise, emit, lift, save_state, send_message; simpl.

Lemma bind_ext {A B} (m : M A) (f g : A -> M B) s :
  (forall a s', f a s' = g a s') -> bind m f s = bind m g s.
Proof.
  intros Hfg. unfold bind. destruct (m s) as [[[a|err] s1] t1]; [|done].
  by rewrite Hfg.
Qed.

Lemma fire_fresh e args q (state : State) key text s :
  fired_get state key = false ->
  fire e args q state key text s =
    (match notify_reply e with
     | Exited _ => Ok (mark_fired state key (ts q))
     | SpawnFailed err => Raise err
     end,
     <[state_path args q := StateJson (mark_fired state key (ts q))]> s,
     [EvMark key; EvSaveState (state_path args q) (mark_fired state key (ts q));
      EvSendMessage (channel args) (target args) text]).
Proof.
  intros Hk. unfold fire. rewrite Hk. run.
  by destruct (notify_reply e).
Qed.

(** The level loop stops at the first due level. *)
Lemma touch_loop_none e args q vwap change state levels s :
  Forall (fun lv => touch_due q state lv = false) levels ->
  touch_loop e args q vwap change state levels s = (Ok false, s, []).
Proof.
  induction 1 as [|lv levels Hlv _ IH]; simpl; [done|].
  unfold touch_due in Hlv. by rewrite Hlv.
Qed.

Lemma touch_loop_first e args q vwap change state pre lv post s :
  Forall (fun lv => touch_due q state lv = false) pre ->
  touch_due q state lv = true ->
  touch_loop e args q vwap change state (pre ++ lv :: post) s =
    (match notify_reply e with
     | Exited _ => Ok true
     | SpawnFailed err => Raise err
     end,
     <[state_path args q := StateJson (mark_fired state (touch_key lv) (ts q))]> s,
     [EvMark (touch_key lv);
      EvSaveState (state_path args q) (mark_fired state (touch_key lv) (ts q));
      EvSendMessage (channel args) (target args) (touch_msg args q vwap change lv)]).
Proof.
  intros Hpre Hlv.
  induction Hpre as [|lv' pre Hlv' _ IH]; simpl.
  - unfold touch_due in Hlv. rewrite Hlv.
    apply andb_true_iff in Hlv as [_ Hf]. apply negb_true_iff in Hf.
    unfold bind. rewrite (fire_fresh _ _ _ _ _ _ _ Hf).
    by destruct (notify_reply e).
  - unfold touch_due in Hlv'. by rewrite Hlv'.
Qed.

(** Either no level is due, or the list splits at the first due one. *)
Lemma first_due_split q state (levels : list Q) :
  Forall (fun lv => touch_due q state lv = false) levels \/
  exists pre lv post,
    levels = pre ++ lv :: post /\
    Forall (fun lv => touch_due q state lv = false) pre /\
    touch_due q state lv = true.
Proof.
  induction levels as [|lv levels IH]; [by left|].
  destruct (touch_due q state lv) eqn:E.
  - right. exists [], lv, levels. by repeat split.
  - destruct IH as [IH|(pre & lv' & post & -> & Hpre & Hlv')].
    + left. by constructor.
    + right. exists (lv :: pre), lv', post. repeat split; try done. by constructor.
Qed.

(** The evaluation does what [poll_does] says, whatever the store; the
    store it leaves is the one it found with the writes of its log. *)
Lemma evaluate_does e args q vwap change cfg state :
  exists r t,
    poll_does e args q vwap change cfg state r t /\
    forall s, evaluate e args q vwap change cfg state s = (r, replay t s, t).
Proof.
  unfold evaluate. cbv zeta.
  destruct (first_due_split q state (resolve_levels cfg (levels args)))
    as [Hnone|(pre & lv & post & Hsplit & Hpre & Hlv)].
  2:{ eexists _, _. split; [by eapply does_touch|].
      intros s. unfold bind at 1. rewrite Hsplit.
      rewrite (touch_loop_first _ _ _ _ _ _ _ _ _ _ Hpre Hlv).
      unfold after_notify. destruct (notify_reply e); reflexivity. }
  destruct (resolve_breakdown cfg (breakdown args)) as [bd|err] eqn:Hbdr.
  2:{ exists (Raise err), []. split; [by eapply does_breakdown_error|]. intros s.
      unfold bind at 1. rewrite (touch_loop_none _ _ _ _ _ _ _ _ Hnone).
      unfold bind at 1, lift at 1. reflexivity. }
  destruct (break_due q state bd) eqn:Hbd.
  { pose proof Hbd as Hbd'. unfold break_due in Hbd'.
    apply andb_true_iff in Hbd' as [_ Hf]. apply negb_true_iff in Hf.
    eexists _, _. split; [by eapply does_break|].
    intros s. unfold bind at 1. rewrite (touch_loop_none _ _ _ _ _ _ _ _ Hnone).
    unfold bind at 1, lift at 1. fold (break_due q state bd). rewrite Hbd.
    unfold bind. rewrite (fire_fresh _ _ _ _ _ _ _ Hf).
    unfold after_notify. destruct (notify_reply e); reflexivity. }
  destruct (vwap_cross_enabled cfg) as [enabled|err] eqn:Hen.
  2:{ exists (Raise err), []. split; [by eapply does_config_error|]. intros s.
      unfold bind at 1. rewrite (touch_loop_none _ _ _ _ _ _ _ _ Hnone).
      unfold bind at 1, lift at 1. fold (break_due q state bd). rewrite Hbd.
      unfold bind at 1, lift at 1. reflexivity. }
  assert (forall (k : bool -> M unit) s,
    (returned <- touch_loop e args q vwap change state (resolve_levels cfg (levels args)) ;;
     if (returned : bool) then ret tt else
     bd <- lift (Ok bd) ;;
     if Qltb (price q) bd && negb (fired_get state (break_key bd)) then
       fire e args q state (break_key bd) (break_msg args q vwap change bd) ;;; ret tt
     else enabled <- lift (Ok enabled) ;; k enabled) s = k enabled s) as Hskip.
  { intros k s. unfold bind at 1. rewrite (touch_loop_none _ _ _ _ _ _ _ _ Hnone).
    unfold bind at 1, lift at 1. fold (break_due q state bd). rewrite Hbd.
    unfold bind at 1, lift at 1.
    destruct (k enabled s) as [[r s'] t]. reflexivity. }
  destruct (cross_ready q vwap enabled) as [[rel v]|] eqn:Hready.
  2:{ exists (Ok tt), []. split; [by eapply does_nothing|]. intros s.
      rewrite Hskip. unfold cross_ready in Hready.
      destruct vwap as [v|]; [|done].
      destruct (relation q (Some v)) as [rel|]; [|done].
      by destruct (enabled && float_truthy v &&
                   (String.eqb rel "above" || String.eqb rel "below")). }
  assert (vwap = Some v /\ relation q vwap = Some rel /\
          enabled && float_truthy v &&
            (String.eqb rel "above" || String.eqb rel "below") = true)
    as (-> & Hrel & Hgo).
  { unfold cross_ready in Hready.
    destruct vwap as [v'|]; [|done].
    destruct (relation q (Some v')) as [rel'|]; [|done].
    destruct (enabled && float_truthy v' &&
              (String.eqb rel' "above" || String.eqb rel' "below")) eqn:E; [|done].
    by injection Hready as -> ->. }
  destruct (cross_due state rel) eqn:Hdue.
  2:{ eexists _, _. split; [by eapply does_relation|]. intros s.
      rewrite Hskip, Hrel, Hgo. unfold cross_due in Hdue.
      destruct (crossed (st_vwap_rel state) rel); [|reflexivity].
      simpl in Hdue. by rewrite Hdue. }
  eexists _, _. split; [by eapply does_cross|]. intros s.
  rewrite Hskip, Hrel, Hgo. unfold cross_due in Hdue.
  apply andb_true_iff in Hdue as [-> Hf]. rewrite Hf.
  apply negb_true_iff in Hf.
  unfold bind. rewrite (fire_fresh _ _ _ _ _ _ _ Hf).
  unfold after_notify. destruct (notify_reply e); reflexivity.
Qed.

(** The coarse view: every evaluation has one of the four shapes. *)
Lemma poll_does_shape e args q vwap change cfg state r t :
  poll_does e args q vwap change cfg state r t ->
  poll_shape e args q state r t.
Proof.
  assert (forall lv, touch_due q state lv = true -> fired_get state (touch_key lv) = false)
    as Htouch.
  { intros lv Hlv. unfold touch_due in Hlv.
    apply andb_true_iff in Hlv as [_ Hf]. by apply negb_true_iff in Hf. }
  destruct 1 as [pre lv post _ _ Hlv| | bd _ _ Hbd | | |
                 | bd enabled rel v _ _ _ _ _ Hdue];
    try by constructor.
  - apply shape_fire. by apply Htouch.
  - apply shape_fire. unfold break_due in Hbd.
    apply andb_true_iff in Hbd as [_ Hf]. by apply negb_true_iff in Hf.
  - unfold cross_due in Hdue.
    apply andb_true_iff in Hdue as [_ Hf]. apply negb_true_iff in Hf.
    unfold after_notify. destruct (notify_reply e); simpl.
    + by apply (shape_fire_relation _ _ _ _ (cross_key rel) _ rel).
    + by apply shape_fire.
Qed.

Lemma evaluate_run e args q vwap change cfg state :
  exists r t,
    poll_shape e args q state r t /\
    forall s, evaluate e args q vwap change cfg state s = (r, replay t s, t).
Proof.
  destruct (evaluate_does e args q vwap change cfg state) as (r & t & Hd & Hrun).
  exists r, t. split; [by eapply poll_does_shape | exact Hrun].
Qed.

(** ** The reads of [main] *)

Lemma pct_ok (a b : Q) : exists c, pct a b = Ok c.
Proof.
  unfold pct. destruct (float_truthy b) eqn:E; simpl; [|by eexists].
  rewrite (py_div_nonzero _ _ E). by eexists.
Qed.

Lemma pct_poll_change (q : Quote) : pct (price q) (preclose q) = Ok (poll_change q).
Proof.
  unfold poll_change. by destruct (pct_ok (price q) (preclose q)) as [c ->].
Qed.

Lemma read_config_run e args s :
  read_config e args s =
    (Ok (poll_cfg e args), s,
     if String.eqb (config args) "" then [] else [EvReadConfig (config args)]).
Proof.
  unfold read_config, poll_cfg.
  destruct (String.eqb (config args) ""); [done|].
  run. by destruct (config_reply e).
Qed.

Lemma load_state_run path s :
  load_state path s = (Ok (loaded_state s path), s, [EvLoadState path]).
Proof.
  unfold load_state, loaded_state. by destruct (s !! path) as [[|st]|].
Qed.

Lemma compute_vwap_run e q sym s :
  try_except (compute_vwap e sym (date q)) (ret None) s =
    (Ok (poll_vwap e q), s, [EvFetchKline sym]).
Proof.
  unfold try_except, compute_vwap, poll_vwap. run.
  destruct (kline_reply e) as [rows|err]; [|done].
  by destruct (vwap_of_rows rows (date q)) as [v|err].
Qed.

(** Outside trading hours [main] returns at once. *)
Lemma main_closed e args s :
  is_trading_time (now_weekday e) (now_time e) = false ->
  main e args s = (Ok tt, s, []).
Proof. intros Hc. unfold main. by rewrite Hc. Qed.

(** In trading hours, with a quote, [main] is its reads followed by the
    evaluation. *)
Lemma main_trading e args s q :
  is_trading_time (now_weekday e) (now_time e) = true ->
  quote_reply e = Ok q ->
  main e args s =
    match evaluate e args q (poll_vwap e q) (poll_change q) (poll_cfg e args)
                   (poll_state args q s) s with
    | (r, s', t) => (r, s', poll_prefix args q ++ t)
    end.
Proof.
  intros Ht Hq. unfold main. rewrite Ht. cbn [negb].
  unfold bind at 1. rewrite read_config_run.
  unfold bind at 1, fetch_sina_quote, bind at 1, emit, lift. rewrite Hq.
  unfold bind at 1. rewrite load_state_run.
  unfold bind at 1. rewrite compute_vwap_run.
  unfold bind at 1, lift. rewrite pct_poll_change.
  fold (state_path args q). fold (poll_state args q s).
  destruct (evaluate e args q (poll_vwap e q) (poll_change q) (poll_cfg e args)
              (poll_state args q s) s) as [[r s'] t].
  unfold poll_prefix. f_equal.
  destruct (String.eqb (config args) ""); reflexivity.
Qed.

(** Without a quote [main] raises before it touches the state file. *)
Lemma main_no_quote e args s err :
  is_trading_time (now_weekday e) (now_time e) = true ->
  quote_reply e = Raise err ->
  main e args s =
    (Raise err, s,
     (if String.eqb (config args) "" then [] else [EvReadConfig (config args)]) ++
     [EvFetchQuote (symbol args)]).
Proof.
  intros Ht Hq. unfold main. rewrite Ht. cbn [negb].
  unfold bind at 1. rewrite read_config_run.
  unfold bind at 1, fetch_sina_quote, bind at 1, emit, lift. rewrite Hq.
  reflexivity.
Qed.

(** ** Trading hours *)

Lemma time_leb_us (a b : pytime) :
  time_valid a -> time_valid b ->
  time_leb a b = true <-> (us_of_time a <= us_of_time b)%Z.
Proof.
  destruct a as [h m s u], b as [h' m' s' u'].
  unfold time_valid, us_of_time, time_leb, time_fields; simpl.
  intros (Hh & Hm & Hs & Hu) (Hh' & Hm' & Hs' & Hu').
  destruct (Z.ltb_spec h h'), (Z.ltb_spec h' h),
           (Z.ltb_spec m m'), (Z.ltb_spec m' m),
           (Z.ltb_spec s s'), (Z.ltb_spec s' s),
           (Z.ltb_spec u u'), (Z.ltb_spec u' u);
    split; intros; try done; try lia.
Qed.

Lemma time_hm_valid (h m : Z) :
  (0 <= h < 24)%Z -> (0 <= m < 60)%Z -> time_valid (time_hm h m).
Proof. unfold time_valid, time_hm; simpl. lia. Qed.

Lemma is_trading_time_spec (weekday : nat) (t : pytime) :
  time_valid t ->
  is_trading_time weekday t = true <->
  weekday < 5 /\
  ((us_hm 9 30 <= us_of_time t <= us_hm 11 30)%Z \/
   (us_hm 13 0 <= us_of_time t <= us_hm 15 0)%Z).
Proof.
  intros Hv. unfold is_trading_time, us_hm.
  pose proof (time_leb_us (time_hm 9 30) t (time_hm_valid 9 30 ltac:(lia) ltac:(lia)) Hv) as H1.
  pose proof (time_leb_us t (time_hm 11 30) Hv (time_hm_valid 11 30 ltac:(lia) ltac:(lia))) as H2.
  pose proof (time_leb_us (time_hm 13 0) t (time_hm_valid 13 0 ltac:(lia) ltac:(lia)) Hv) as H3.
  pose proof (time_leb_us t (time_hm 15 0) Hv (time_hm_valid 15 0 ltac:(lia) ltac:(lia))) as H4.
  destruct (Nat.leb_spec 5 weekday) as [Hw|Hw].
  { split; [done | lia]. }
  destruct (time_leb (time_hm 9 30) t), (time_leb t (time_hm 11 30)),
           (time_leb (time_hm 13 0) t), (time_leb t (time_hm 15 0));
    simpl; split; try done; try tauto;
    intros [_ [[Ha Hb]|[Ha Hb]]];
    try (apply H1 in Ha; done); try (apply H2 in Hb; done);
    try (apply H3 in Ha; done); try (apply H4 in Hb; done).
Qed.

(** ** The whole poll *)

Lemma main_poll e args s q :
  is_trading_time (now_weekday e) (now_time e) = true ->
  quote_reply e = Ok q ->
  exists r t,
    poll_shape e args q (poll_state args q s) r t /\
    main e args s = (r, replay t s, poll_prefix args q ++ t).
Proof.
  intros Ht Hq.
  destruct (evaluate_run e args q (poll_vwap e q) (poll_change q) (poll_cfg e args)
              (poll_state args q s)) as (r & t & Hshape & Hrun).
  exists r, t. split; [exact Hshape|].
  by rewrite (main_trading _ _ _ _ Ht Hq), Hrun.
Qed.

(** C9.  Run on a Saturday or Sunday, or at a time of day before 09:30,
    between 11:30 and 13:00 (both excluded) or after 15:00, the script
    returns at once: its log is empty (no config, quote, k-line or state
    file read, no state written, no message sent) and the store is
    untouched. *)
Theorem script_idle_outside_sessions e args s :
  time_valid (now_time e) ->
  now_weekday e = 5 \/ now_weekday e = 6 \/
  (us_of_time (now_time e) < us_hm 9 30)%Z \/
  (us_hm 11 30 < us_of_time (now_time e) < us_hm 13 0)%Z \/
  (us_hm 15 0 < us_of_time (now_time e))%Z ->
  script e args s = (Finished, s, []).
Proof.
  intros Hv Hout.
  assert (is_trading_time (now_weekday e) (now_time e) = false) as Hc.
  { destruct (is_trading_time (now_weekday e) (now_time e)) eqn:E; [|done].
    apply is_trading_time_spec in E; [|done].
    unfold us_hm, us_of_time, time_hm in *; simpl in *. lia. }
  unfold script. by rewrite (main_closed _ _ _ Hc).
Qed.

(** ** Marks in a state *)

Lemma fired_get_mark_fired (state : State) (key ts key' : string) :
  fired_get (mark_fired state key ts) key' =
    if bool_decide (key = key') then true else fired_get state key'.
Proof.
  unfold fired_get, mark_fired; simpl.
  case_bool_decide as Hk.
  - subst. by rewrite lookup_insert_eq.
  - rewrite lookup_insert_ne by done. by destruct (st_fired state).
Qed.

Lemma fired_get_mark_fired_eq (state : State) (key ts : string) :
  fired_get (mark_fired state key ts) key = true.
Proof. rewrite fired_get_mark_fired. by rewrite bool_decide_eq_true_2. Qed.

(** ** Where a send sits in a log *)

Lemma send_after_prefix (l1 l2 pre post : list event) c g m :
  sends l1 = [] ->
  l1 ++ l2 = pre ++ EvSendMessage c g m :: post ->
  exists pre2, pre = l1 ++ pre2 /\ l2 = pre2 ++ EvSendMessage c g m :: post.
Proof.
  revert pre. induction l1 as [|ev l1 IH]; intros pre Hs Heq; simpl in *.
  - by exists pre.
  - destruct pre as [|ev' pre]; simpl in Heq; injection Heq as -> Heq.
    + discriminate Hs.
    + destruct (IH pre) as (pre2 & -> & ->); [by destruct ev'|done|].
      by exists pre2.
Qed.

Lemma sends_app (a b : list event) : sends (a ++ b) = sends a ++ sends b.
Proof. apply omap_app. Qed.

Lemma marks_app (a b : list event) : marks (a ++ b) = marks a ++ marks b.
Proof. apply omap_app. Qed.

Lemma poll_prefix_marks args q : marks (poll_prefix args q) = [].
Proof. unfold poll_prefix. by destruct (String.eqb (config args) ""). Qed.

Lemma poll_prefix_sends args q : sends (poll_prefix args q) = [].
Proof. unfold poll_prefix. by destruct (String.eqb (config args) ""). Qed.

(** In a poll, a send comes right after the mark and the write of the
    marked state, and the store the poll leaves still has the mark. *)
Lemma poll_shape_send e args q state r t s pre2 c g m post :
  poll_shape e args q state r t ->
  t = pre2 ++ EvSendMessage c g m :: post ->
  exists key st,
    pre2 = [EvMark key; EvSaveState (state_path args q) st] /\
    fired_get st key = true /\
    exists st', replay t s !! state_path args q = Some (StateJson st') /\
                fired_get st' key = true.
Proof.
  intros Hshape Heq.
  destruct Hshape as [r|rel|r key text Hf|key text rel Hf]; simpl in *.
  - by destruct pre2.
  - destruct pre2 as [|? [|? ?]]; discriminate Heq.
  - destruct pre2 as [|? [|? [|? ?]]]; try discriminate Heq.
    + injection Heq as <- <- <-.
      exists key, (mark_fired state key (ts q)).
      split; [done|]. split; [apply fired_get_mark_fired_eq|].
      eexists. rewrite lookup_insert_eq. split; [done|].
      apply fired_get_mark_fired_eq.
    + injection Heq as _ _ _ Heq. by destruct l.
  - destruct pre2 as [|? [|? [|? [|? ?]]]]; try discriminate Heq.
    + injection Heq as <- <- <-.
      exists key, (mark_fired state key (ts q)).
      split; [done|]. split; [apply fired_get_mark_fired_eq|].
      eexists. rewrite lookup_insert_eq. split; [done|].
      exact (fired_get_mark_fired_eq state key (ts q)).
    + injection Heq as _ _ _ _ Heq. by destruct l.
Qed.

(** C1.  Whenever the script sends a message, the two events right before
    the send are the mark of a trigger-id and the write of the state
    carrying that mark to the state file; whatever the notifier does next
    (exit status zero or not, or failing to start), the script does not end
    in an uncaught exception and the state file it leaves still carries the
    mark. *)
Theorem persist_before_notify e args s out s' t :
  script e args s = (out, s', t) ->
  (forall err, out <> Uncaught err) /\
  (forall pre c g m post,
     t = pre ++ EvSendMessage c g m :: post ->
     exists pre' key path st,
       pre = pre' ++ [EvMark key; EvSaveState path st] /\
       fired_get st key = true /\
       exists st', s' !! path = Some (StateJson st') /\ fired_get st' key = true).
Proof.
  intros Hs. split.
  { unfold script in Hs. intros err ->.
    by destruct (main e args s) as [[[|] ?] ?]. }
  intros pre c g m post Heq. unfold script in Hs.
  destruct (is_trading_time (now_weekday e) (now_time e)) eqn:Ht.
  2:{ rewrite (main_closed _ _ _ Ht) in Hs. injection Hs as <- <- <-.
      by destruct pre. }
  destruct (quote_reply e) as [q|err] eqn:Hq.
  2:{ rewrite (main_no_quote _ _ _ _ Ht Hq) in Hs. injection Hs as <- <- <-.
      rewrite <- (app_nil_r (_ ++ [EvFetchQuote _])) in Heq.
      apply send_after_prefix in Heq as (pre2 & _ & Hnil);
        [by destruct pre2 | by destruct (String.eqb (config args) "")]. }
  destruct (main_poll e args s q Ht Hq) as (r & t0 & Hshape & Hmain).
  rewrite Hmain in Hs.
  assert (s' = replay t0 s /\ t = poll_prefix args q ++ t0) as [-> ->]
    by (destruct r; by injection Hs as <- <- <-).
  apply send_after_prefix in Heq as (pre2 & -> & Ht0); [|apply poll_prefix_sends].
  destruct (poll_shape_send _ _ _ _ _ _ s _ _ _ _ _ Hshape Ht0)
    as (key & st & -> & Hst & st' & Hlook & Hst').
  exists (poll_prefix args q), key, (state_path args q), st.
  split; [done|]. split; [done|]. by exists st'.
Qed.

Lemma main_does e args s q :
  is_trading_time (now_weekday e) (now_time e) = true ->
  quote_reply e = Ok q ->
  exists r t,
    poll_does e args q (poll_vwap e q) (poll_change q) (poll_cfg e args)
              (poll_state args q s) r t /\
    main e args s = (r, replay t s, poll_prefix args q ++ t).
Proof.
  intros Ht Hq.
  destruct (evaluate_does e args q (poll_vwap e q) (poll_change q) (poll_cfg e args)
              (poll_state args q s)) as (r & t & Hd & Hrun).
  exists r, t. split; [exact Hd|].
  by rewrite (main_trading _ _ _ _ Ht Hq), Hrun.
Qed.

Lemma none_due_not_due q state (levels : list Q) (lv : Q) :
  none_due q state levels -> lv ∈ levels -> touch_due q state lv = true -> False.
Proof.
  intros Hnone Hin Hdue. unfold none_due in Hnone.
  rewrite Forall_forall in Hnone. specialize (Hnone lv Hin). congruence.
Qed.

(** C3, amended.  When at least one upside level is due on a poll (price
    at or above it, id not fired), the poll sends exactly one message: the
    one for the first due level in the order the levels are configured,
    which is the lowest due level when they are configured in ascending
    order.  It marks that id, writes the state and sends, and does nothing
    after: no other level, no breakdown, no cross, no write of the
    relation. *)
Theorem first_due_level_fires e args s q lv :
  is_trading_time (now_weekday e) (now_time e) = true ->
  quote_reply e = Ok q ->
  lv ∈ resolve_levels (poll_cfg e args) (levels args) ->
  touch_due q (poll_state args q s) lv = true ->
  exists pre lv0 post,
    resolve_levels (poll_cfg e args) (levels args) = pre ++ lv0 :: post /\
    none_due q (poll_state args q s) pre /\
    touch_due q (poll_state args q s) lv0 = true /\
    (StronglySorted Qle (resolve_levels (poll_cfg e args) (levels args)) ->
     forall lv', lv' ∈ resolve_levels (poll_cfg e args) (levels args) ->
                 touch_due q (poll_state args q s) lv' = true -> (lv0 <= lv')%Q) /\
    let st1 := mark_fired (poll_state args q s) (touch_key lv0) (ts q) in
    let msg := touch_msg args q (poll_vwap e q) (poll_change q) lv0 in
    let t := poll_prefix args q ++
             [EvMark (touch_key lv0); EvSaveState (state_path args q) st1;
              EvSendMessage (channel args) (target args) msg] in
    sends t = [(channel args, target args, msg)] /\
    exists r, main e args s = (r, <[state_path args q := StateJson st1]> s, t).
Proof.
  intros Ht Hq Hin Hdue.
  destruct (main_does e args s q Ht Hq) as (r & t & Hd & Hmain).
  destruct Hd as [pre lv0 post Hsplit Hpre Hlv0
                 | err Hnone _ | bd Hnone _ _ | bd err Hnone _ _ _
                 | bd enabled Hnone _ _ _ _ | bd enabled rel v Hnone _ _ _ _ _
                 | bd enabled rel v Hnone _ _ _ _ _];
    try (exfalso; by eapply none_due_not_due).
  exists pre, lv0, post.
  split; [exact Hsplit|]. split; [exact Hpre|]. split; [exact Hlv0|]. split.
  - rewrite Hsplit. intros Hsorted lv' Hin' Hdue'.
    apply elem_of_app in Hin' as [Hin'|Hin'];
      [exfalso; by eapply none_due_not_due|].
    apply StronglySorted_app_1_r in Hsorted.
    apply StronglySorted_cons in Hsorted as [Hall _].
    apply elem_of_cons in Hin' as [->|Hin']; [apply Qle_refl|].
    rewrite Forall_forall in Hall. by apply Hall.
  - cbv zeta. split.
    + by rewrite sends_app, poll_prefix_sends.
    + exists (after_notify e). exact Hmain.
Qed.

(** ** Day rollover *)

Lemma poll_state_stale args q s st :
  s !! state_path args q = Some (StateJson st) ->
  st_date st <> Some (date q) ->
  poll_state args q s = fresh_state (date q).
Proof.
  intros Hfile Hdate. unfold poll_state, loaded_state, reset_if_date_changed.
  rewrite Hfile. by rewrite bool_decide_eq_false_2.
Qed.

Lemma poll_state_no_file args q s :
  s !! state_path args q = None ->
  poll_state args q s = fresh_state (date q).
Proof.
  intros Hfile. unfold poll_state, loaded_state, reset_if_date_changed.
  rewrite Hfile. by rewrite bool_decide_eq_false_2.
Qed.

(** The result and the log of the script depend on the store only through
    the state it works on. *)
Lemma script_same_state e args s1 s2 q :
  quote_reply e = Ok q ->
  poll_state args q s1 = poll_state args q s2 ->
  (script e args s1).1.1 = (script e args s2).1.1 /\
  (script e args s1).2 = (script e args s2).2.
Proof.
  intros Hq Hst. unfold script.
  destruct (is_trading_time (now_weekday e) (now_time e)) eqn:Ht.
  2:{ by rewrite !(main_closed _ _ _ Ht). }
  rewrite !(main_trading _ _ _ _ Ht Hq), Hst.
  destruct (evaluate_run e args q (poll_vwap e q) (poll_change q) (poll_cfg e args)
              (poll_state args q s2)) as (r & t & _ & Hrun).
  rewrite !Hrun. by destruct r.
Qed.

(** C6.  When the state file holds a state whose date is not the date of
    the quote, nothing of it is kept: the state the poll works on is
    [{"date": day, "fired": {}}] for the date of the quote, with no
    relation and no last fire, and no id is fired in it, so a level the
    price has reached and a breakdown level the price is below are due
    whatever was fired before.  The script ends the same way and logs the
    same events (the same marks, writes of the same states, the same
    messages) as it does with no state file at all. *)
Theorem stale_state_discarded e args s q st :
  quote_reply e = Ok q ->
  s !! state_path args q = Some (StateJson st) ->
  st_date st <> Some (date q) ->
  poll_state args q s = fresh_state (date q) /\
  poll_state args q s = mkState (Some (date q)) (Some ∅) None None /\
  st_date (poll_state args q s) = Some (date q) /\
  st_fired (poll_state args q s) = Some ∅ /\
  (forall key, fired_get (poll_state args q s) key = false) /\
  (forall lv, Qgeb (price q) lv = true -> touch_due q (poll_state args q s) lv = true) /\
  (forall bd, Qltb (price q) bd = true -> break_due q (poll_state args q s) bd = true) /\
  (script e args s).1.1 = (script e args (delete (state_path args q) s)).1.1 /\
  (script e args s).2 = (script e args (delete (state_path args q) s)).2.
Proof.
  intros Hq Hfile Hdate.
  pose proof (poll_state_stale _ _ _ _ Hfile Hdate) as Hfresh.
  assert (forall key, fired_get (poll_state args q s) key = false) as Hnone.
  { intros key. rewrite Hfresh. unfold fired_get, fresh_state; simpl.
    by rewrite lookup_empty. }
  split; [exact Hfresh|]. split; [by rewrite Hfresh|].
  split; [by rewrite Hfresh|]. split; [by rewrite Hfresh|].
  split; [exact Hnone|].
  split; [intros lv Hlv; unfold touch_due; by rewrite Hlv, Hnone|].
  split; [intros bd Hbd; unfold break_due; by rewrite Hbd, Hnone|].
  apply (script_same_state _ _ _ _ q Hq).
  rewrite Hfresh. symmetry. apply poll_state_no_file. apply lookup_delete_eq.
Qed.

(** ** The VWAP *)

Lemma json_get_error (x : json) (k : string) (err : exn) :
  json_get x k = Raise err -> err <> ZeroDivisionError.
Proof. destruct x; simpl; intros [=]; by subst. Qed.

Lemma filter_res_error (f : json -> res bool) (rows : list json) (err : exn) :
  (forall r err', f r = Raise err' -> err' <> ZeroDivisionError) ->
  filter_res f rows = Raise err -> err <> ZeroDivisionError.
Proof.
  intros Hf. induction rows as [|r rows IH]; simpl; [done|].
  destruct (f r) as [b|err'] eqn:E.
  - destruct (filter_res f rows) as [ys|err'']; [done|].
    intros [= <-]. by apply IH.
  - intros [= <-]. by eapply Hf.
Qed.

Lemma row_on_day_error (day : string) (r : json) (err : exn) :
  row_on_day day r = Raise err -> err <> ZeroDivisionError.
Proof.
  unfold row_on_day. destruct (json_get r "day") eqn:Hg; [done|].
  intros [= <-]. by eapply json_get_error.
Qed.

Lemma vwap_messages_zero args q change (v : Q) :
  float_truthy v = false ->
  (forall lv, touch_msg args q (Some v) change lv = touch_msg args q None change lv) /\
  (forall bd, break_msg args q (Some v) change bd = break_msg args q None change bd).
Proof.
  intros Hv. split; intros x; unfold touch_msg, break_msg; by rewrite Hv.
Qed.

Lemma touch_loop_vwap_zero e args q change state (v : Q) levels :
  float_truthy v = false ->
  touch_loop e args q (Some v) change state levels =
  touch_loop e args q None change state levels.
Proof.
  intros Hv. destruct (vwap_messages_zero args q change v Hv) as [Hmsg _].
  induction levels as [|lv levels IH]; simpl; [done|].
  by rewrite Hmsg, IH.
Qed.

(** C10.  [compute_vwap] never raises ZeroDivisionError: it returns None
    when no row is of the requested day and when the volumes of the rows
    of the day sum to zero, and divides only otherwise.  A VWAP of exactly
    zero counts as no VWAP in the evaluation: no relation is computed, the
    cross step does not run, and the poll does what it does without a
    VWAP. *)
Theorem vwap_never_divides_by_zero :
  (forall rows day, vwap_of_rows rows day <> Raise ZeroDivisionError) /\
  (forall rows day,
     filter_res (row_on_day day) rows = Ok [] -> vwap_of_rows rows day = Ok None) /\
  (forall rows day today,
     filter_res (row_on_day day) rows = Ok today ->
     (float_sum (map (row_num "volume") today) == 0)%Q ->
     vwap_of_rows rows day = Ok None) /\
  (forall e args q change cfg state (v : Q),
     (v == 0)%Q ->
     relation q (Some v) = None /\
     (forall enabled, cross_ready q (Some v) enabled = None) /\
     (forall s, evaluate e args q (Some v) change cfg state s =
                evaluate e args q None change cfg state s)).
Proof.
  split; [|split; [|split]].
  - intros rows day. unfold vwap_of_rows.
    destruct (filter_res (row_on_day day) rows) as [today|err] eqn:Hf.
    + destruct today as [|r today]; [done|].
      destruct (float_truthy (float_sum (map (row_num "volume") (r :: today)))) eqn:Hv;
        [|done].
      cbn [negb]. by rewrite (float_div_nonzero _ _ Hv).
    + intros [= ->].
      eapply (filter_res_error _ _ _ (row_on_day_error day) Hf); reflexivity.
  - intros rows day Hf. unfold vwap_of_rows. by rewrite Hf.
  - intros rows day today Hf Hz. unfold vwap_of_rows. rewrite Hf.
    destruct today as [|r today]; [done|].
    apply float_truthy_false in Hz. by rewrite Hz.
  - intros e args q change cfg state v Hz.
    apply float_truthy_false in Hz.
    assert (relation q (Some v) = None) as Hrel
      by (unfold relation; by rewrite Hz).
    split; [exact Hrel|]. split.
    { intros enabled. unfold cross_ready. by rewrite Hrel. }
    destruct (vwap_messages_zero args q change v Hz) as [_ Hmsg].
    intros s. unfold evaluate. rewrite (touch_loop_vwap_zero _ _ _ _ _ _ _ Hz), Hrel.
    cbv zeta.
    apply bind_ext. intros returned s1. destruct returned; [done|].
    apply bind_ext. intros bd s2. rewrite Hmsg.
    destruct (Qltb (price q) bd && negb (fired_get state (break_key bd))); [done|].
    apply bind_ext. by intros enabled s3.
Qed.

(** ** The relation to the VWAP *)

Lemma Qgtb_true (a b : Q) : Qgtb a b = true <-> (b < a)%Q.
Proof. apply (Qltb_true b a). Qed.




(** ** Once per trigger-id *)

Lemma poll_state_date args q s : st_date (poll_state args q s) = Some (date q).
Proof.
  unfold poll_state, reset_if_date_changed.
  case_bool_decide as Hd; [exact Hd | reflexivity].
Qed.

Lemma fired_get_setdefault (state : State) (key : string) :
  fired_get (setdefault_fired state) key = fired_get state key.
Proof. unfold fired_get, setdefault_fired; simpl. by destruct (st_fired state). Qed.

Lemma poll_state_after_write args q s (st : State) (key : string) :
  st_date st = Some (date q) ->
  fired_get (poll_state args q (<[state_path args q := StateJson st]> s)) key
  = fired_get st key.
Proof.
  intros Hd. unfold poll_state, loaded_state, reset_if_date_changed.
  rewrite lookup_insert_eq, bool_decide_eq_true_2 by done.
  apply fired_get_setdefault.
Qed.

(** What one run of the script marks and sends: nothing, or one id that
    was not fired in the state it loaded and is fired in the state file it
    leaves. *)
Lemma script_marks e args s :
  (marks (script e args s).2 = [] /\ sends (script e args s).2 = []) \/
  exists q key m,
    quote_reply e = Ok q /\
    marks (script e args s).2 = [key] /\ sends (script e args s).2 = [m] /\
    fired_get (poll_state args q s) key = false /\
    fired_get (poll_state args q (script e args s).1.2) key = true.
Proof.
  unfold script.
  destruct (is_trading_time (now_weekday e) (now_time e)) eqn:Ht.
  2:{ left. by rewrite (main_closed _ _ _ Ht). }
  destruct (quote_reply e) as [q|err] eqn:Hq.
  2:{ left. rewrite (main_no_quote _ _ _ _ Ht Hq). simpl.
      by destruct (String.eqb (config args) ""). }
  destruct (main_poll e args s q Ht Hq) as (r & t & Hshape & Hmain).
  rewrite Hmain.
  assert ((match r with
           | Ok _ => (Finished, replay t s, poll_prefix args q ++ t)
           | Raise _ => (SysExit 0, replay t s, poll_prefix args q ++ t)
           end).2 = poll_prefix args q ++ t) as -> by (by destruct r).
  assert ((match r with
           | Ok _ => (Finished, replay t s, poll_prefix args q ++ t)
           | Raise _ => (SysExit 0, replay t s, poll_prefix args q ++ t)
           end).1.2 = replay t s) as -> by (by destruct r).
  rewrite marks_app, sends_app, poll_prefix_marks, poll_prefix_sends.
  pose proof (poll_state_date args q s) as Hdate.
  destruct Hshape as [r|rel|r key text Hf|key text rel Hf]; simpl.
  - by left.
  - by left.
  - right. exists q, key, (channel args, target args, text).
    repeat split; try done.
    rewrite poll_state_after_write by done. apply fired_get_mark_fired_eq.
  - right. exists q, key, (channel args, target args, text).
    repeat split; try done.
    rewrite poll_state_after_write by done.
    exact (fired_get_mark_fired_eq (poll_state args q s) key (ts q)).
Qed.

(** C2, amended.  Run twice in a row on the same inputs, the second run
    starting from the state file the first left, the script sends at most
    one message per run, each for the id it marks in that run, and the two
    runs never mark the same id: at most one message per trigger-id in
    total. *)
Theorem no_refire_on_repeat e args s :
  let run1 := script e args s in
  let run2 := script e args run1.1.2 in
  length (sends run1.2) <= 1 /\ length (sends run2.2) <= 1 /\
  length (marks run1.2) = length (sends run1.2) /\
  length (marks run2.2) = length (sends run2.2) /\
  NoDup (marks run1.2 ++ marks run2.2).
Proof.
  cbv zeta.
  destruct (script_marks e args s)
    as [[Hm1 Hs1]|(q1 & key1 & m1 & Hq1 & Hm1 & Hs1 & Hold1 & Hnew1)];
  destruct (script_marks e args (script e args s).1.2)
    as [[Hm2 Hs2]|(q2 & key2 & m2 & Hq2 & Hm2 & Hs2 & Hold2 & Hnew2)];
  rewrite Hm1, Hs1, Hm2, Hs2; simpl;
  repeat split; try lia; try apply NoDup_nil_2; try apply NoDup_singleton.
  rewrite Hq1 in Hq2. injection Hq2 as <-.
  apply NoDup_cons. split; [|apply NoDup_singleton].
  intros Hin. apply list_elem_of_singleton in Hin as ->. congruence.
Qed.

End WithRuntime.
End AlertsFacts.

(** * The theorems at concrete inputs *)

Module AlertsExamples.
Import Alerts AlertsSpec AlertsFacts Examples Demo.

(** The two scenarios of the specification.  Previous close 9.70, levels
    10.00 and 10.03, breakdown 9.86, price 10.05: the poll fires
    touch_up_10.00 and leaves touch_up_10.03 unfired. *)
Example gap_up_fires_first_level :
  marks (script env_plain args0 ∅).2 = ["touch_up_10.00"] /\
  exists st,
    (script env_plain args0 ∅).1.2 !! path0 = Some (StateJson st) /\
    fired_get st "touch_up_10.00" = true /\
    fired_get st "touch_up_10.03" = false.
Proof.
  split; [vm_compute; reflexivity|].
  eexists. split; [vm_compute; reflexivity|].
  split; vm_compute; reflexivity.
Qed.

(** VWAP 9.90, stored relation below, price 9.95: the poll fires the
    cross above and stores the relation above; the next poll, on the same
    side, fires nothing. *)
Example cross_above_then_quiet :
  let run1 := script env_vwap_mid args0 store_below in
  let run2 := script env_vwap_mid args0 run1.1.2 in
  marks run1.2 = ["vwap_cross_above"] /\
  (exists st, run1.1.2 !! path0 = Some (StateJson st) /\
              st_vwap_rel st = Some "above") /\
  marks run2.2 = [] /\ sends run2.2 = [].
Proof.
  cbv zeta. split; [vm_compute; reflexivity|]. split.
  - eexists. split; [vm_compute; reflexivity|]. reflexivity.
  - split; vm_compute; reflexivity.
Qed.

(** C2 as stated fails: with the price above both default levels, the
    first run sends the message for 10.00 and the second run, on the very
    same inputs and the state file the first left, sends the one for
    10.03: two messages in total. *)
Lemma two_runs_two_messages :
  let run1 := script env_plain args0 ∅ in
  let run2 := script env_plain args0 run1.1.2 in
  marks run1.2 = ["touch_up_10.00"] /\
  marks run2.2 = ["touch_up_10.03"] /\
  length (sends run1.2 ++ sends run2.2) = 2 /\
  ~ length (sends run1.2 ++ sends run2.2) <= 1.
Proof.
  cbv zeta.
  assert (length (sends (script env_plain args0 ∅).2 ++
                  sends (script env_plain args0 (script env_plain args0 ∅).1.2).2) = 2)
    as Hlen by (vm_compute; reflexivity).
  split; [vm_compute; reflexivity|]. split; [vm_compute; reflexivity|].
  split; [exact Hlen|]. rewrite Hlen. lia.
Qed.


Lemma script_idle_outside_sessions_witness :
  time_valid (now_time env_saturday) /\
  now_weekday env_saturday = 5 /\
  script env_saturday args0 store_stale = (Finished, store_stale, []).
Proof.
  assert (time_valid (now_time env_saturday)) as Hv
    by (unfold time_valid; simpl; lia).
  split; [exact Hv|]. split; [reflexivity|].
  apply (script_idle_outside_sessions env_saturday args0 store_stale Hv).
  left. reflexivity.
Defined.

Lemma persist_before_notify_witness :
  notify_reply env_no_notifier = SpawnFailed (OSError "openclaw: not found") /\
  (script env_no_notifier args0 ∅).1.1 = SysExit 0 /\
  sends (script env_no_notifier args0 ∅).2 <> [] /\
  (forall err, (script env_no_notifier args0 ∅).1.1 <> Uncaught err) /\
  (forall pre c g m post,
     (script env_no_notifier args0 ∅).2 = pre ++ EvSendMessage c g m :: post ->
     exists pre' key path st,
       pre = pre' ++ [EvMark key; EvSaveState path st] /\
       fired_get st key = true /\
       exists st', (script env_no_notifier args0 ∅).1.2 !! path = Some (StateJson st') /\
                   fired_get st' key = true).
Proof.
  split; [reflexivity|]. split; [vm_compute; reflexivity|].
  split; [vm_compute; discriminate|].
  apply (persist_before_notify env_no_notifier args0 ∅).
  by destruct (script env_no_notifier args0 ∅) as [[? ?] ?].
Defined.

(** C3 as stated fails: with the levels configured as 10.03, 10.00 and
    the price above both, the one message of the poll is for 10.03, though
    10.00 is due as well and lower. *)
Lemma descending_levels_fire_higher_first :
  resolve_levels (poll_cfg env_plain args_descending) (levels args_descending)
    = [round_double 10.03; round_double 10.00] /\
  touch_due quote_high (poll_state args_descending quote_high ∅) (round_double 10.00) = true /\
  touch_due quote_high (poll_state args_descending quote_high ∅) (round_double 10.03) = true /\
  (round_double 10.00 < round_double 10.03)%Q /\
  marks (script env_plain args_descending ∅).2 = ["touch_up_10.03"] /\
  marks (script env_plain args_descending ∅).2 <> ["touch_up_10.00"] /\
  length (sends (script env_plain args_descending ∅).2) = 1.
Proof.
  repeat split; try (vm_compute; reflexivity).
  vm_compute. discriminate.
Qed.

Lemma first_due_level_fires_witness :
  StronglySorted Qle (resolve_levels (poll_cfg env_plain args0) (levels args0)) /\
  touch_due quote_high (poll_state args0 quote_high ∅) (round_double 10.00) = true /\
  touch_due quote_high (poll_state args0 quote_high ∅) (round_double 10.03) = true /\
  exists lv0,
    touch_due quote_high (poll_state args0 quote_high ∅) lv0 = true /\
    (lv0 <= round_double 10.00)%Q /\ (lv0 <= round_double 10.03)%Q /\
    exists r s' t, main env_plain args0 ∅ = (r, s', t) /\ length (sends t) = 1.
Proof.
  assert (resolve_levels (poll_cfg env_plain args0) (levels args0)
          = [round_double 10.00; round_double 10.03]) as Hlevels
    by (vm_compute; reflexivity).
  assert (StronglySorted Qle (resolve_levels (poll_cfg env_plain args0) (levels args0)))
    as Hsorted.
  { rewrite Hlevels. repeat constructor. vm_compute. discriminate. }
  assert (touch_due quote_high (poll_state args0 quote_high ∅) (round_double 10.03) = true)
    as Hdue by (vm_compute; reflexivity).
  split; [exact Hsorted|]. split; [vm_compute; reflexivity|]. split; [exact Hdue|].
  destruct (first_due_level_fires env_plain args0 ∅ quote_high (round_double 10.03))
    as (pre & lv0 & post & Hsplit & _ & Hdue0 & Hlow & Hsends & r & Hmain).
  - vm_compute. reflexivity.
  - reflexivity.
  - rewrite Hlevels. apply elem_of_cons. right. apply list_elem_of_singleton. reflexivity.
  - exact Hdue.
  - exists lv0. split; [exact Hdue0|].
    split; [apply (Hlow Hsorted); [rewrite Hlevels; by left | vm_compute; reflexivity]|].
    split; [apply (Hlow Hsorted); [rewrite Hlevels; by (right; left) | exact Hdue]|].
    eexists r, _, _. split; [exact Hmain|]. by rewrite Hsends.
Defined.


Lemma stale_state_discarded_witness :
  store_stale !! state_path args0 quote_high = Some (StateJson stale_state) /\
  fired_get stale_state "touch_up_10.00" = true /\
  poll_state args0 quote_high store_stale
    = mkState (Some "2026-02-10") (Some ∅) None None /\
  marks (script env_plain args0 store_stale).2 = ["touch_up_10.00"] /\
  (script env_plain args0 store_stale).2 = (script env_plain args0 ∅).2.
Proof.
  assert (store_stale !! state_path args0 quote_high = Some (StateJson stale_state))
    as Hfile by (vm_compute; reflexivity).
  assert (st_date stale_state <> Some (date quote_high)) as Hdate by discriminate.
  destruct (stale_state_discarded env_plain args0 store_stale quote_high stale_state
              eq_refl Hfile Hdate) as (_ & Hfresh & _ & _ & _ & _ & _ & _ & Hlog).
  split; [exact Hfile|]. split; [vm_compute; reflexivity|].
  split; [exact Hfresh|]. split; [vm_compute; reflexivity|].
  rewrite Hlog. vm_compute. reflexivity.
Defined.

End AlertsExamples.

(** * More facts about the report script *)

Module ReportMoreFacts.
Import ReportSpec ReportFacts ReportMore.

(** ** ProviderChain.quote *)

Lemma quote_loop_found (ps : list Provider) (symbol : string) :
  forall last_err q called,
  quote_loop ps symbol last_err = (inl q, called)
  <-> exists pre p post q0,
        ps = pre ++ p :: post /\
        Forall (fun p' => quote_raised symbol p' <> None) pre /\
        quote p symbol = Ok q0 /\
        q = set_source q0 (Report.name (base p)) /\
        called = map (fun p' => Report.name (base p')) pre ++ [Report.name (base p)].
Proof.
  induction ps as [|p ps IH]; intros last_err q called; simpl.
  - split; [done|]. intros (pre & p & post & q0 & Hps & _). by destruct pre.
  - destruct (quote p symbol) as [q1|e] eqn:Hq.
    + split.
      * intros [= <- <-]. exists [], p, ps, q1. by rewrite Hq.
      * intros (pre & p' & post & q0 & Hps & Hpre & Hq' & -> & ->).
        destruct pre as [|p0 pre]; simpl in *.
        -- injection Hps as <- <-. rewrite Hq in Hq'. by injection Hq' as <-.
        -- injection Hps as <- ->. apply Forall_cons in Hpre as [Hp0 _].
           unfold quote_raised in Hp0. by rewrite Hq in Hp0.
    + destruct (quote_loop ps symbol (Some e)) as [r called'] eqn:Hl.
      split.
      * intros [= -> <-]. apply IH in Hl as (pre & p' & post & q0 & -> & Hpre & Hq' & -> & ->).
        exists (p :: pre), p', post, q0. repeat split; try done.
        constructor; [|done]. unfold quote_raised. by rewrite Hq.
      * intros (pre & p' & post & q0 & Hps & Hpre & Hq' & -> & ->).
        destruct pre as [|p0 pre]; simpl in *.
        -- injection Hps as <- <-. rewrite Hq in Hq'. done.
        -- injection Hps as <- Hps. apply Forall_cons in Hpre as [_ Hpre].
           assert (quote_loop ps symbol (Some e)
                   = (inl (set_source q0 (Report.name (base p'))),
                      map (fun p' => Report.name (base p')) pre ++ [Report.name (base p')]))
             as Hl' by (apply IH; by exists pre, p', post, q0).
           rewrite Hl in Hl'. by injection Hl' as -> ->.
Qed.

Lemma quote_loop_exhausted (ps : list Provider) (symbol : string) :
  forall last_err last_err' called,
  quote_loop ps symbol last_err = (inr last_err', called)
  <-> Forall (fun p => quote_raised symbol p <> None) ps /\
      last_err' = from_option (quote_raised symbol) last_err (last ps) /\
      called = map (fun p => Report.name (base p)) ps.
Proof.
  induction ps as [|p ps IH]; intros last_err last_err' called; simpl.
  - split; [by intros [= <- <-] | by intros (_ & -> & ->)].
  - rewrite Forall_cons, last_cons.
    assert (quote_raised symbol p = match quote p symbol with
                                    | Raise e => Some e | Ok _ => None end) as Hr by done.
    destruct (quote p symbol) as [q1|e] eqn:Hq.
    + split; [done|]. intros ((Hp & _) & _). by rewrite Hr in Hp.
    + destruct (quote_loop ps symbol (Some e)) as [r called'] eqn:Hl.
      split.
      * intros [= -> <-]. apply IH in Hl as (Hall & -> & ->).
        split; [split; [by rewrite Hr | done]|]. split; [|done].
        destruct (last ps); [done|]. simpl. by rewrite Hr.
      * intros ((_ & Hall) & -> & ->).
        assert (quote_loop ps symbol (Some e)
                = (inr (from_option (quote_raised symbol) (Some e) (last ps)),
                   map (fun p => Report.name (base p)) ps))
          as Hl' by (by apply IH).
        rewrite Hl in Hl'. injection Hl' as -> ->.
        f_equal. f_equal. destruct (last ps); [done|]. simpl. by rewrite Hr.
Qed.

(** X1.  The chain asks the backends for a quote in order and returns the
    first answer, with its source set to the name of the backend that gave
    it; later backends are not asked.  It raises exactly when every backend
    raised, and the message ends with the text of the exception of the last
    backend (None for an empty chain). *)
Theorem chain_quote_spec (ps : list Provider) (symbol : string) :
  (forall q called,
     chain_quote ps symbol = (Ok q, called)
     <-> exists pre p post q0,
           ps = pre ++ p :: post /\
           Forall (fun p' => quote_raised symbol p' <> None) pre /\
           quote p symbol = Ok q0 /\
           q = set_source q0 (Report.name (base p)) /\
           called = map (fun p' => Report.name (base p')) pre ++ [Report.name (base p)]) /\
  (forall err called,
     chain_quote ps symbol = (Raise err, called)
     <-> Forall (fun p => quote_raised symbol p <> None) ps /\
         err = RuntimeError ("All providers failed for quote(" ++ symbol ++ "): " ++
                 opt_exn_str (last ps ≫= quote_raised symbol)) /\
         called = map (fun p => Report.name (base p)) ps).
Proof.
  unfold chain_quote. split.
  - intros q called.
    destruct (quote_loop ps symbol None) as [[q1|le] c] eqn:Hl.
    + split.
      * intros [= <- <-]. by apply (quote_loop_found ps symbol None).
      * intros Hf. apply (quote_loop_found ps symbol None) in Hf.
        rewrite Hl in Hf. by injection Hf as -> ->.
    + split; [done|]. intros Hf. apply (quote_loop_found ps symbol None) in Hf.
      rewrite Hl in Hf. done.
  - intros err called.
    assert (from_option (quote_raised symbol) None (last ps)
            = last ps ≫= quote_raised symbol) as Hlast
      by (by destruct (last ps)).
    destruct (quote_loop ps symbol None) as [[q1|le] c] eqn:Hl.
    + split; [done|]. intros (Hall & _ & Hc).
      assert (quote_loop ps symbol None
              = (inr (from_option (quote_raised symbol) None (last ps)),
                 map (fun p => Report.name (base p)) ps)) as Hl'
        by (by apply quote_loop_exhausted).
      rewrite Hl in Hl'. done.
    + apply quote_loop_exhausted in Hl as (Hall & -> & ->). rewrite Hlast.
      split.
      * by intros [= <- <-].
      * by intros (_ & -> & ->).
Qed.

(** ** pct and classify_intraday *)

Lemma pct_returns (a b : Q) : exists x, pct a b = Ok x.
Proof.
  unfold pct. destruct (float_truthy b) eqn:E; simpl; [|by eexists].
  rewrite (py_div_nonzero _ _ E). by eexists.
Qed.

Lemma pct_zero_base (a b : Q) : (b == 0)%Q -> pct a b = Ok None.
Proof.
  intros Hb. unfold pct. apply float_truthy_false in Hb. by rewrite Hb.
Qed.

Lemma Qgtb_iff (a b : Q) : Qgtb a b = true <-> (b < a)%Q.
Proof. apply (Qltb_true b a). Qed.

(** X2.  [classify_intraday] never raises, also for a zero previous close
    or a zero low.  A change of more than half a percent up is labelled
    strong and one of more than half a percent down weak, whatever the
    range of the day; with a zero previous close the change counts as zero
    and the label is flat or flat-leaning-strong. *)
Theorem classify_intraday_labels (open_ high low close preclose : Q) :
  exists label x,
    classify_intraday open_ high low close preclose = Ok label /\
    pct close preclose = Ok x /\
    ((1 # 2 < or_zero x)%Q -> label = "偏强") /\
    ((or_zero x < - (1 # 2))%Q -> label = "偏弱") /\
    ((preclose == 0)%Q -> label = "震荡" \/ label = "震荡偏强").
Proof.
  unfold classify_intraday.
  destruct (pct_returns close preclose) as [x Hx].
  destruct (pct_returns high low) as [r Hr].
  rewrite Hx, Hr. cbv zeta.
  assert ((1 # 2 < or_zero x)%Q \/ (or_zero x < - (1 # 2))%Q ->
          Qltb (Qabs (or_zero x)) float_0_3 = false) as Hbig.
  { intros Hch. apply Qltb_false.
    assert (float_0_3 <= 1 # 2)%Q as H03 by (vm_compute; discriminate).
    eapply Qle_trans; [exact H03|].
    destruct Hch as [Hup|Hdn].
    - eapply Qle_trans; [apply Qlt_le_weak, Hup | apply Qle_Qabs].
    - rewrite <- Qabs_opp. eapply Qle_trans; [|apply Qle_Qabs].
      apply Qlt_le_weak. apply Qopp_lt_compat in Hdn.
      by rewrite Qopp_involutive in Hdn. }
  destruct (Qltb (Qabs (or_zero x)) float_0_3 && Qltb (or_zero r) (3 # 2)) eqn:Hflat.
  { apply andb_true_iff in Hflat as [Hsmall _].
    exists "震荡", x. split; [done|]. split; [done|]. repeat split.
    - intros Hup. rewrite Hbig in Hsmall by (by left). done.
    - intros Hdn. rewrite Hbig in Hsmall by (by right). done.
    - by left. }
  destruct (Qgtb (or_zero x) (1 # 2)) eqn:Hup.
  { apply Qgtb_iff in Hup.
    exists "偏强", x. split; [done|]. split; [done|]. repeat split.
    - intros Hdn. exfalso. apply (Qlt_irrefl (1 # 2)).
      eapply Qlt_trans; [exact Hup|]. eapply Qlt_trans; [exact Hdn|]. reflexivity.
    - intros Hz. rewrite (pct_zero_base _ _ Hz) in Hx. injection Hx as <-.
      simpl in Hup. discriminate Hup. }
  assert (~ (1 # 2 < or_zero x)%Q) as Hnup.
  { intros Hlt. apply Qgtb_iff in Hlt. congruence. }
  destruct (Qltb (or_zero x) (- (1 # 2))) eqn:Hdn.
  { exists "偏弱", x. split; [done|]. split; [done|]. repeat split.
    - intros Hlt. contradiction.
    - intros Hz. rewrite (pct_zero_base _ _ Hz) in Hx. injection Hx as <-.
      simpl in Hdn. vm_compute in Hdn. discriminate Hdn. }
  eexists _, x. split; [reflexivity|]. split; [done|]. repeat split.
  - intros Hlt. contradiction.
  - intros Hlt. apply Qltb_true in Hlt. congruence.
  - intros Hz. rewrite (pct_zero_base _ _ Hz) in Hx. injection Hx as <-.
    right. reflexivity.
Qed.

(** ** Summaries of parts of the day *)

(** The high of a summary is the high of one of its bars and bounds them
    all; likewise the low. *)
Lemma summary_bounds (bars : list Report.Bar) (s : Report.Ohlc) :
  Report.summarize_ohlc bars = Some s ->
  (exists b, b ∈ bars /\ Report.o_high s = Report.high b) /\
  Forall (fun b => (Report.high b <= Report.o_high s)%Q) bars /\
  (exists b, b ∈ bars /\ Report.o_low s = Report.low b) /\
  Forall (fun b => (Report.o_low s <= Report.low b)%Q) bars.
Proof.
  destruct bars as [|b0 rest]; [done|]. intros [= <-]. simpl.
  destruct (py_max_spec (map Report.high rest) (Report.high b0)) as (Hmi & Hm0 & Hmall).
  destruct (py_min_spec (map Report.low rest) (Report.low b0)) as (Hni & Hn0 & Hnall).
  rewrite Forall_fmap in Hmall. rewrite Forall_fmap in Hnall.
  split; [|split; [by constructor|split; [|by constructor]]].
  - destruct Hmi as [->|Hmi]; [exists b0; split; [by left|done]|].
    apply in_map_iff in Hmi as (b & Hb & Hin). exists b. split; [|done].
    right. by apply list_elem_of_In.
  - destruct Hni as [->|Hni]; [exists b0; split; [by left|done]|].
    apply in_map_iff in Hni as (b & Hb & Hin). exists b. split; [|done].
    right. by apply list_elem_of_In.
Qed.

Lemma summarize_none (bars : list Report.Bar) :
  Report.summarize_ohlc bars = None <-> bars = [].
Proof. by destruct bars. Qed.

(** The summary of some of the bars lies within the summary of all. *)
Lemma summary_of_part (part bars : list Report.Bar) (s d : Report.Ohlc) :
  part ⊆ bars ->
  Report.summarize_ohlc part = Some s ->
  Report.summarize_ohlc bars = Some d ->
  (Report.o_high s <= Report.o_high d)%Q /\ (Report.o_low d <= Report.o_low s)%Q.
Proof.
  intros Hsub Hs Hd.
  apply summary_bounds in Hs as ((bh & Hbh & ->) & _ & (bl & Hbl & ->) & _).
  apply summary_bounds in Hd as (_ & Hhigh & _ & Hlow).
  rewrite Forall_forall in Hhigh. rewrite Forall_forall in Hlow.
  split; [apply Hhigh | apply Hlow]; by apply Hsub.
Qed.

Lemma filter_nil_iff {A} (P : A -> Prop) `{forall x, Decision (P x)} (l : list A) :
  filter P l = [] <-> Forall (fun x => ~ P x) l.
Proof.
  induction l as [|x l IH]; [by split|].
  rewrite filter_cons, Forall_cons. destruct (decide (P x)) as [Hx|Hx].
  - split; [done|]. by intros [? _].
  - rewrite IH. tauto.
Qed.

Lemma filter_subseteq {A} (P : A -> Prop) `{forall x, Decision (P x)} (l : list A) :
  filter P l ⊆ l.
Proof. intros x Hx. by apply list_elem_of_filter in Hx as [_ ?]. Qed.

(** X3.  A segment of the day (the first or the last half hour, say) has a
    summary exactly when some bar falls in the window, both ends included;
    its high is at most the high of the whole day and its low at least the
    low of the whole day. *)
Theorem segment_within_day (bars_all : list Report.Bar) (t0 t1 : pytime) :
  (segment bars_all t0 t1 = None <-> Forall (fun b => ~ in_window t0 t1 b) bars_all) /\
  (forall s d,
     segment bars_all t0 t1 = Some s ->
     Report.summarize_ohlc bars_all = Some d ->
     (Report.o_high s <= Report.o_high d)%Q /\ (Report.o_low d <= Report.o_low s)%Q).
Proof.
  unfold segment. split.
  - rewrite summarize_none. apply (filter_nil_iff (in_window t0 t1)).
  - intros s d. apply summary_of_part. apply (filter_subseteq (in_window t0 t1)).
Qed.

(** ** In time order *)

(** X4.  Of bars in time order, as the providers return them, the summary
    takes its open from a bar that is no later than any other and its
    close from a bar that is no earlier than any other. *)
Theorem sorted_summary_first_last (bars : list Report.Bar) (s : Report.Ohlc) :
  StronglySorted bar_le bars ->
  Report.summarize_ohlc bars = Some s ->
  exists b0 bl,
    b0 ∈ bars /\ bl ∈ bars /\
    Report.o_open s = Report.open b0 /\ Report.o_close s = Report.close bl /\
    Forall (fun b => bar_le b0 b /\ bar_le b bl) bars.
Proof.
  intros Hsorted Hsum.
  destruct bars as [|b0 rest]; [done|].
  pose proof (last_cons_default b0 b0 rest) as Hlast.
  injection Hsum as <-.
  exists b0, (List.last (b0 :: rest) b0).
  split; [by left|]. split; [by apply last_Some_elem_of|].
  split; [done|]. split; [done|].
  pose proof (sorted_last_latest _ _ Hsorted Hlast) as Hlate.
  apply StronglySorted_cons in Hsorted as [Hearly _].
  apply Forall_and. split; [|exact Hlate].
  constructor; [apply bar_le_refl | exact Hearly].
Qed.

Lemma sorted_summary_first_last_witness :
  StronglySorted bar_le [bar_0931; bar_0932] /\
  exists s b0 bl,
    Report.summarize_ohlc [bar_0931; bar_0932] = Some s /\
    Report.o_open s = Report.open b0 /\ Report.o_close s = Report.close bl /\
    bar_le b0 bar_0932 /\ bar_le bar_0931 bl.
Proof.
  assert (StronglySorted bar_le [bar_0931; bar_0932]) as Hsorted.
  { repeat constructor. }
  split; [exact Hsorted|].
  destruct (sorted_summary_first_last [bar_0931; bar_0932] _ Hsorted eq_refl)
    as (b0 & bl & _ & _ & Hopen & Hclose & Hall).
  eexists _, b0, bl. split; [reflexivity|]. split; [exact Hopen|]. split; [exact Hclose|].
  rewrite Forall_forall in Hall. split.
  - apply (Hall bar_0932). right. by left.
  - apply (Hall bar_0931). by left.
Defined.

(** X5.  A midday report fails for want of bars exactly when no bar is at
    or before 11:30 of the report date.  When it has bars, and they came in
    time order, the report of the whole day has them too, with the same
    open, a high at least as high and a low at least as low. *)
Theorem midday_within_full_day (mode : string) (report_date : Z * Z * Z)
    (bars_all : list Report.Bar) :
  mode <> "mid" ->
  StronglySorted bar_le bars_all ->
  ((exists err, report_ohlc "mid" report_date bars_all = Raise err) <->
   Forall (fun b => dt_leb (Report.dt b) (morning_end report_date) <> true) bars_all) /\
  (forall m,
     report_ohlc "mid" report_date bars_all = Ok m ->
     exists c,
       report_ohlc mode report_date bars_all = Ok c /\
       Report.o_open m = Report.o_open c /\
       (Report.o_high m <= Report.o_high c)%Q /\
       (Report.o_low c <= Report.o_low m)%Q).
Proof.
  intros Hmode Hsorted.
  set (P := fun b : Report.Bar => dt_leb (Report.dt b) (morning_end report_date) = true).
  assert (report_bars "mid" report_date bars_all = filter P bars_all) as Hmid by done.
  assert (report_bars mode report_date bars_all = bars_all) as Hfull.
  { unfold report_bars. destruct (String.eqb_spec mode "mid"); [done|done]. }
  unfold report_ohlc. rewrite Hmid, Hfull. split.
  - destruct (Report.summarize_ohlc (filter P bars_all)) as [m|] eqn:Hm.
    + split; [by intros [err ?]|]. intros Hall.
      apply (filter_nil_iff P) in Hall. by rewrite Hall in Hm.
    + split; [|by eexists]. intros _.
      apply summarize_none in Hm. by apply (filter_nil_iff P).
  - intros m Hm.
    destruct (Report.summarize_ohlc (filter P bars_all)) as [m'|] eqn:Hsum; [|done].
    injection Hm as ->.
    destruct bars_all as [|b0 rest]; [done|].
    eexists. split; [reflexivity|].
    assert (P b0) as Hb0.
    { destruct (decide (P b0)) as [|Hn]; [done|]. exfalso.
      apply StronglySorted_cons in Hsorted as [Hearly _].
      assert (filter P (b0 :: rest) = []) as Hnil; [|by rewrite Hnil in Hsum].
      apply (filter_nil_iff P). constructor; [done|].
      eapply Forall_impl; [exact Hearly|]. intros b Hb Hpb. apply Hn.
      unfold P, dt_leb in *. by eapply lex_leb_trans. }
    split.
    + rewrite filter_cons_True in Hsum by done. by injection Hsum as <-.
    + eapply (summary_of_part (filter P (b0 :: rest)) (b0 :: rest));
        [apply (filter_subseteq P) | exact Hsum | reflexivity].
Qed.

Lemma midday_within_full_day_witness :
  "close" <> "mid" /\
  StronglySorted bar_le [bar_0931; bar_0932] /\
  exists m c,
    report_ohlc "mid" (2026, 2, 10)%Z [bar_0931; bar_0932] = Ok m /\
    report_ohlc "close" (2026, 2, 10)%Z [bar_0931; bar_0932] = Ok c /\
    Report.o_open m = Report.o_open c.
Proof.
  assert (StronglySorted bar_le [bar_0931; bar_0932]) as Hsorted.
  { repeat constructor. }
  split; [discriminate|]. split; [exact Hsorted|].
  destruct (midday_within_full_day "close" (2026, 2, 10)%Z [bar_0931; bar_0932])
    as [_ Hmid]; [discriminate | exact Hsorted |].
  destruct (Hmid _ eq_refl) as (c & Hc & Hopen & _).
  eexists _, c. split; [reflexivity|]. split; [exact Hc | exact Hopen].
Defined.

(** ** The providers' k-lines *)

Section Klines.
Context `{PyRuntime} `{PyStrptime}.

Lemma strptime_res_error (s fmt : string) (err : exn) :
  strptime_res s fmt = Raise err -> exists m, err = ValueError m.
Proof. unfold strptime_res. destruct (strptime s fmt); [done|]. intros [= <-]. eauto. Qed.

Lemma float_list_error (l : list string) (err : exn) :
  Alerts.map_res Alerts.float_str l = Raise err -> exists m, err = ValueError m.
Proof.
  induction l as [|x l IH]; simpl; [done|].
  unfold Alerts.float_str at 1. destruct (float_of_str x).
  - destruct (Alerts.map_res Alerts.float_str l); [done|]. intros [= <-]. by apply IH.
  - intros [= <-]. eauto.
Qed.

Lemma eastmoney_bar_cases (line : json) :
  (eastmoney_bar line = Ok None /\ ~ full_line line) \/
  (full_line line /\
   ((exists b, eastmoney_bar line = Ok (Some b)) \/
    (exists m, eastmoney_bar line = Raise (ValueError m)))).
Proof.
  unfold eastmoney_bar, full_line.
  destruct (Nat.ltb_spec (length (Alerts.split_comma (Alerts.json_str line))) 7) as [Hlt|Hge].
  { left. split; [done | lia]. }
  right. split; [done|].
  destruct (parse_dt (nth 0 (Alerts.split_comma (Alerts.json_str line)) "")) as [d|err] eqn:Hd.
  2:{ right. unfold parse_dt in Hd.
      destruct (Nat.eqb _ 16); apply strptime_res_error in Hd as [m ->]; eauto. }
  destruct (Alerts.map_res Alerts.float_str
              (take 4 (drop 1 (Alerts.split_comma (Alerts.json_str line)))))
    as [fs|err] eqn:Hfs.
  2:{ right. apply float_list_error in Hfs as [m ->]. eauto. }
  destruct fs as [|o [|c [|h [|l [|? ?]]]]]; eauto.
Qed.

Lemma eastmoney_rows_spec (kl : list json) :
  (forall out, eastmoney_rows kl = Ok out -> length out = length (filter full_line kl)) /\
  (forall err, eastmoney_rows kl = Raise err -> exists m, err = ValueError m).
Proof.
  induction kl as [|line kl [IHok IHerr]]; simpl.
  - split; [by intros out [= <-] | done].
  - rewrite filter_cons.
    destruct (eastmoney_bar_cases line) as [[-> Hn]|[Hf [[b ->]|[m ->]]]].
    + rewrite decide_False by done.
      destruct (eastmoney_rows kl) as [out'|err'].
      * split; [|done]. intros out [= <-]. by apply IHok.
      * split; [done|]. intros err [= <-]. by apply IHerr.
    + rewrite decide_True by done.
      destruct (eastmoney_rows kl) as [out'|err'].
      * split; [|done]. intros out [= <-]. simpl. f_equal. by apply IHok.
      * split; [done|]. intros err [= <-]. by apply IHerr.
    + split; [done|]. intros err [= <-]. eauto.
Qed.

(** X6.  What [EastmoneyProvider.kline] returns is in time order and has
    one bar for each line of the reply with at least seven comma-separated
    fields; shorter lines are passed over.  When it raises, on a time or a
    price that does not parse, it raises ValueError. *)
Theorem eastmoney_kline_sorted (kl : list json) :
  (forall bars,
     eastmoney_kline kl = Ok bars ->
     StronglySorted bar_le bars /\ length bars = length (filter full_line kl)) /\
  (forall err, eastmoney_kline kl = Raise err -> exists m, err = ValueError m).
Proof.
  unfold eastmoney_kline.
  destruct (eastmoney_rows_spec kl) as [Hok Herr].
  destruct (eastmoney_rows kl) as [out|err'].
  - split; [|done]. intros bars [= <-]. split; [apply sort_bars_sorted|].
    rewrite (Permutation_length (sort_bars_perm out)). by apply Hok.
  - split; [done|]. intros err [= <-]. by apply Herr.
Qed.

Lemma sina_bar_cases (prefix : string) (row : json) :
  (sina_bar prefix row = Ok None /\ ~ on_day prefix row) \/
  (exists b, sina_bar prefix row = Ok (Some b) /\ on_day prefix row) \/
  (exists err, sina_bar prefix row = Raise err).
Proof.
  unfold sina_bar, on_day.
  destruct (sina_day row) as [s|err]; [|right; right; eauto].
  destruct (String.prefix prefix s) eqn:Hp; simpl.
  - destruct (strptime_res s "%Y-%m-%d %H:%M:%S") as [d|err].
    + right. left. eauto.
    + right. right. eauto.
  - left. split; [done|]. by intros ?.
Qed.

Lemma sina_rows_length (prefix : string) (rows : list json) (out : list Report.Bar) :
  sina_rows prefix rows = Ok out ->
  length out = length (filter (on_day prefix) rows).
Proof.
  revert out. induction rows as [|row rows IH]; simpl; intros out.
  - by intros [= <-].
  - rewrite filter_cons.
    destruct (sina_bar_cases prefix row) as [[-> Hn]|[(b & -> & Hd)|[err ->]]]; [| |done].
    + rewrite decide_False by done.
      destruct (sina_rows prefix rows) as [out'|]; [|done].
      intros [= <-]. by apply IH.
    + rewrite decide_True by done.
      destruct (sina_rows prefix rows) as [out'|]; [|done].
      intros [= <-]. simpl. f_equal. by apply IH.
Qed.

(** X7.  [SinaProvider.kline] raises RuntimeError on a reply that is not a
    list.  What it returns is in time order and has one bar for each row
    whose day starts with the ISO date asked for; rows of other days are
    passed over. *)
Theorem sina_kline_sorted (js : json) (prefix : string) :
  ((forall rows, js <> JList rows) ->
   exists m, sina_kline js prefix = Raise (RuntimeError m)) /\
  (forall bars,
     sina_kline js prefix = Ok bars ->
     exists rows,
       js = JList rows /\ StronglySorted bar_le bars /\
       length bars = length (filter (on_day prefix) rows)).
Proof.
  split.
  - intros Hnot. destruct js; simpl; eauto. by destruct (Hnot l).
  - intros bars. destruct js as [| | | |rows|]; simpl; try done.
    destruct (sina_rows prefix rows) as [out|err] eqn:Hrows; [|done].
    intros [= <-]. exists rows. split; [done|]. split; [apply sort_bars_sorted|].
    rewrite (Permutation_length (sort_bars_perm out)). by apply sina_rows_length.
Qed.

End Klines.

End ReportMoreFacts.

(** * More facts about the alert script *)

Module AlertsMoreFacts.
Import Alerts AlertsSpec AlertsFacts AlertsMore.
Import ReportFacts.

(** ** Splitting at commas *)

Lemma split_comma_cons (s : string) : exists h t, split_comma s = h :: t.
Proof.
  destruct s as [|c s]; simpl; [by eexists _, _|].
  destruct (Ascii.eqb c (Ascii.ascii_of_nat 44)); [by eexists _, _|].
  destruct (split_comma s); by eexists _, _.
Qed.

Lemma concat_cons (h : string) (t : list string) :
  t <> [] -> String.concat "," (h :: t) = (h ++ "," ++ String.concat "," t)%string.
Proof. by destruct t. Qed.

Lemma join_split (s : string) : join_comma (split_comma s) = s.
Proof.
  unfold join_comma. induction s as [|c s IH]; simpl; [done|].
  destruct (Ascii.eqb_spec c (Ascii.ascii_of_nat 44)) as [->|Hc].
  - destruct (split_comma_cons s) as (h & t & Hs). rewrite Hs in *.
    rewrite concat_cons by done. by rewrite IH.
  - destruct (split_comma_cons s) as (h & t & Hs). rewrite Hs in *.
    destruct t as [|h' t].
    + simpl in *. by rewrite IH.
    + rewrite concat_cons in IH by done. rewrite concat_cons by done.
      rewrite <- IH. reflexivity.
Qed.

Lemma length_split (s : string) : length (split_comma s) = S (count_commas s).
Proof.
  induction s as [|c s IH]; simpl; [done|].
  unfold comma. destruct (Ascii.eqb c (Ascii.ascii_of_nat 44)); simpl.
  - by rewrite IH.
  - destruct (split_comma_cons s) as (h & t & Hs). rewrite Hs in *. done.
Qed.

Lemma split_pieces (s : string) : Forall (fun p => count_commas p = 0) (split_comma s).
Proof.
  induction s as [|c s IH]; simpl; [by repeat constructor|].
  destruct (Ascii.eqb c (Ascii.ascii_of_nat 44)) eqn:Hc.
  - by constructor.
  - destruct (split_comma_cons s) as (h & t & Hs). rewrite Hs in *.
    apply Forall_cons in IH as [Hh Ht]. constructor; [|done].
    simpl. unfold comma. by rewrite Hc.
Qed.

Lemma split_no_comma (p : string) : count_commas p = 0 -> split_comma p = [p].
Proof.
  induction p as [|c p IH]; simpl; [done|].
  unfold comma. destruct (Ascii.eqb c (Ascii.ascii_of_nat 44)); simpl; [done|].
  intros Hp. by rewrite IH.
Qed.

Lemma split_append (p rest : string) :
  count_commas p = 0 ->
  split_comma (p ++ "," ++ rest) = p :: split_comma rest.
Proof.
  induction p as [|c p IH]; simpl; [done|].
  unfold comma. destruct (Ascii.eqb c (Ascii.ascii_of_nat 44)); simpl; [done|].
  intros Hp. by rewrite IH.
Qed.

Lemma split_join (parts : list string) :
  parts <> [] -> Forall (fun p => count_commas p = 0) parts ->
  split_comma (join_comma parts) = parts.
Proof.
  unfold join_comma. induction parts as [|p parts IH]; [done|].
  intros _ Hall. apply Forall_cons in Hall as [Hp Hall].
  destruct parts as [|p' parts].
  - simpl. by apply split_no_comma.
  - rewrite concat_cons by done. rewrite split_append by done.
    f_equal. by apply IH.
Qed.

(** X8.  Splitting at commas loses nothing: joining the pieces with commas
    gives the text back, there is one piece more than there are commas (so
    never none), no piece holds a comma, and a non-empty list of
    comma-free pieces, joined and split, comes back as it was. *)
Theorem split_comma_round_trip :
  (forall s, join_comma (split_comma s) = s) /\
  (forall s, length (split_comma s) = S (count_commas s)) /\
  (forall s, Forall (fun p => count_commas p = 0) (split_comma s)) /\
  (forall parts, parts <> [] -> Forall (fun p => count_commas p = 0) parts ->
                 split_comma (join_comma parts) = parts).
Proof.
  split; [exact join_split|]. split; [exact length_split|].
  split; [exact split_pieces | exact split_join].
Qed.

Section WithRuntime.
Context `{PyRuntime}.

(** ** The quote payload *)


(** ** The trigger configuration *)

Lemma map_res_length {A B} (f : A -> res B) (l : list A) (ys : list B) :
  map_res f l = Ok ys -> length ys = length l.
Proof.
  revert ys. induction l as [|x l IH]; simpl; intros ys.
  - by intros [= <-].
  - destruct (f x); [|done]. destruct (map_res f l) as [ys'|]; [|done].
    intros [= <-]. simpl. f_equal. by apply IH.
Qed.

Lemma map_res_raises {A B} (f : A -> res B) (l : list A) :
  Exists (fun x => exists err, f x = Raise err) l ->
  exists err, map_res f l = Raise err.
Proof.
  induction 1 as [x l [err Hx]|x l _ [err IH]]; simpl.
  - rewrite Hx. eauto.
  - destruct (f x); [|eauto]. rewrite IH. eauto.
Qed.

Lemma map_res_values {A B} (f : A -> res B) (l : list A) (ys : list B) :
  map_res f l = Ok ys <-> Forall2 (fun x y => f x = Ok y) l ys.
Proof.
  revert ys. induction l as [|x l IH]; simpl; intros ys.
  - split; [intros [= <-]; constructor | by intros ->%Forall2_nil_inv_l].
  - split.
    + destruct (f x) as [y|] eqn:Hx; [|done].
      destruct (map_res f l) as [ys'|] eqn:Hl; [|done].
      intros [= <-]. constructor; [done|]. by apply IH.
    + intros (y & ys' & Hx & Hl & ->)%Forall2_cons_inv_l.
      rewrite Hx. apply IH in Hl. by rewrite Hl.
Qed.

(** X10.  The upside levels come from the config file whenever it is an
    object with a list under levels_up, and the --levels flag then plays no
    part: the levels are the elements of the list converted with [float],
    one by one and in their order, or no level at all when some element
    does not convert.  A config that is not an object gives no upside level
    either.  A config with no list under levels_up leaves the levels to the
    flag: its comma-separated pieces that are not blank, stripped and
    converted in their order. *)
Theorem config_levels_override_flag :
  (forall cfg flag, is_object cfg = false -> resolve_levels cfg flag = []) /\
  (forall d l flag lvls,
     dict_get d "levels_up" = Some (JList l) ->
     Forall2 (fun x lv => json_float x = Ok lv) l lvls ->
     resolve_levels (JDict d) flag = lvls) /\
  (forall d l flag1 flag2,
     dict_get d "levels_up" = Some (JList l) ->
     resolve_levels (JDict d) flag1 = resolve_levels (JDict d) flag2 /\
     (resolve_levels (JDict d) flag1 = [] \/
      length (resolve_levels (JDict d) flag1) = length l)) /\
  (forall d l flag,
     dict_get d "levels_up" = Some (JList l) ->
     Exists (fun x => exists err, json_float x = Raise err) l ->
     resolve_levels (JDict d) flag = []) /\
  (forall d flag lvls,
     (forall l, dict_get d "levels_up" <> Some (JList l)) ->
     Forall2 (fun tok lv => float_of_str (str_strip tok) = Some lv)
             (filter (fun tok => negb (String.eqb (str_strip tok) "")) (split_comma flag))
             lvls ->
     resolve_levels (JDict d) flag = lvls).
Proof.
  split; [|split; [|split; [|split]]].
  - intros cfg flag Hobj. by destruct cfg.
  - intros d l flag lvls Hd Hl. unfold resolve_levels. simpl. rewrite Hd.
    apply map_res_values in Hl. by rewrite Hl.
  - intros d l flag1 flag2 Hd. unfold resolve_levels. simpl. rewrite Hd.
    split; [done|].
    destruct (map_res json_float l) as [qs|err] eqn:Hm; [|by left].
    right. by eapply map_res_length.
  - intros d l flag Hd Hbad. unfold resolve_levels. simpl. rewrite Hd.
    by destruct (map_res_raises json_float l Hbad) as [err ->].
  - intros d flag lvls Hd Hl. unfold resolve_levels. simpl.
    assert (map_res (fun x => float_str (str_strip x))
              (filter (fun tok => negb (String.eqb (str_strip tok) "")) (split_comma flag))
            = Ok lvls) as Hm.
    { apply map_res_values. eapply Forall2_impl; [exact Hl|].
      intros tok lv Htok. unfold float_str. by rewrite Htok. }
    destruct (dict_get d "levels_up") as [[]|]; try (by rewrite Hm).
    by destruct (Hd l).
Qed.

(** X11.  The breakdown level resolves whenever the --breakdown flag is a
    number, whatever the config file holds: a config value that converts
    is the level, and when the config is no object, has no breakdown or
    has one that does not convert, the level is the number of the flag.
    It raises, with ValueError, only when the flag itself is not a
    number. *)
Theorem breakdown_falls_back_to_flag (cfg : json) (flag : string) :
  (forall b, float_of_str flag = Some b ->
     exists bd, resolve_breakdown cfg flag = Ok bd) /\
  (forall b, float_of_str flag = Some b ->
     (forall d v, cfg = JDict d -> dict_get d "breakdown" = Some v ->
                  exists err, json_float v = Raise err) ->
     resolve_breakdown cfg flag = Ok b) /\
  (forall err, resolve_breakdown cfg flag = Raise err ->
     float_of_str flag = None /\ exists m, err = ValueError m) /\
  (forall d v bd,
     cfg = JDict d -> dict_get d "breakdown" = Some v -> json_float v = Ok bd ->
     resolve_breakdown cfg flag = Ok bd).
Proof.
  split; [|split; [|split]].
  - intros b Hb. unfold resolve_breakdown, float_str. rewrite Hb.
    destruct cfg; simpl; eauto.
    destruct (dict_get l "breakdown") as [[]|]; simpl; eauto;
      match goal with |- context [match ?x with Ok _ => _ | Raise _ => _ end] =>
        destruct x; eauto end.
  - intros b Hb Hbad. unfold resolve_breakdown, float_str. rewrite Hb.
    destruct cfg as [| | | | |d]; simpl; try done.
    destruct (dict_get d "breakdown") as [v|] eqn:Hd; [|done].
    destruct (Hbad d v eq_refl Hd) as [err Hv].
    destruct v; try done; by rewrite Hv.
  - intros err. unfold resolve_breakdown, float_str.
    destruct (float_of_str flag) as [b|] eqn:Hb.
    + destruct cfg; simpl; try done.
      destruct (dict_get l "breakdown") as [[]|]; simpl; try done;
        match goal with |- context [match ?x with Ok _ => _ | Raise _ => _ end] =>
          destruct x; done end.
    + destruct cfg; simpl; try (intros [= <-]; eauto).
      destruct (dict_get l "breakdown") as [[]|]; simpl; try (intros [= <-]; eauto);
        match goal with |- context [match ?x with Ok _ => _ | Raise _ => _ end] =>
          destruct x; try done; intros [= <-]; eauto end.
  - intros d v bd -> Hd Hv. unfold resolve_breakdown. simpl. rewrite Hd.
    destruct v; simpl in *; try done; by rewrite Hv.
Qed.

(** ** The k-line rows *)

Lemma row_on_day_object (day : string) (r : json) :
  (is_object r = true /\ exists b, row_on_day day r = Ok b) \/
  (is_object r = false /\ exists m, row_on_day day r = Raise (AttributeError m)).
Proof. destruct r; simpl; eauto. Qed.

Lemma filter_rows_error (day : string) (rows : list json) :
  ((exists err, filter_res (row_on_day day) rows = Raise err) <->
   Exists (fun r => is_object r = false) rows) /\
  (forall err, filter_res (row_on_day day) rows = Raise err ->
               exists m, err = AttributeError m).
Proof.
  induction rows as [|r rows [IHiff IHerr]]; simpl.
  - split; [|done]. split; [by intros [? ?] | by intros ?%Exists_nil].
  - rewrite Exists_cons.
    destruct (row_on_day_object day r) as [[Hobj [b ->]]|[Hobj [m ->]]].
    + destruct (filter_res (row_on_day day) rows) as [ys|err'] eqn:Hf.
      * split; [|done]. split; [by intros [? ?]|].
        intros [Hr|Hrest]; [congruence|]. apply IHiff in Hrest as [? ?]. done.
      * split; [|intros err [= <-]; by apply IHerr].
        split; [|by eexists]. intros _. right. apply IHiff. by eexists.
    + split; [|intros err [= <-]; eauto].
      split; [by left | by eexists].
Qed.

(** X12.  [compute_vwap] raises on the rows it was given exactly when some
    row is not a JSON object, and then with AttributeError; on rows that
    are all objects it returns, a VWAP or None. *)
Theorem vwap_rows_error (rows : list json) (day : string) :
  ((exists err, vwap_of_rows rows day = Raise err) <->
   Exists (fun r => is_object r = false) rows) /\
  (forall err, vwap_of_rows rows day = Raise err -> exists m, err = AttributeError m).
Proof.
  destruct (filter_rows_error day rows) as [Hiff Herr].
  unfold vwap_of_rows.
  destruct (filter_res (row_on_day day) rows) as [today|err'] eqn:Hf.
  - assert (exists o, match today with
                      | [] => Ok None
                      | _ :: _ =>
                          if negb (float_truthy (float_sum (map (row_num "volume") today)))
                          then Ok None
                          else match float_div (float_sum (map (row_num "amount") today))
                                              (float_sum (map (row_num "volume") today)) with
                               | Ok v => Ok (Some v)
                               | Raise e => Raise e
                               end
                      end = Ok o) as [o ->].
    { destruct today as [|r today]; [by eexists|].
      destruct (float_truthy (float_sum (map (row_num "volume") (r :: today)))) eqn:Hv;
        [|by eexists].
      cbn [negb]. rewrite (float_div_nonzero _ _ Hv). by eexists. }
    split; [|done]. split; [by intros [? ?]|].
    intros Hex. apply Hiff in Hex as [? ?]. done.
  - split; [|intros err [= <-]; by apply Herr].
    split; [|by eexists]. intros _. apply Hiff. by eexists.
Qed.

(** ** What a run leaves on disk *)

Lemma replay_other_file e args q state r t s (p : string) :
  poll_shape e args q state r t ->
  p <> state_path args q ->
  replay t s !! p = s !! p.
Proof.
  intros Hshape Hp.
  destruct Hshape; simpl; rewrite ?lookup_insert_ne by done; done.
Qed.

(** ** The path of the state file *)

Lemma split_slash_nonempty (s : string) : split_slash s <> [].
Proof.
  induction s as [|c s IH]; simpl; [done|].
  destruct (Ascii.eqb c slash); [done|]. by destruct (split_slash s).
Qed.

Lemma split_slash_trailing (s : string) :
  split_slash (s ++ "/") = split_slash s ++ [""].
Proof.
  induction s as [|c s IH]; [reflexivity|].
  change (String c s +:+ "/") with (String c (s +:+ "/")). simpl.
  rewrite IH. destruct (Ascii.eqb c slash); [done|].
  pose proof (split_slash_nonempty s) as Hne.
  by destruct (split_slash s).
Qed.

(** A slash at the end of a relative directory makes no difference to the
    path pathlib builds. *)
Lemma state_path_trailing_slash (args args' : Args) (day : string) :
  state_dir args <> "" -> path_root (state_dir args) = "" ->
  state_dir args' = state_dir args +:+ "/" -> symbol args' = symbol args ->
  state_path_of args' day = state_path_of args day.
Proof.
  intros Hne Hroot Hdir Hsym. unfold state_path_of. rewrite Hdir, Hsym.
  f_equal. f_equal. unfold Path. f_equal.
  - destruct (state_dir args) as [|c s]; [done|].
    change (String c s +:+ "/") with (String c (s +:+ "/")).
    simpl in *. by destruct (Ascii.eqb c slash); [destruct s as [|c2 [|c3 s]];
      simpl in *; repeat case_match |].
  - unfold path_parts. rewrite split_slash_trailing, List.filter_app. simpl.
    apply app_nil_r.
Qed.

Lemma poll_shape_saves e args q state r t (p : string) (st : State) :
  poll_shape e args q state r t ->
  (p, st) ∈ saves t -> p = state_path args q.
Proof.
  intros Hshape Hin.
  destruct Hshape; simpl in Hin;
    repeat (apply elem_of_cons in Hin as [[= -> _]|Hin]; [done|]);
    by apply elem_of_nil in Hin.
Qed.

(** X13.  A run of the script writes no file but the state file of the
    quote's date and the symbol: every file at another path is as it was,
    whatever happened, and every write in the log is at that path.  The
    path is the one pathlib builds: a slash at the end of a relative state
    directory makes no difference to it. *)
Theorem script_leaves_other_files e args s (p : string) :
  ((forall q, quote_reply e = Ok q -> p <> state_path args q) ->
   (script e args s).1.2 !! p = s !! p) /\
  (forall p' st,
     (p', st) ∈ saves (script e args s).2 ->
     exists q, quote_reply e = Ok q /\ p' = state_path args q) /\
  (forall args' q,
     state_dir args <> "" -> path_root (state_dir args) = "" ->
     state_dir args' = state_dir args +:+ "/" -> symbol args' = symbol args ->
     state_path args' q = state_path args q).
Proof.
  split; [|split].
  - intros Hp. unfold script.
    destruct (is_trading_time (now_weekday e) (now_time e)) eqn:Ht.
    2:{ by rewrite (main_closed _ _ _ Ht). }
    destruct (quote_reply e) as [q|err] eqn:Hq.
    2:{ by rewrite (main_no_quote _ _ _ _ Ht Hq). }
    destruct (main_poll e args s q Ht Hq) as (r & t & Hshape & ->).
    assert ((match r with
             | Ok _ => (Finished, replay t s, poll_prefix args q ++ t)
             | Raise _ => (SysExit 0, replay t s, poll_prefix args q ++ t)
             end).1.2 = replay t s) as -> by (by destruct r).
    eapply replay_other_file; [exact Hshape | by apply Hp].
  - intros p' st. unfold script.
    destruct (is_trading_time (now_weekday e) (now_time e)) eqn:Ht.
    2:{ rewrite (main_closed _ _ _ Ht). simpl. by intros ?%elem_of_nil. }
    destruct (quote_reply e) as [q|err] eqn:Hq.
    2:{ rewrite (main_no_quote _ _ _ _ Ht Hq).
        destruct (String.eqb (config args) ""); simpl; by intros ?%elem_of_nil. }
    destruct (main_poll e args s q Ht Hq) as (r & t & Hshape & ->).
    assert ((match r with
             | Ok _ => (Finished, replay t s, poll_prefix args q ++ t)
             | Raise _ => (SysExit 0, replay t s, poll_prefix args q ++ t)
             end).2 = poll_prefix args q ++ t) as -> by (by destruct r).
    assert (saves (poll_prefix args q ++ t) = saves t) as ->.
    { unfold saves. rewrite omap_app. unfold poll_prefix.
      by destruct (String.eqb (config args) ""). }
    intros Hin. exists q. split; [done|]. by eapply poll_shape_saves.
  - intros args' q. apply state_path_trailing_slash.
Qed.

Lemma setdefault_fired_id (st : State) :
  is_Some (st_fired st) -> setdefault_fired st = st.
Proof. destruct st as [d [f|] v l]; simpl; [done | by intros [? ?]]. Qed.

Lemma poll_state_fired args q s : is_Some (st_fired (poll_state args q s)).
Proof. unfold poll_state, setdefault_fired. simpl. by eexists. Qed.

Lemma poll_state_written args q s (st : State) :
  st_date st = Some (date q) -> is_Some (st_fired st) ->
  poll_state args q (<[state_path args q := StateJson st]> s) = st.
Proof.
  intros Hd Hf. unfold poll_state, loaded_state, reset_if_date_changed.
  rewrite lookup_insert_eq, bool_decide_eq_true_2 by done.
  by apply setdefault_fired_id.
Qed.

(** X14.  The state a run writes last is the state the next run of the
    same date works on: it sits in the state file, its date is the date of
    the quote, and loading it neither resets nor changes it. *)
Theorem written_state_reloads e args s q (p : string) (st : State) :
  quote_reply e = Ok q ->
  last (saves (script e args s).2) = Some (p, st) ->
  p = state_path args q /\
  (script e args s).1.2 !! p = Some (StateJson st) /\
  st_date st = Some (date q) /\
  poll_state args q (script e args s).1.2 = st.
Proof.
  intros Hq. unfold script.
  destruct (is_trading_time (now_weekday e) (now_time e)) eqn:Ht.
  2:{ by rewrite (main_closed _ _ _ Ht). }
  destruct (main_poll e args s q Ht Hq) as (r & t & Hshape & ->).
  assert ((match r with
           | Ok _ => (Finished, replay t s, poll_prefix args q ++ t)
           | Raise _ => (SysExit 0, replay t s, poll_prefix args q ++ t)
           end).1.2 = replay t s) as -> by (by destruct r).
  assert ((match r with
           | Ok _ => (Finished, replay t s, poll_prefix args q ++ t)
           | Raise _ => (SysExit 0, replay t s, poll_prefix args q ++ t)
           end).2 = poll_prefix args q ++ t) as -> by (by destruct r).
  assert (saves (poll_prefix args q ++ t) = saves t) as ->.
  { unfold saves. rewrite omap_app. unfold poll_prefix.
    by destruct (String.eqb (config args) ""). }
  pose proof (poll_state_date args q s) as Hdate.
  pose proof (poll_state_fired args q s) as Hfired.
  destruct Hshape as [r|rel|r key text Hf|key text rel Hf]; simpl; [done|..];
    intros [= <- <-]; (split; [done|]); rewrite ?lookup_insert_eq;
    (split; [done|]); (split; [done|]);
    rewrite ?insert_insert_eq; apply poll_state_written; try done; by eexists.
Qed.

(** X15.  Within a day the fired marks only grow: an id that is fired in
    the state a run works on is still fired in the state the next run of
    that date will work on. *)
Theorem fired_marks_persist e args s q (key : string) :
  quote_reply e = Ok q ->
  fired_get (poll_state args q s) key = true ->
  fired_get (poll_state args q (script e args s).1.2) key = true.
Proof.
  intros Hq Hkey. unfold script.
  destruct (is_trading_time (now_weekday e) (now_time e)) eqn:Ht.
  2:{ by rewrite (main_closed _ _ _ Ht). }
  destruct (main_poll e args s q Ht Hq) as (r & t & Hshape & ->).
  assert ((match r with
           | Ok _ => (Finished, replay t s, poll_prefix args q ++ t)
           | Raise _ => (SysExit 0, replay t s, poll_prefix args q ++ t)
           end).1.2 = replay t s) as -> by (by destruct r).
  pose proof (poll_state_date args q s) as Hdate.
  destruct Hshape as [r|rel|r key' text Hf|key' text rel Hf]; simpl; [done|..];
    rewrite ?insert_insert_eq; rewrite poll_state_after_write by done.
  - exact Hkey.
  - change (fired_get (mark_fired (poll_state args q s) key' (ts q)) key = true).
    rewrite fired_get_mark_fired. by case_bool_decide.
  - change (fired_get (mark_fired (poll_state args q s) key' (ts q)) key = true).
    rewrite fired_get_mark_fired. by case_bool_decide.
Qed.

(** X16.  When the quote cannot be fetched in trading hours the script
    exits with status 0 having done nothing else: the state file is not
    read, no k-lines are fetched, nothing is written, nothing is sent. *)
Theorem script_quiet_on_quote_failure e args s (err : exn) :
  is_trading_time (now_weekday e) (now_time e) = true ->
  quote_reply e = Raise err ->
  script e args s =
    (SysExit 0, s,
     (if String.eqb (config args) "" then [] else [EvReadConfig (config args)]) ++
     [EvFetchQuote (symbol args)]).
Proof.
  intros Ht Hq. unfold script. by rewrite (main_no_quote _ _ _ _ Ht Hq).
Qed.

(** ** The breakdown and the cross *)

(** X17.  With no upside level due, a price below the breakdown level
    whose id has not fired makes the poll mark that id, write the state and
    send the breakdown message, and nothing more: the cross step does not
    run and no relation is written. *)
Theorem breakdown_fires_alone e args s q (bd : Q) :
  is_trading_time (now_weekday e) (now_time e) = true ->
  quote_reply e = Ok q ->
  none_due q (poll_state args q s) (resolve_levels (poll_cfg e args) (levels args)) ->
  resolve_breakdown (poll_cfg e args) (breakdown args) = Ok bd ->
  break_due q (poll_state args q s) bd = true ->
  let st1 := mark_fired (poll_state args q s) (break_key bd) (ts q) in
  let msg := break_msg args q (poll_vwap e q) (poll_change q) bd in
  exists r,
    main e args s =
      (r, <[state_path args q := StateJson st1]> s,
       poll_prefix args q ++
       [EvMark (break_key bd); EvSaveState (state_path args q) st1;
        EvSendMessage (channel args) (target args) msg]).
Proof.
  intros Ht Hq Hnone Hbdr Hbd. cbv zeta.
  destruct (main_does e args s q Ht Hq) as (r & t & Hd & Hmain).
  destruct Hd as [pre lv0 post Hsplit Hpre Hlv0
                 | err _ Hbdr' | bd' _ Hbdr' Hbd' | bd' err _ Hbdr' Hbd' _
                 | bd' enabled _ Hbdr' Hbd' _ _
                 | bd' enabled rel v' _ Hbdr' Hbd' _ _ _
                 | bd' enabled rel v' _ Hbdr' Hbd' _ _ _];
    try (rewrite Hbdr in Hbdr'; try injection Hbdr' as <-; congruence).
  - exfalso. eapply (none_due_not_due _ _ _ lv0 Hnone); [|done].
    rewrite Hsplit. apply elem_of_app. right. by left.
  - rewrite Hbdr in Hbdr'. injection Hbdr' as <-.
    exists (after_notify e). exact Hmain.
Qed.

Lemma cross_key_inj (rel rel' : string) : cross_key rel = cross_key rel' -> rel = rel'.
Proof.
  unfold cross_key. intros Heq. cbn in Heq. by injection Heq.
Qed.

(** X18.  The poll marks a VWAP-cross id only on a change of side: the
    relation stored by an earlier poll is there, is not empty and is not
    the present one, and the present one is above or below.  So the first
    poll of a day, which finds no stored relation, never fires a cross. *)
Theorem cross_only_on_side_change e args s q (rel : string) :
  quote_reply e = Ok q ->
  cross_key rel ∈ marks (script e args s).2 ->
  crossed (st_vwap_rel (poll_state args q s)) rel = true /\
  (exists l, st_vwap_rel (poll_state args q s) = Some l /\ l <> "" /\ l <> rel) /\
  relation q (poll_vwap e q) = Some rel /\
  (rel = "above" \/ rel = "below").
Proof.
  intros Hq. unfold script.
  destruct (is_trading_time (now_weekday e) (now_time e)) eqn:Ht.
  2:{ rewrite (main_closed _ _ _ Ht). simpl. by intros ?%elem_of_nil. }
  destruct (main_does e args s q Ht Hq) as (r & t & Hd & ->).
  assert ((match r with
           | Ok _ => (Finished, replay t s, poll_prefix args q ++ t)
           | Raise _ => (SysExit 0, replay t s, poll_prefix args q ++ t)
           end).2 = poll_prefix args q ++ t) as -> by (by destruct r).
  rewrite marks_app, poll_prefix_marks. simpl.
  destruct Hd as [pre lv0 post _ _ _
                 | err _ _ | bd _ _ _ | bd err _ _ _ _
                 | bd enabled _ _ _ _ _
                 | bd enabled rel' v _ _ _ _ _ _
                 | bd enabled rel' v _ _ _ _ Hready Hdue];
    try (simpl; by intros ?%elem_of_nil).
  - simpl. intros Hin%list_elem_of_singleton. discriminate Hin.
  - simpl. intros Hin%list_elem_of_singleton. discriminate Hin.
  - assert (marks (fire_log args q (poll_state args q s) (cross_key rel')
                     (cross_msg args q (poll_change q) rel' v) ++
                   match notify_reply e with
                   | Exited _ =>
                       [EvSaveState (state_path args q)
                          (set_vwap_rel
                             (mark_fired (poll_state args q s) (cross_key rel') (ts q)) rel')]
                   | SpawnFailed _ => []
                   end) = [cross_key rel']) as -> by (by destruct (notify_reply e)).
    intros Hin%list_elem_of_singleton. apply cross_key_inj in Hin as <-.
    unfold cross_due in Hdue. apply andb_true_iff in Hdue as [Hcr _].
    split; [exact Hcr|]. split.
    { unfold crossed in Hcr.
      destruct (st_vwap_rel (poll_state args q s)) as [l|] eqn:Hl; [|done].
      apply andb_true_iff in Hcr as [Hne Hdiff].
      apply negb_true_iff in Hne. apply negb_true_iff in Hdiff.
      exists l. split; [exact Hl|].
      split; intros ->; by rewrite String.eqb_refl in *. }
    unfold cross_ready in Hready.
    destruct (poll_vwap e q) as [v'|]; [|done].
    destruct (relation q (Some v')) as [rel''|] eqn:Hrel; [|done].
    destruct (enabled && float_truthy v' &&
              (String.eqb rel'' "above" || String.eqb rel'' "below")) eqn:Hgo; [|done].
    injection Hready as -> ->. split; [done|].
    apply andb_true_iff in Hgo as [_ Hside].
    apply orb_true_iff in Hside as [Hs|Hs]; apply String.eqb_eq in Hs; tauto.
Qed.

(** X19.  The quote is fetched exactly in trading hours: on a weekday,
    from 09:30:00 to 11:30:00 and from 13:00:00 to 15:00:00, the four end
    points included. *)
Theorem quote_fetched_iff_in_session e args s :
  time_valid (now_time e) ->
  EvFetchQuote (symbol args) ∈ (script e args s).2 <->
  now_weekday e < 5 /\
  ((us_hm 9 30 <= us_of_time (now_time e) <= us_hm 11 30)%Z \/
   (us_hm 13 0 <= us_of_time (now_time e) <= us_hm 15 0)%Z).
Proof.
  intros Hv. rewrite <- (is_trading_time_spec _ _ Hv). unfold script.
  destruct (is_trading_time (now_weekday e) (now_time e)) eqn:Ht.
  2:{ rewrite (main_closed _ _ _ Ht). simpl. split; [by intros ?%elem_of_nil | done]. }
  split; [done|]. intros _.
  destruct (quote_reply e) as [q|err] eqn:Hq.
  - destruct (main_poll e args s q Ht Hq) as (r & t & _ & ->).
    assert ((match r with
             | Ok _ => (Finished, replay t s, poll_prefix args q ++ t)
             | Raise _ => (SysExit 0, replay t s, poll_prefix args q ++ t)
             end).2 = poll_prefix args q ++ t) as -> by (by destruct r).
    apply elem_of_app. left. unfold poll_prefix.
    apply elem_of_app. right. by left.
  - rewrite (main_no_quote _ _ _ _ Ht Hq). simpl.
    apply elem_of_app. right. by left.
Qed.

End WithRuntime.

End AlertsMoreFacts.

(** * The further theorems at concrete inputs *)

Module MoreExamplesFacts.
Import Alerts AlertsSpec AlertsFacts AlertsMore AlertsMoreFacts Examples MoreExamples Demo.

(** The Eastmoney lines parse to two bars, in time order, with the volume
    in shares. *)
Example eastmoney_lines_parse :
  exists b1 b2,
    ReportMore.eastmoney_kline klines0 = Ok [b1; b2] /\
    Report.dt b1 = DateTime 2026 2 10 (Time 9 35 0 0) /\
    Report.dt b2 = DateTime 2026 2 10 (Time 9 40 0 0) /\
    Report.close b1 = round_double 10.10 /\ Report.high b1 = round_double 10.20 /\
    (Report.volume b1 == 500)%Q.
Proof.
  eexists _, _. split; [vm_compute; reflexivity|].
  repeat split; vm_compute; reflexivity.
Qed.

(** [round_double] on values whose doubles are known: 0.3 and 9.95, the
    quotient 2985/300, an int beyond 53 bits (a tie, to the even
    neighbour), and the two smallest magnitudes, where half the smallest
    subnormal goes to zero and three halves of it to its double. *)
Example round_double_known_values :
  (round_double 0.3 == ReportMore.float_0_3)%Q /\
  (round_double 9.95 == 2800676018271027 # 281474976710656)%Q /\
  (round_double (2985 / 300) == round_double 9.95)%Q /\
  (round_double (round_double 9.95) == round_double 9.95)%Q /\
  (round_double (inject_Z (2 ^ 53 + 1)) == inject_Z (2 ^ 53))%Q /\
  (round_double (1 # 2 ^ 1075) == 0)%Q /\
  (round_double (3 # 2 ^ 1075) == 1 # 2 ^ 1073)%Q.
Proof. repeat split; vm_compute; reflexivity. Qed.

(** The state file of a directory given with a slash at its end is the
    one of the directory given without, and a date of the quote that
    starts with a slash makes the path absolute. *)
Example state_path_as_pathlib :
  state_path_of args_slash "2026-02-10" = path0 /\
  state_path_of args0 "2026-02-10" = path0 /\
  state_path_of args0 "/tmp/x" = "/tmp/x_sh600158.json".
Proof. repeat split; vm_compute; reflexivity. Qed.

(** An int too large for a float among the levels of the config: no
    upside level at all. *)
Example huge_level_gives_no_levels :
  json_float (JNum (inject_Z (10 ^ 400)))
    = Raise (OverflowError "int too large to convert to float") /\
  resolve_levels cfg_huge_level "10.00,10.03" = [].
Proof. split; vm_compute; reflexivity. Qed.

(** A session at one price.  The exact quotient 2985/300 is not the double
    nearest to 9.95, the quotient of the floats is: the VWAP equals the
    price, the relation is equal, and the poll writes nothing, though the
    cross trigger is enabled and a relation is stored. *)
Example flat_session_writes_nothing :
  ~ (2985 / 300 == round_double 9.95)%Q /\
  poll_vwap env_flat quote_flat = Some (round_double 9.95) /\
  relation quote_flat (poll_vwap env_flat quote_flat) = Some "equal" /\
  vwap_cross_enabled (poll_cfg env_flat args0) = Ok true /\
  st_vwap_rel (poll_state args0 quote_flat store_below) = Some "below" /\
  script env_flat args0 store_below
  = (Finished, store_below,
     [EvFetchQuote "sh600158"; EvLoadState path0; EvFetchKline "sh600158"]).
Proof.
  split; [vm_compute; discriminate|].
  repeat split; vm_compute; reflexivity.
Qed.

Lemma script_leaves_other_files_witness :
  (forall q, quote_reply env_plain = Ok q ->
             "data/ashare/auction/2026-02-10_sh600158.json" <> state_path args0 q) /\
  (script env_plain args0 store_stale).1.2 !! "data/ashare/auction/2026-02-10_sh600158.json"
  = store_stale !! "data/ashare/auction/2026-02-10_sh600158.json".
Proof.
  assert (forall q, quote_reply env_plain = Ok q ->
            "data/ashare/auction/2026-02-10_sh600158.json" <> state_path args0 q) as Hp.
  { intros q [= <-]. vm_compute. discriminate. }
  split; [exact Hp|].
  apply (script_leaves_other_files env_plain args0 store_stale _), Hp.
Defined.

Lemma written_state_reloads_witness :
  exists st,
    last (saves (script env_vwap_mid args0 store_below).2) = Some (path0, st) /\
    st_vwap_rel st = Some "above" /\
    poll_state args0 quote_mid (script env_vwap_mid args0 store_below).1.2 = st.
Proof.
  eexists. split; [vm_compute; reflexivity|]. split; [reflexivity|].
  eapply (written_state_reloads env_vwap_mid args0 store_below quote_mid path0);
    [reflexivity | vm_compute; reflexivity].
Defined.

Lemma fired_marks_persist_witness :
  fired_get (poll_state args0 quote_high store_fired) "touch_up_10.00" = true /\
  marks (script env_plain args0 store_fired).2 = ["touch_up_10.03"] /\
  fired_get (poll_state args0 quote_high (script env_plain args0 store_fired).1.2)
            "touch_up_10.00" = true.
Proof.
  assert (fired_get (poll_state args0 quote_high store_fired) "touch_up_10.00" = true)
    as Hold by (vm_compute; reflexivity).
  split; [exact Hold|]. split; [vm_compute; reflexivity|].
  apply (fired_marks_persist env_plain args0 store_fired quote_high); [reflexivity | exact Hold].
Defined.

Lemma script_quiet_on_quote_failure_witness :
  is_trading_time (now_weekday env_no_quote) (now_time env_no_quote) = true /\
  script env_no_quote args0 store_fired
  = (SysExit 0, store_fired, [EvFetchQuote "sh600158"]).
Proof.
  split; [vm_compute; reflexivity|].
  apply (script_quiet_on_quote_failure env_no_quote args0 store_fired
           (RequestException "timeout")); [vm_compute; reflexivity | reflexivity].
Defined.

Lemma breakdown_fires_alone_witness :
  break_due quote_low (poll_state args0 quote_low ∅) (round_double 9.86) = true /\
  exists r s' t,
    main env_low args0 ∅ = (r, s', t) /\
    marks t = [break_key (round_double 9.86)] /\ length (sends t) = 1 /\ length (saves t) = 1.
Proof.
  assert (break_due quote_low (poll_state args0 quote_low ∅) (round_double 9.86) = true) as Hdue
    by (vm_compute; reflexivity).
  split; [exact Hdue|].
  destruct (breakdown_fires_alone env_low args0 ∅ quote_low (round_double 9.86)) as [r Hmain].
  - vm_compute. reflexivity.
  - reflexivity.
  - assert (resolve_levels (poll_cfg env_low args0) (levels args0)
            = [round_double 10.00; round_double 10.03]) as ->
      by (vm_compute; reflexivity).
    repeat constructor; vm_compute; reflexivity.
  - vm_compute. reflexivity.
  - exact Hdue.
  - eexists r, _, _. split; [exact Hmain|].
    rewrite marks_app, poll_prefix_marks.
    repeat split; vm_compute; reflexivity.
Defined.

Lemma cross_only_on_side_change_witness :
  cross_key "above" ∈ marks (script env_vwap_mid args0 store_below).2 /\
  st_vwap_rel (poll_state args0 quote_mid store_below) = Some "below" /\
  relation quote_mid (poll_vwap env_vwap_mid quote_mid) = Some "above".
Proof.
  assert (cross_key "above" ∈ marks (script env_vwap_mid args0 store_below).2) as Hin.
  { assert (marks (script env_vwap_mid args0 store_below).2 = [cross_key "above"]) as ->
      by (vm_compute; reflexivity).
    by left. }
  split; [exact Hin|]. split; [vm_compute; reflexivity|].
  destruct (cross_only_on_side_change env_vwap_mid args0 store_below quote_mid "above"
              eq_refl Hin) as (_ & _ & Hrel & _).
  exact Hrel.
Defined.

Lemma quote_fetched_iff_in_session_witness :
  time_valid (now_time env_plain) /\
  EvFetchQuote "sh600158" ∈ (script env_plain args0 ∅).2.
Proof.
  assert (time_valid (now_time env_plain)) as Hv
    by (unfold time_valid; simpl; lia).
  split; [exact Hv|].
  apply (quote_fetched_iff_in_session env_plain args0 ∅ Hv).
  split; [simpl; lia|]. left. vm_compute. split; discriminate.
Defined.

End MoreExamplesFacts.

(** * Facts about the config generator *)

Module GeneratorFacts.
Import Generator ReportFacts.

Lemma insert_level_perm (x : Q) (l : list Q) : insert_level x l ≡ₚ x :: l.
Proof.
  induction l as [|y l IH]; simpl; [done|].
  destruct (Qltb y x); [|done]. rewrite IH. apply Permutation_swap.
Qed.

Lemma sorted_perm (l : list Q) : sorted l ≡ₚ l.
Proof.
  induction l as [|x l IH]; simpl; [done|]. by rewrite insert_level_perm, IH.
Qed.

Lemma insert_level_sorted (x : Q) (l : list Q) :
  StronglySorted Qle l -> StronglySorted Qle (insert_level x l).
Proof.
  induction 1 as [|y l Hl IH Hy]; simpl.
  - by repeat constructor.
  - destruct (Qltb y x) eqn:E.
    + constructor; [assumption|].
      rewrite insert_level_perm. constructor; [|assumption].
      apply Qltb_true in E. by apply Qlt_le_weak.
    + apply Qltb_false in E.
      constructor; [by constructor|]. constructor; [assumption|].
      eapply Forall_impl; [exact Hy|]. intros z Hz. by eapply Qle_trans.
Qed.

Lemma sorted_sorted (l : list Q) : StronglySorted Qle (sorted l).
Proof.
  induction l as [|x l IH]; simpl; [constructor|]. by apply insert_level_sorted.
Qed.

Section WithRound.
Context `{PyRound}.

Lemma existsb_Qeq_false (v : Q) (seen : list Q) :
  existsb (Qeq_bool v) seen = false -> Forall (fun w => ~ (v == w)%Q) seen.
Proof.
  induction seen as [|w seen IH]; simpl; [by constructor|].
  intros Hex. apply orb_false_iff in Hex as [Hw Hrest].
  constructor; [by apply Qeq_bool_neq | by apply IH].
Qed.

(** What the loop puts out: values not seen before, positive, each the
    rounding of an item, and in strictly ascending order when the items
    are ascending and rounding keeps the order. *)
Lemma uniq_loop_spec (xs : list Q) :
  (forall x y, (x <= y)%Q -> (round_2 x <= round_2 y)%Q) ->
  StronglySorted Qle xs ->
  forall seen,
    StronglySorted Qlt (uniq_loop seen xs) /\
    Forall (fun v => (0 < v)%Q /\ (exists x, x ∈ xs /\ v = round_2 x) /\
                     Forall (fun w => ~ (v == w)%Q) seen)
           (uniq_loop seen xs).
Proof.
  intros Hmono. induction 1 as [|x xs Hs IH Hx]; intros seen; simpl.
  - split; constructor.
  - assert (forall seen',
      Forall (fun v => (0 < v)%Q /\ (exists x', x' ∈ xs /\ v = round_2 x') /\
                       Forall (fun w => ~ (v == w)%Q) seen') (uniq_loop seen' xs) ->
      Forall (fun v => (0 < v)%Q /\ (exists x0, x0 ∈ x :: xs /\ v = round_2 x0) /\
                       Forall (fun w => ~ (v == w)%Q) seen') (uniq_loop seen' xs)) as Hweak.
    { intros seen' Hall'. eapply Forall_impl; [exact Hall'|].
      intros v (Hpos & (x' & Hin & ->) & Hnew).
      split; [done|]. split; [|done]. exists x'. split; [by right | done]. }
    destruct (Qleb (round_2 x) 0) eqn:Hle.
    { destruct (IH seen) as [Hsorted Hall]. split; [done | by apply Hweak]. }
    destruct (existsb (Qeq_bool (round_2 x)) seen) eqn:Hseen.
    { destruct (IH seen) as [Hsorted Hall]. split; [done | by apply Hweak]. }
    destruct (IH (round_2 x :: seen)) as [Hsorted Hall].
    assert (0 < round_2 x)%Q as Hpos.
    { apply Qnot_le_lt. intros Hneg. apply Qle_bool_iff in Hneg.
      unfold Qleb in Hle. congruence. }
    split.
    + constructor; [done|].
      eapply Forall_impl; [exact Hall|].
      intros v (_ & (x' & Hin & ->) & Hnew).
      apply Forall_cons in Hnew as [Hne _].
      rewrite Forall_forall in Hx.
      destruct (proj1 (Qle_lteq _ _) (Hmono x x' (Hx x' Hin))) as [Hlt|Heq]; [done|].
      exfalso. apply Hne. by symmetry.
    + constructor.
      * split; [done|]. split; [exists x; split; [by left | done]|].
        by apply existsb_Qeq_false.
      * apply Hweak in Hall. eapply Forall_impl; [exact Hall|].
        intros v (Hp & Hfrom & Hnew). split; [done|]. split; [done|].
        by apply Forall_cons in Hnew as [_ ?].
Qed.

(** X20.  Provided rounding to two decimals keeps the order of floats, the
    levels [uniq_sorted] puts into the config are strictly ascending and
    positive, whatever the order and the repetitions of the levels it was
    given, and each is the rounding of one of them. *)
Theorem uniq_sorted_ascending (levels : list Q) :
  (forall x y, (x <= y)%Q -> (round_2 x <= round_2 y)%Q) ->
  StronglySorted Qlt (uniq_sorted levels) /\
  Forall (fun v => (0 < v)%Q /\ exists x, x ∈ levels /\ v = round_2 x)
         (uniq_sorted levels).
Proof.
  intros Hmono. unfold uniq_sorted.
  destruct (uniq_loop_spec (sorted levels) Hmono (sorted_sorted levels) [])
    as [Hsorted Hall].
  split; [exact Hsorted|].
  eapply Forall_impl; [exact Hall|].
  intros v (Hpos & (x & Hin & ->) & _). split; [done|].
  exists x. split; [|done]. by rewrite <- (sorted_perm levels).
Qed.

End WithRound.

(** Rounding half to even keeps the order. *)
Lemma round_half_even_mono (a b : Q) :
  (a <= b)%Q -> (Demo.round_half_even a <= Demo.round_half_even b)%Z.
Proof.
  intros Hab. unfold Demo.round_half_even, nearest_even.
  pose proof (Qfloor_resp_le _ _ Hab) as Hfl.
  pose proof (Qfloor_le a) as Ha1. pose proof (Qlt_floor a) as Ha2.
  pose proof (Qfloor_le b) as Hb1. pose proof (Qlt_floor b) as Hb2.
  assert (forall x, (Demo.round_half_even x <= Qfloor x + 1)%Z /\
                    (Qfloor x <= Demo.round_half_even x)%Z) as Hrange.
  { intros x. unfold Demo.round_half_even, nearest_even.
    destruct (Qcompare (x - inject_Z (Qfloor x)) (1 # 2)); [destruct (Z.even _)|..]; lia. }
  destruct (Z.eq_dec (Qfloor a) (Qfloor b)) as [Heq|Hne].
  2:{ destruct (Hrange a) as [Hra _]. destruct (Hrange b) as [_ Hrb].
      unfold Demo.round_half_even, nearest_even in Hra, Hrb. lia. }
  rewrite <- Heq.
  assert (a - inject_Z (Qfloor a) <= b - inject_Z (Qfloor a))%Q as Hfrac.
  { apply Qplus_le_l with (z := inject_Z (Qfloor a)). ring_simplify. exact Hab. }
  destruct (Qcompare_spec (a - inject_Z (Qfloor a)) (1 # 2)) as [Ea|Ea|Ea];
  destruct (Qcompare_spec (b - inject_Z (Qfloor a)) (1 # 2)) as [Eb|Eb|Eb];
    try (destruct (Z.even (Qfloor a)); lia); try lia; exfalso.
  - rewrite Ea in Hfrac. eapply Qlt_irrefl, Qle_lt_trans; eauto.
  - eapply Qlt_irrefl. eapply Qlt_le_trans; [exact Ea|].
    eapply Qle_trans; [exact Hfrac|]. rewrite Eb. apply Qle_refl.
  - eapply Qlt_irrefl. eapply Qlt_le_trans; [exact Ea|].
    eapply Qle_trans; [exact Hfrac|]. by apply Qlt_le_weak.
Qed.

Lemma round_half_even_2_mono (x y : Q) :
  (x <= y)%Q -> (round_half_even_2 x <= round_half_even_2 y)%Q.
Proof.
  intros Hxy. unfold round_half_even_2.
  apply Qmult_le_compat_r; [|by vm_compute].
  rewrite <- Zle_Qle. apply round_half_even_mono.
  apply Qmult_le_compat_r; [exact Hxy | by vm_compute].
Qed.

Lemma uniq_sorted_ascending_witness :
  (forall x y, (x <= y)%Q -> (round_half_even_2 x <= round_half_even_2 y)%Q) /\
  uniq_sorted (H := rounding) [10.034%Q; 10.5%Q; 10.03%Q; (-1)%Q; 10.5%Q]
    = [round_half_even_2 10.03%Q; round_half_even_2 10.5%Q] /\
  StronglySorted Qlt
    (uniq_sorted (H := rounding) [10.034%Q; 10.5%Q; 10.03%Q; (-1)%Q; 10.5%Q]).
Proof.
  split; [exact round_half_even_2_mono|]. split; [reflexivity|].
  apply (uniq_sorted_ascending (H := rounding)
           [10.034%Q; 10.5%Q; 10.03%Q; (-1)%Q; 10.5%Q] round_half_even_2_mono).
Defined.

End GeneratorFacts.
